(** * DevSprint backend: progress tracking, burndown and simulation

    A shallow embedding of [backend/main.py].  The relational store behind
    the SQLAlchemy session is a record of tables, each table a list of rows
    in insertion order; a row is a record with the columns of its model
    class.  Calendar dates are day numbers ([date.toordinal]), so that
    [d + timedelta(days=k)] is [d + k] and [(a - b).days] is [a - b]; the
    clock raises where Python cannot build the date it is asked for.  A
    Python float is the rational it denotes, and the operations that yield
    one round as binary64 does. *)

From Stdlib Require Import ZArith List Bool String Ascii Lia QArith Qminmax.
From Stdlib Require Import Qround Qpower Lqa SpecFloat.
From Stdlib Require Import DecimalString DecimalPos DecimalZ.
Import ListNotations.

Open Scope Z_scope.

(** ** Enumerations *)

Module SprintStatus.
Inductive t := ACTIVE | CLOSED.
Definition eqb (a b : t) : bool :=
    match a, b with
    | ACTIVE, ACTIVE | CLOSED, CLOSED => true
    | _, _ => false
    end.
End SprintStatus.

Module TaskStatus.
Inductive t := TODO | IN_PROGRESS | CODE_REVIEW | DONE.
Definition eqb (a b : t) : bool :=
    match a, b with
    | TODO, TODO | IN_PROGRESS, IN_PROGRESS
    | CODE_REVIEW, CODE_REVIEW | DONE, DONE => true
    | _, _ => false
    end.
End TaskStatus.

Module UserStoryStatus.
Inductive t := PLANNED | ACTIVE | DONE.
Definition eqb (a b : t) : bool :=
    match a, b with
    | PLANNED, PLANNED | ACTIVE, ACTIVE | DONE, DONE => true
    | _, _ => false
    end.
End UserStoryStatus.

(** ** Rows

    [date] is [Z]; a nullable column is an [option]. *)

Definition date := Z.

Module SprintModel.
Record t := mk
    { id : Z;
      name : string;
      goal : option string;
      start_date : date;
      end_date : date;
      status : SprintStatus.t }.
End SprintModel.

Module UserStoryModel.
Record t := mk
    { id : Z;
      sprint_id : option Z;
      title : string;
      description : option string;
      story_points : Z;
      priority : Z;
      is_tech_debt : bool;
      status : UserStoryStatus.t }.

Definition set_status (v : UserStoryStatus.t) (s : t) : t :=
    mk (id s) (sprint_id s) (title s) (description s) (story_points s)
       (priority s) (is_tech_debt s) v.
End UserStoryModel.

Module TaskModel.
Record t := mk
    { id : Z;
      story_id : Z;
      title : string;
      status : TaskStatus.t;
      story_points : Z;
      is_tech_debt : bool;
      assignee : option string }.

Definition set_status (v : TaskStatus.t) (k : t) : t :=
    mk (id k) (story_id k) (title k) v (story_points k) (is_tech_debt k)
       (assignee k).
End TaskModel.

Module GitHubLinkModel.
Record t := mk
    { id : Z;
      task_id : Z;
      commit_hash : option string;
      pr_url : option string;
      repo_name : option string }.
End GitHubLinkModel.

Module BurndownSnapshotModel.
Record t := mk
    { id : Z;
      sprint_id : Z;
      snapshot_date : date;
      remaining_points : Z }.

Definition set_remaining_points (v : Z) (s : t) : t :=
    mk (id s) (sprint_id s) (snapshot_date s) v.
End BurndownSnapshotModel.

(** ** The store *)

Record DB := mkDB
  { sprints : list SprintModel.t;
    user_stories : list UserStoryModel.t;
    tasks : list TaskModel.t;
    github_links : list GitHubLinkModel.t;
    burndown_snapshots : list BurndownSnapshotModel.t }.

Definition with_user_stories (v : list UserStoryModel.t) (db : DB) : DB :=
  mkDB (sprints db) v (tasks db) (github_links db) (burndown_snapshots db).

Definition with_tasks (v : list TaskModel.t) (db : DB) : DB :=
  mkDB (sprints db) (user_stories db) v (github_links db)
       (burndown_snapshots db).

Definition with_github_links (v : list GitHubLinkModel.t) (db : DB) : DB :=
  mkDB (sprints db) (user_stories db) (tasks db) v (burndown_snapshots db).

Definition with_burndown_snapshots
    (v : list BurndownSnapshotModel.t) (db : DB) : DB :=
  mkDB (sprints db) (user_stories db) (tasks db) (github_links db) v.

(** An auto-increment primary key: one more than the largest key in use. *)
Definition next_id (ids : list Z) : Z := fold_right Z.max 0 ids + 1.

(** [db.get(Model, key)]. *)
Definition get_sprint (db : DB) (key : Z) : option SprintModel.t :=
  find (fun s => SprintModel.id s =? key) (sprints db).

Definition get_story (db : DB) (key : Z) : option UserStoryModel.t :=
  find (fun s => UserStoryModel.id s =? key) (user_stories db).

Definition get_task (db : DB) (key : Z) : option TaskModel.t :=
  find (fun k => TaskModel.id k =? key) (tasks db).

(** The relationships [story.tasks], [task.story] and [sprint.stories]. *)
Definition story_tasks (db : DB) (story : UserStoryModel.t)
  : list TaskModel.t :=
  filter (fun k => TaskModel.story_id k =? UserStoryModel.id story) (tasks db).

Definition task_story (db : DB) (task : TaskModel.t)
  : option UserStoryModel.t :=
  get_story db (TaskModel.story_id task).

Definition in_sprint (sid : Z) (s : UserStoryModel.t) : bool :=
  match UserStoryModel.sprint_id s with
  | Some i => i =? sid
  | None => false
  end.

Definition sprint_stories (db : DB) (sprint : SprintModel.t)
  : list UserStoryModel.t :=
  filter (in_sprint (SprintModel.id sprint)) (user_stories db).

(** Writing one column of the row with a given key. *)
Definition set_story_status (key : Z) (v : UserStoryStatus.t) (db : DB) : DB :=
  with_user_stories
    (map (fun s => if UserStoryModel.id s =? key
                   then UserStoryModel.set_status v s else s)
         (user_stories db))
    db.

Definition set_task_status (key : Z) (v : TaskStatus.t) (db : DB) : DB :=
  with_tasks
    (map (fun k => if TaskModel.id k =? key
                   then TaskModel.set_status v k else k)
         (tasks db))
    db.

(** ** Status rollup: [sync_story_status] *)

Definition is_done (k : TaskModel.t) : bool :=
  TaskStatus.eqb (TaskModel.status k) TaskStatus.DONE.

Definition is_under_way (k : TaskModel.t) : bool :=
  TaskStatus.eqb (TaskModel.status k) TaskStatus.IN_PROGRESS
  || TaskStatus.eqb (TaskModel.status k) TaskStatus.CODE_REVIEW.

Definition sync_story_status (db : DB) (story : UserStoryModel.t) : DB :=
  match story_tasks db story with
  | [] => db
  | ts =>
      if forallb is_done ts
      then set_story_status (UserStoryModel.id story) UserStoryStatus.DONE db
      else if existsb is_under_way ts
      then set_story_status (UserStoryModel.id story) UserStoryStatus.ACTIVE db
      else set_story_status (UserStoryModel.id story) UserStoryStatus.PLANNED db
  end.

(** The status a story has in the store, by key. *)
Definition story_status_of (db : DB) (key : Z) : option UserStoryStatus.t :=
  option_map UserStoryModel.status (get_story db key).

(** ** Query helpers

    [order_by] is a stable insertion sort on a total preorder given as a
    boolean test, [first] the head of the result; rows that compare equal
    keep their table order. *)

Section OrderBy.
Context {A : Type} (leb : A -> A -> bool).

Fixpoint insert_by (x : A) (l : list A) : list A :=
    match l with
    | [] => [x]
    | y :: l' => if leb x y then x :: l else y :: insert_by x l'
    end.

Definition order_by (l : list A) : list A :=
    fold_right insert_by [] l.
End OrderBy.

Definition first {A : Type} (l : list A) : option A := hd_error l.

Definition sum_Z (l : list Z) : Z := fold_right Z.add 0 l.

(** A Python [dict] with date keys: an association list in which a second
    assignment to a key replaces the first. *)
Fixpoint dict_set (k : date) (v : Z) (d : list (date * Z)) : list (date * Z) :=
  match d with
  | [] => [(k, v)]
  | (k', v') :: d' =>
      if k' =? k then (k, v) :: d' else (k', v') :: dict_set k v d'
  end.

Definition dict_get (k : date) (d : list (date * Z)) : option Z :=
  option_map snd (find (fun p => fst p =? k) d).

(** ** Binary64 arithmetic

    The value of a finite binary64 number is a rational; an operation that
    yields a float yields the binary64 number nearest to its exact result,
    the one with an even significand when two are equally near.  The
    exponent has no upper bound here: a total of story points beyond the
    range of a float (about 1.8e308), for which Python raises
    [OverflowError], is not part of the model. *)

(** Round to the nearest integer, ties to the even one. *)
Definition rne (q : Q) : Z :=
  let f := Qfloor q in
  match (q - inject_Z f ?= 1 # 2)%Q with
  | Lt => f
  | Gt => f + 1
  | Eq => if Z.even f then f else f + 1
  end.

Definition pow2 (e : Z) : Q := Qpower (inject_Z 2) e.

(** For a positive [q], the [e] with [2^e <= q < 2^(e+1)]. *)
Definition floor_log2 (q : Q) : Z :=
  let e := Z.log2 (Qnum q) - Z.log2 (Zpos (Qden q)) in
  if Qle_bool (pow2 e) q then e else e - 1.

(** The exponent of the last place of a binary64 number next to [q]: 53
    significant bits, and no exponent below that of the subnormals. *)
Definition ulp_exponent (q : Q) : Z := Z.max (floor_log2 q - 52) (-1074).

Definition round_pos (q : Q) : Q :=
  (inject_Z (rne (q / pow2 (ulp_exponent q))) * pow2 (ulp_exponent q))%Q.

Definition round64 (q : Q) : Q :=
  match (q ?= 0)%Q with
  | Gt => round_pos q
  | Lt => (- round_pos (- q))%Q
  | Eq => 0%Q
  end.

(** [float(n)] for an [int]. *)
Definition float_of_int (n : Z) : Q := round64 (inject_Z n).

(** [a / b] for two [int]s: the quotient is rounded once. *)
Definition int_truediv (a b : Z) : Q := round64 (inject_Z a / inject_Z b).

(** [x - y] for two floats. *)
Definition float_sub (x y : Q) : Q := round64 (x - y).

(** ** Burndown engine

    [ideal] and [actual] are floats in the response.  [actual] always holds
    an integer, which a float carries exactly up to 2^53. *)

Record BurndownPoint := mkPoint
  { day : string;
    ideal : Q;
    actual : Q }.

Definition set_actual (v : Q) (p : BurndownPoint) : BurndownPoint :=
  mkPoint (day p) (ideal p) v.

Definition is_story_done (s : UserStoryModel.t) : bool :=
  UserStoryStatus.eqb (UserStoryModel.status s) UserStoryStatus.DONE.

Definition calculate_remaining_points (db : DB) (sprint_id : Z) : Z :=
  sum_Z (map UserStoryModel.story_points
           (filter (fun s => in_sprint sprint_id s && negb (is_story_done s))
                   (user_stories db))).

(** [str(n)] for the day labels. *)
Definition str_of_Z (n : Z) : string := NilZero.string_of_int (Z.to_int n).

Definition sprint_snapshots (db : DB) (sprint : SprintModel.t)
  : list BurndownSnapshotModel.t :=
  order_by
    (fun a b => BurndownSnapshotModel.snapshot_date a
                <=? BurndownSnapshotModel.snapshot_date b)
    (filter (fun s => BurndownSnapshotModel.sprint_id s =? SprintModel.id sprint)
            (burndown_snapshots db)).

Definition make_snapshot_map (snapshots : list BurndownSnapshotModel.t)
  : list (date * Z) :=
  fold_left
    (fun d snap => dict_set (BurndownSnapshotModel.snapshot_date snap)
                            (BurndownSnapshotModel.remaining_points snap) d)
    snapshots [].

Section BurndownLoop.
Variables (total_days total_points : Z) (snapshot_map : list (date * Z)).

(** [total_points - (index * total_points / max(total_days - 1, 1))]: the
    product is an [int], the quotient of the two [int]s a float, and the
    difference of an [int] and a float the difference of two floats. *)
Definition ideal_remaining (index : Z) : Q :=
    float_sub (float_of_int total_points)
              (int_truediv (index * total_points) (Z.max (total_days - 1) 1)).

  (** The body of [for index in range(total_days)], [n] iterations from
      [index] on, threading [current_day] and [last_actual].  The day added
      at the end of an iteration is a day number here; Python builds the
      date, which it can for every sprint that ends before 9999-12-31. *)
Fixpoint burndown_loop (n : nat) (index : Z) (current_day : date)
      (last_actual : Z) : list BurndownPoint :=
    match n with
    | O => []
    | S n' =>
        let last_actual :=
          match dict_get current_day snapshot_map with
          | Some v => v
          | None => last_actual
          end in
        mkPoint ("Day " ++ str_of_Z (index + 1))
                (Qmax (ideal_remaining index) 0)
                (inject_Z (Z.max last_actual 0))
        :: burndown_loop n' (index + 1) (current_day + 1) last_actual
    end.
End BurndownLoop.

(** [points[-1].actual = v] on a non-empty list. *)
Definition set_last_actual (v : Q) (points : list BurndownPoint)
  : list BurndownPoint :=
  match points with
  | [] => []
  | _ => removelast points ++ [set_actual v (last points (mkPoint EmptyString 0 0))]
  end.

Definition sprint_total_days (sprint : SprintModel.t) : Z :=
  Z.max (SprintModel.end_date sprint - SprintModel.start_date sprint + 1) 1.

Definition sprint_total_points (db : DB) (sprint : SprintModel.t) : Z :=
  Z.max (sum_Z (map UserStoryModel.story_points (sprint_stories db sprint))) 0.

(** The guard on missing dates is vacuous, both columns being non-null. *)
Definition build_burndown_payload (db : DB) (sprint : SprintModel.t)
  : list BurndownPoint :=
  let total_days := sprint_total_days sprint in
  let total_points := sprint_total_points db sprint in
  let snapshots := sprint_snapshots db sprint in
  let snapshot_map := make_snapshot_map snapshots in
  let burndown_points :=
    burndown_loop total_days total_points snapshot_map
      (Z.to_nat total_days) 0 (SprintModel.start_date sprint) total_points in
  match burndown_points, snapshots with
  | _ :: _, [] =>
      set_last_actual
        (inject_Z (calculate_remaining_points db (SprintModel.id sprint)))
        burndown_points
  | _, _ => burndown_points
  end.

(** ** Snapshot recorder

    The session is created with [autoflush=False]: inside one call every
    query reads the rows as they were when the call began, assignments to a
    row that was read and rows given to [db.add] are pending, and
    [db.commit] writes them out, new rows receiving their keys in the order
    they were added.  The function has no [return] statement, so the value
    a caller receives is [None]. *)

Definition is_active (s : SprintModel.t) : bool :=
  SprintStatus.eqb (SprintModel.status s) SprintStatus.ACTIVE.

Definition active_sprints (db : DB) : list SprintModel.t :=
  filter is_active (sprints db).

Definition snapshot_at (sprint_id : Z) (d : date)
    (s : BurndownSnapshotModel.t) : bool :=
  (BurndownSnapshotModel.sprint_id s =? sprint_id)
  && (BurndownSnapshotModel.snapshot_date s =? d).

(** [snapshot.remaining_points = v] on the row with the given key. *)
Definition overwrite (key v : Z) (s : BurndownSnapshotModel.t)
  : BurndownSnapshotModel.t :=
  if BurndownSnapshotModel.id s =? key
  then BurndownSnapshotModel.set_remaining_points v s else s.

(** The columns of a snapshot row that are never written after it is
    created. *)
Definition skeleton (s : BurndownSnapshotModel.t) : Z * Z * date :=
  (BurndownSnapshotModel.id s, BurndownSnapshotModel.sprint_id s,
   BurndownSnapshotModel.snapshot_date s).

Definition capture_sprint (db : DB) (target_date : date)
    (pending : list BurndownSnapshotModel.t) (sprint : SprintModel.t)
  : list BurndownSnapshotModel.t :=
  let remaining := calculate_remaining_points db (SprintModel.id sprint) in
  match first (filter (snapshot_at (SprintModel.id sprint) target_date)
                      (burndown_snapshots db)) with
  | Some snapshot =>
      map (overwrite (BurndownSnapshotModel.id snapshot) remaining) pending
  | None =>
      pending
      ++ [BurndownSnapshotModel.mk
            (next_id (map BurndownSnapshotModel.id pending))
            (SprintModel.id sprint) target_date remaining]
  end.

(** [today] is what [get_today()] returns; it is read only when no date is
    given. *)
Definition capture_burndown_snapshots (today : date) (for_date : option date)
    (db : DB) : DB * option Z :=
  let target_date := match for_date with Some d => d | None => today end in
  (with_burndown_snapshots
     (fold_left (capture_sprint db target_date) (active_sprints db)
                (burndown_snapshots db))
     db,
   None).

(** The number of snapshot rows of a sprint on a day, and the invariant
    that no sprint has two on one day. *)
Definition snapshot_count (db : DB) (sprint_id : Z) (d : date) : nat :=
  List.length (filter (snapshot_at sprint_id d) (burndown_snapshots db)).

Definition one_snapshot_per_day (db : DB) : Prop :=
  forall sprint_id d, (snapshot_count db sprint_id d <= 1)%nat.

(** Primary keys: no two rows of a table share their [id]. *)
Definition primary_keys (db : DB) : Prop :=
  NoDup (map SprintModel.id (sprints db))
  /\ NoDup (map UserStoryModel.id (user_stories db))
  /\ NoDup (map TaskModel.id (tasks db))
  /\ NoDup (map GitHubLinkModel.id (github_links db))
  /\ NoDup (map BurndownSnapshotModel.id (burndown_snapshots db)).

(** ** Simulation driver *)

Definition current_sprint (db : DB) : option SprintModel.t :=
  first (order_by
           (fun a b => SprintModel.start_date a <=? SprintModel.start_date b)
           (active_sprints db)).

(** [ORDER BY is_tech_debt DESC, id]. *)
Definition task_order (a b : TaskModel.t) : bool :=
  match TaskModel.is_tech_debt a, TaskModel.is_tech_debt b with
  | true, false => true
  | false, true => false
  | _, _ => TaskModel.id a <=? TaskModel.id b
  end.

(** [ORDER BY priority, id]. *)
Definition story_order (a b : UserStoryModel.t) : bool :=
  if UserStoryModel.priority a <? UserStoryModel.priority b then true
  else if UserStoryModel.priority b <? UserStoryModel.priority a then false
  else UserStoryModel.id a <=? UserStoryModel.id b.

Definition task_in_sprint (db : DB) (sprint_id : Z) (k : TaskModel.t) : bool :=
  match task_story db k with
  | Some s => in_sprint sprint_id s
  | None => false
  end.

Definition pick_task (db : DB) (sprint : SprintModel.t) (status : TaskStatus.t)
  : option TaskModel.t :=
  first (order_by task_order
           (filter (fun k => TaskStatus.eqb (TaskModel.status k) status
                             && task_in_sprint db (SprintModel.id sprint) k)
                   (tasks db))).

Definition tech_debt_story (sprint_id key : Z) : UserStoryModel.t :=
  UserStoryModel.mk key (Some sprint_id) "Tech Debt Fixes"%string
    (Some "- 自动生成的技术债务故事
- 清理告警与代码异味"%string)
    5 1 true UserStoryStatus.PLANNED.

Definition tech_debt_task (story_id key : Z) : TaskModel.t :=
  TaskModel.mk key story_id "处理技术债务项"%string TaskStatus.TODO 2 true None.

Definition ensure_tech_debt_task (db : DB) (sprint : SprintModel.t)
  : DB * TaskModel.t :=
  let found :=
    first (order_by story_order (sprint_stories db sprint)) in
  let '(db, story) :=
    match found with
    | Some story => (db, story)
    | None =>
        let story :=
          tech_debt_story (SprintModel.id sprint)
            (next_id (map UserStoryModel.id (user_stories db))) in
        (with_user_stories (user_stories db ++ [story]) db, story)
    end in
  let task :=
    tech_debt_task (UserStoryModel.id story)
      (next_id (map TaskModel.id (tasks db))) in
  (with_tasks (tasks db ++ [task]) db, task).

(** One branch of [simulate_progress]: write the task's new status and, when
    the task has a story, roll its status up. *)
Definition transition (db : DB) (task : TaskModel.t) (status : TaskStatus.t)
  : DB :=
  let db := set_task_status (TaskModel.id task) status db in
  match task_story db task with
  | Some story => sync_story_status db story
  | None => db
  end.

Definition simulate_progress (db : DB) : DB :=
  match current_sprint db with
  | None => db
  | Some sprint =>
      let code_review_task := pick_task db sprint TaskStatus.CODE_REVIEW in
      let in_progress_task := pick_task db sprint TaskStatus.IN_PROGRESS in
      let todo_task := pick_task db sprint TaskStatus.TODO in
      match code_review_task, in_progress_task, todo_task with
      | Some task, _, _ => transition db task TaskStatus.DONE
      | None, Some task, _ => transition db task TaskStatus.CODE_REVIEW
      | None, None, Some task => transition db task TaskStatus.IN_PROGRESS
      | None, None, None => fst (ensure_tech_debt_task db sprint)
      end
  end.

(** ** Clock and simulation control

    [SIMULATION_OFFSET_DAYS] is a module-level global; the state of the
    process is the store together with that offset.  [real_today] stands for
    [date.today()].

    A [datetime.date] lies between 0001-01-01 and 9999-12-31, the day
    numbers 1 to 3652059, and [date.today() + timedelta(days=k)] raises
    [OverflowError] when the sum leaves that range ([timedelta] itself
    refuses more than 999999999 days, with the same exception, and such an
    offset is out of the range anyway).  [get_today] is the day number the
    sum stands for and [date_in_range] tells whether Python can build it; a
    handler that calls [get_today()] tests the range where the call is.

    A handler answers with a value, raises [HTTPException], or lets another
    exception escape, which the framework turns into status 500.
    [Unhandled] records the exception and the state the process is left in:
    an assignment to the global made before the exception stays, what the
    session had not committed is lost.  Dates in a response are left as
    dates rather than ISO strings. *)

Record World := mkWorld
  { store : DB;
    SIMULATION_OFFSET_DAYS : Z }.

Inductive result (St A : Type) : Type :=
| Ok (a : A)
| HTTPException (status_code : Z) (detail : string)
| Unhandled (exception : string) (state : St).

Arguments Ok {St A} a.
Arguments HTTPException {St A} status_code detail.
Arguments Unhandled {St A} exception state.

(** [date.max.toordinal()]. *)
Definition date_max : Z := 3652059.

Definition date_in_range (d : Z) : bool := (1 <=? d) && (d <=? date_max).

Definition get_today (real_today : date) (w : World) : date :=
  real_today + SIMULATION_OFFSET_DAYS w.

Record AdvanceResponse := mkAdvance
  { created_snapshots : Z;
    last_date : date;
    adv_current_day : date;
    adv_offset_days : Z }.

(** The body of [for _ in range(days)], threading the world, [created] and
    [simulate_date]. *)
Fixpoint advance_loop (real_today : date) (n : nat) (w : World)
    (created : Z) (simulate_date : date) : result World (World * Z * date) :=
  match n with
  | O => Ok (w, created, simulate_date)
  | S n' =>
      let w := mkWorld (store w) (SIMULATION_OFFSET_DAYS w + 1) in
      if date_in_range (get_today real_today w) then
        let simulate_date := get_today real_today w in
        let db := simulate_progress (store w) in
        let db :=
          fst (capture_burndown_snapshots (get_today real_today w)
                 (Some simulate_date) db) in
        advance_loop real_today n' (mkWorld db (SIMULATION_OFFSET_DAYS w))
          (created + 1) simulate_date
      else Unhandled "OverflowError" w
  end.

(** The response reads the clock once more, at the offset at which the last
    iteration read it. *)
Definition simulate_advance_days (real_today : date) (days : Z) (w : World)
  : result World (World * AdvanceResponse) :=
  if days <=? 0 then HTTPException 400 "Days must be positive"
  else
    match advance_loop real_today (Z.to_nat days) w 0 0 with
    | Ok (w, created, simulate_date) =>
        Ok (w, mkAdvance created simulate_date (get_today real_today w)
                         (SIMULATION_OFFSET_DAYS w))
    | HTTPException status_code detail => HTTPException status_code detail
    | Unhandled exception w => Unhandled exception w
    end.

Record RemainingResponse := mkRemaining
  { current_day : date;
    offset_days : Z;
    remaining_days : Z }.

Definition simulate_set_remaining_days (real_today : date)
    (remaining_days : Z) (w : World)
  : result World (World * RemainingResponse) :=
  if remaining_days <? 0
  then HTTPException 400 "Remaining days must be non-negative"
  else
    match current_sprint (store w) with
    | None => HTTPException 404 "No active sprint found"
    | Some sprint =>
        let base_remaining := SprintModel.end_date sprint - real_today in
        let w := mkWorld (store w) (base_remaining - remaining_days) in
        if date_in_range (get_today real_today w) then
          let snapshot_date := get_today real_today w in
          let db :=
            fst (capture_burndown_snapshots (get_today real_today w)
                   (Some snapshot_date) (store w)) in
          Ok (mkWorld db (SIMULATION_OFFSET_DAYS w),
              mkRemaining snapshot_date (SIMULATION_OFFSET_DAYS w)
                          remaining_days)
        else Unhandled "OverflowError" w
    end.

(** ** Reference extractor

    [commit_ref_pattern = re.compile(r"ref\s+#(\d+)", re.IGNORECASE)].

    A Python [str] is a sequence of Unicode code points.  The strings of
    this development hold UTF-8, as the request body does, and
    [code_points] decodes them; bytes that are no UTF-8, which a request
    body cannot bring as far as the handler, are read as U+FFFD.

    On a [str] pattern [\s] matches the characters [str.isspace] accepts
    and [\d] the decimal digits of Unicode (category Nd); [int] reads the
    same digits, each with its decimal value.  The digit table is that of
    Unicode 14.0, the version CPython 3.11 carries; it lists the code point
    of each zero, the nine other digits following it.  Under
    [re.IGNORECASE] the letters [r], [e] and [f] match themselves and their
    capitals: no other character has one of them as its lower case.

    [int] refuses a string of more than [sys.get_int_max_str_digits()]
    digits, 4300 unless configured otherwise, leading zeros counted, with
    [ValueError]. *)

Definition text := list Z.

Definition code (c : ascii) : Z := Z.of_N (N_of_ascii c).

(** The byte that encodes [#]. *)
Definition is_hash (c : ascii) : bool := code c =? 35.

Definition replacement : Z := 0xFFFD.

Definition continuation (b : Z) : bool := (0x80 <=? b) && (b <? 0xC0).

(** A decoded value outside the range of its sequence length is an
    overlong form or no code point. *)
Definition checked (lo hi v : Z) : Z :=
  if (lo <=? v) && (v <=? hi) then v else replacement.

(** The code point at the start of the bytes [b0 :: r0], and the bytes
    after it. *)
Definition utf8_next (b0 : Z) (r0 : list Z) : Z * list Z :=
  if b0 <? 0x80 then (b0, r0)
  else if (0xC0 <=? b0) && (b0 <? 0xE0) then
    match r0 with
    | b1 :: r1 =>
        if continuation b1
        then (checked 0x80 0x7FF ((b0 - 0xC0) * 64 + (b1 - 0x80)), r1)
        else (replacement, r0)
    | _ => (replacement, r0)
    end
  else if (0xE0 <=? b0) && (b0 <? 0xF0) then
    match r0 with
    | b1 :: b2 :: r2 =>
        if continuation b1 && continuation b2
        then (checked 0x800 0xFFFF
                ((b0 - 0xE0) * 4096 + (b1 - 0x80) * 64 + (b2 - 0x80)),
              r2)
        else (replacement, r0)
    | _ => (replacement, r0)
    end
  else if (0xF0 <=? b0) && (b0 <? 0xF8) then
    match r0 with
    | b1 :: b2 :: b3 :: r3 =>
        if continuation b1 && continuation b2 && continuation b3
        then (checked 0x10000 0x10FFFF
                ((b0 - 0xF0) * 262144 + (b1 - 0x80) * 4096
                 + (b2 - 0x80) * 64 + (b3 - 0x80)),
              r3)
        else (replacement, r0)
    | _ => (replacement, r0)
    end
  else (replacement, r0).

(** [fuel] bounds the number of code points read. *)
Fixpoint utf8_decode (fuel : nat) (bs : list Z) : text :=
  match fuel, bs with
  | S fuel', b0 :: r0 =>
      let '(c, rest) := utf8_next b0 r0 in c :: utf8_decode fuel' rest
  | _, _ => []
  end.

Definition code_points (s : string) : text :=
  let bs := map code (list_ascii_of_string s) in
  utf8_decode (List.length bs) bs.

(** [str.isspace] on one character: the ranges of code points, ends
    included. *)
Definition whitespace : list (Z * Z) :=
  [(0x09, 0x0D); (0x1C, 0x20); (0x85, 0x85); (0xA0, 0xA0);
   (0x1680, 0x1680); (0x2000, 0x200A); (0x2028, 0x2029); (0x202F, 0x202F);
   (0x205F, 0x205F); (0x3000, 0x3000)].

Definition is_space (c : Z) : bool :=
  existsb (fun r => (fst r <=? c) && (c <=? snd r)) whitespace.

(** The zero of every run of decimal digits. *)
Definition decimal_zeros : list Z :=
  [0x0030; 0x0660; 0x06F0; 0x07C0; 0x0966; 0x09E6; 0x0A66; 0x0AE6; 0x0B66;
   0x0BE6; 0x0C66; 0x0CE6; 0x0D66; 0x0DE6; 0x0E50; 0x0ED0; 0x0F20; 0x1040;
   0x1090; 0x17E0; 0x1810; 0x1946; 0x19D0; 0x1A80; 0x1A90; 0x1B50; 0x1BB0;
   0x1C40; 0x1C50; 0xA620; 0xA8D0; 0xA900; 0xA9D0; 0xA9F0; 0xAA50; 0xABF0;
   0xFF10; 0x104A0; 0x10D30; 0x11066; 0x110F0; 0x11136; 0x111D0; 0x112F0;
   0x11450; 0x114D0; 0x11650; 0x116C0; 0x11730; 0x118E0; 0x11950; 0x11C50;
   0x11D50; 0x11DA0; 0x16A60; 0x16AC0; 0x16B50; 0x1D7CE; 0x1D7D8; 0x1D7E2;
   0x1D7EC; 0x1D7F6; 0x1E140; 0x1E2F0; 0x1E950; 0x1FBF0].

Definition digit_of (c z : Z) : bool := (z <=? c) && (c <? z + 10).

Definition is_digit (c : Z) : bool := existsb (digit_of c) decimal_zeros.

(** [unicodedata.decimal]; 0 on what is no digit. *)
Definition digit_value (c : Z) : Z :=
  match find (digit_of c) decimal_zeros with
  | Some z => c - z
  | None => 0
  end.

(** A pattern letter under [re.IGNORECASE]: [lower] is its lower-case code
    point. *)
Definition is_letter (lower : Z) (c : Z) : bool :=
  (c =? lower) || (c =? lower - 32).

Definition is_number_sign (c : Z) : bool := c =? 0x23.

(** The longest prefix of characters of a class, and what follows it. *)
Fixpoint span (p : Z -> bool) (s : text) : text * text :=
  match s with
  | [] => ([], [])
  | c :: s' =>
      if p c then let '(a, b) := span p s' in (c :: a, b) else ([], s)
  end.

(** A match of the pattern at the start of [s]: the text of group 1 and the
    text after the match.  Both repetitions are greedy; a shorter run of
    spaces would leave a space where [#] is required, so no other split can
    match. *)
Definition match_ref (s : text) : option (text * text) :=
  match s with
  | c1 :: c2 :: c3 :: s1 =>
      if is_letter 0x72 c1 && is_letter 0x65 c2 && is_letter 0x66 c3 then
        match span is_space s1 with
        | (_ :: _, h :: s2) =>
            if is_number_sign h then
              match span is_digit s2 with
              | (d :: ds, s3) => Some (d :: ds, s3)
              | ([], _) => None
              end
            else None
        | _ => None
        end
      else None
  | _ => None
  end.

(** [pattern.findall(s)]: scan from the left, and resume after each match.
    [fuel] bounds the number of positions tried. *)
Fixpoint findall_from (fuel : nat) (s : text) : list text :=
  match fuel, s with
  | O, _ | _, [] => []
  | S fuel', _ :: s' =>
      match match_ref s with
      | Some (group, rest) => group :: findall_from fuel' rest
      | None => findall_from fuel' s'
      end
  end.

Definition findall (s : text) : list text := findall_from (List.length s) s.

(** The number a run of decimal digits denotes. *)
Definition int_of_digits (ds : text) : Z :=
  fold_left (fun acc c => 10 * acc + digit_value c) ds 0.

Definition int_max_str_digits : Z := 4300.

Definition within_limit (ds : text) : bool :=
  Z.of_nat (List.length ds) <=? int_max_str_digits.

(** [int(match)] on a run of decimal digits; [None] is [ValueError]. *)
Definition int (ds : text) : option Z :=
  if within_limit ds then Some (int_of_digits ds) else None.

(** The conversions [int(match)] of a loop
    [for match in commit_ref_pattern.findall(s)], in the order the loop
    makes them; [None] when one of them raises. *)
Fixpoint ints (matches : list text) : option (list Z) :=
  match matches with
  | [] => Some []
  | m :: matches' =>
      match int m with
      | None => None
      | Some n => option_map (cons n) (ints matches')
      end
  end.

Definition extract (s : string) : option (list Z) :=
  ints (findall (code_points s)).

(** The numbers of the matches of a text, which are what the loop converts
    when every match is within the limit. *)
Definition extractTaskIds (s : string) : list Z :=
  map int_of_digits (findall (code_points s)).

Definition converts (s : string) : bool :=
  forallb within_limit (findall (code_points s)).

(** ** Task requests

    Request bodies arrive validated by their Pydantic classes.  A PATCH
    handler walks [payload.dict(exclude_unset=True)] and assigns every key
    that was sent, so a key that was not sent is told apart from one sent
    as JSON [null]: an update field is [None] when the key was not sent and
    [Some v] when it was, and where [v] is itself an option, [Some None] is
    a key sent as [null].  In [TaskUpdate] a [null] for [assignee] clears
    the column; [title] and [story_points] are declared [nullable=False],
    so a [null] for them is refused by the database when the handler
    commits and the [IntegrityError] escapes.  A [null] for [status] or
    [is_tech_debt] would be stored in a column for which the rows here have
    no empty value; bodies that send one are outside this model. *)

Record TaskCreate := mkTaskCreate
  { tc_title : string;
    tc_story_id : Z;
    tc_story_points : Z;
    tc_status : TaskStatus.t;
    tc_is_tech_debt : bool;
    tc_assignee : option string }.

Record TaskUpdate := mkTaskUpdate
  { tu_title : option (option string);
    tu_status : option TaskStatus.t;
    tu_story_points : option (option Z);
    tu_is_tech_debt : option bool;
    tu_assignee : option (option string) }.

Definition or_else {A : Type} (o : option A) (d : A) : A :=
  match o with Some a => a | None => d end.

(** The attribute after the [setattr] loop: the value sent, [null]
    included, or the stored one when the key was not sent. *)
Definition set_field {A : Type} (sent : option (option A)) (stored : A)
  : option A :=
  match sent with
  | Some v => v
  | None => Some stored
  end.

(** The row the first [db.commit()] writes; a [null] in a [nullable=False]
    column makes that commit fail. *)
Definition apply_update (u : TaskUpdate) (k : TaskModel.t)
  : option TaskModel.t :=
  match set_field (tu_title u) (TaskModel.title k),
        set_field (tu_story_points u) (TaskModel.story_points k) with
  | Some title, Some story_points =>
      Some (TaskModel.mk (TaskModel.id k) (TaskModel.story_id k)
              title
              (or_else (tu_status u) (TaskModel.status k))
              story_points
              (or_else (tu_is_tech_debt u) (TaskModel.is_tech_debt k))
              (or_else (tu_assignee u) (TaskModel.assignee k)))
  | _, _ => None
  end.

Definition create_task (payload : TaskCreate) (db : DB)
  : result DB (DB * TaskModel.t) :=
  match get_story db (tc_story_id payload) with
  | None => HTTPException 404 "Story not found"
  | Some story =>
      let task :=
        TaskModel.mk (next_id (map TaskModel.id (tasks db)))
          (tc_story_id payload) (tc_title payload) (tc_status payload)
          (tc_story_points payload) (tc_is_tech_debt payload)
          (tc_assignee payload) in
      let db := with_tasks (tasks db ++ [task]) db in
      Ok (sync_story_status db story, task)
  end.

Definition update_task (task_id : Z) (payload : TaskUpdate) (db : DB)
  : result DB (DB * TaskModel.t) :=
  match get_task db task_id with
  | None => HTTPException 404 "Task not found"
  | Some task =>
      match apply_update payload task with
      | None => Unhandled "IntegrityError" db
      | Some task' =>
          let db :=
            with_tasks
              (map (fun k => if TaskModel.id k =? task_id then task' else k)
                   (tasks db))
              db in
          match task_story db task' with
          | Some story => Ok (sync_story_status db story, task')
          | None => Ok (db, task')
          end
      end
  end.

(** Deleting a task deletes its links with it. *)
Definition delete_task (task_id : Z) (db : DB) : result DB DB :=
  match get_task db task_id with
  | None => HTTPException 404 "Task not found"
  | Some task =>
      let story := task_story db task in
      let db :=
        with_github_links
          (filter (fun l => negb (GitHubLinkModel.task_id l =? task_id))
                  (github_links db))
          (with_tasks
             (filter (fun k => negb (TaskModel.id k =? task_id)) (tasks db))
             db) in
      match story with
      | Some story => Ok (sync_story_status db story)
      | None => Ok db
      end
  end.

(** ** GitHub webhook

    The payload has the shape
    [{repository: {full_name}, commits: [{id, message}], pull_request}].  A
    key of a JSON object can be missing, [null], or hold a string; for
    [message], [id], [html_url] and [full_name] only the first and the last
    are modelled, as [None] and [Some]. *)

Inductive json_text :=
| Missing
| Null
| Str (s : string).

(** The text an f-string prints for [d.get(key, '')]. *)
Definition fstring_field (f : json_text) : string :=
  match f with
  | Missing => EmptyString
  | Null => "None"
  | Str s => s
  end.

Record Commit := mkCommit
  { commit_id : option string;
    message : option string }.

Record PullRequest := mkPullRequest
  { pr_title : json_text;
    pr_body : json_text;
    html_url : option string }.

Record Payload := mkPayload
  { full_name : option string;
    commits : list Commit;
    pull_request : option PullRequest }.

Definition add_link (l : Z -> GitHubLinkModel.t) (db : DB) : DB :=
  with_github_links
    (github_links db
     ++ [l (next_id (map GitHubLinkModel.id (github_links db)))])
    db.

Definition link_commit_to_task (db : DB) (task : TaskModel.t)
    (commit_hash repo_name : option string) : DB :=
  add_link
    (fun key => GitHubLinkModel.mk key (TaskModel.id task) commit_hash None
                                   repo_name)
    db.

Definition link_pr_to_task (db : DB) (task : TaskModel.t)
    (pr_url repo_name : option string) : DB :=
  add_link
    (fun key => GitHubLinkModel.mk key (TaskModel.id task) None pr_url
                                   repo_name)
    (set_task_status (TaskModel.id task) TaskStatus.CODE_REVIEW db).

(** The inner loop [for match in commit_ref_pattern.findall(...)]: the state
    is the store and [processed_tasks]. *)
Definition link_refs (link : DB -> TaskModel.t -> DB) (refs : list Z)
    (st : DB * list Z) : DB * list Z :=
  fold_left
    (fun '(db, processed_tasks) ref =>
       match get_task db ref with
       | Some task => (link db task, processed_tasks ++ [TaskModel.id task])
       | None => (db, processed_tasks)
       end)
    refs st.

Definition link_commit (repo_name : option string) (st : DB * list Z)
    (commit : Commit) : DB * list Z :=
  link_refs
    (fun db task => link_commit_to_task db task (commit_id commit) repo_name)
    (extractTaskIds (or_else (message commit) EmptyString))
    st.

Definition pull_request_text (pr : PullRequest) : string :=
  (fstring_field (pr_title pr) ++ String "010" (fstring_field (pr_body pr)))
  %string.

Definition github_webhook (payload : Payload) (db : DB) : DB * list Z :=
  let repo_name := full_name payload in
  let st := fold_left (link_commit repo_name) (commits payload) (db, []) in
  match pull_request payload with
  | Some pr =>
      link_refs
        (fun db task => link_pr_to_task db task (html_url pr) repo_name)
        (extractTaskIds (pull_request_text pr))
        st
  | None => st
  end.

(** The handler with the conversions [int(match)] in their places.  A
    conversion that raises ends the request with the session uncommitted:
    the links added and the statuses written so far are lost.
    [github_webhook] above is the handler on a payload none of whose
    conversions raises. *)
Definition link_matches (link : DB -> TaskModel.t -> DB)
    (matches : list text) (st : option (DB * list Z))
  : option (DB * list Z) :=
  fold_left
    (fun st m =>
       match st with
       | None => None
       | Some (db, processed_tasks) =>
           match int m with
           | None => None
           | Some ref =>
               match get_task db ref with
               | Some task =>
                   Some (link db task, processed_tasks ++ [TaskModel.id task])
               | None => Some (db, processed_tasks)
               end
           end
       end)
    matches st.

Definition github_webhook_request (payload : Payload) (db : DB)
  : result DB (DB * list Z) :=
  let repo_name := full_name payload in
  let st :=
    fold_left
      (fun st commit =>
         link_matches
           (fun db task =>
              link_commit_to_task db task (commit_id commit) repo_name)
           (findall (code_points (or_else (message commit) EmptyString)))
           st)
      (commits payload) (Some (db, [])) in
  let st :=
    match pull_request payload with
    | Some pr =>
        link_matches
          (fun db task => link_pr_to_task db task (html_url pr) repo_name)
          (findall (code_points (pull_request_text pr)))
          st
    | None => st
    end in
  match st with
  | Some out => Ok out
  | None => Unhandled "ValueError" db
  end.

(** ** Vocabulary of the simulation rules

    The words the description of [step()] uses, as predicates on the store:
    the tasks of a sprint in a given status, the tie-break between two of
    them, the sprint's story of lowest priority number, and what it means
    for a store to differ from another by one task transition. *)

Definition earliest_active (db : DB) (sprint : SprintModel.t) : Prop :=
  In sprint (sprints db)
  /\ SprintModel.status sprint = SprintStatus.ACTIVE
  /\ forall s, In s (sprints db) ->
               SprintModel.status s = SprintStatus.ACTIVE ->
               SprintModel.start_date sprint <= SprintModel.start_date s.

Definition eligible (db : DB) (sprint : SprintModel.t) (st : TaskStatus.t)
    (k : TaskModel.t) : Prop :=
  In k (tasks db)
  /\ TaskModel.status k = st
  /\ exists s, get_story db (TaskModel.story_id k) = Some s
               /\ UserStoryModel.sprint_id s = Some (SprintModel.id sprint).

(** Tech-debt tasks first, then lowest identity. *)
Definition task_before (a b : TaskModel.t) : Prop :=
  (TaskModel.is_tech_debt b = true -> TaskModel.is_tech_debt a = true)
  /\ (TaskModel.is_tech_debt a = TaskModel.is_tech_debt b ->
      TaskModel.id a <= TaskModel.id b).

Definition chosen (db : DB) (sprint : SprintModel.t) (st : TaskStatus.t)
    (k : TaskModel.t) : Prop :=
  eligible db sprint st k
  /\ forall k', eligible db sprint st k' -> task_before k k'.

Definition moved (db : DB) (k : TaskModel.t) (st : TaskStatus.t) (db' : DB)
  : Prop :=
  tasks db'
  = map (fun x => if TaskModel.id x =? TaskModel.id k
                  then TaskModel.set_status st x else x) (tasks db)
  /\ sprints db' = sprints db
  /\ github_links db' = github_links db
  /\ burndown_snapshots db' = burndown_snapshots db.

Definition story_of_sprint (db : DB) (sprint : SprintModel.t)
    (s : UserStoryModel.t) : Prop :=
  In s (user_stories db)
  /\ UserStoryModel.sprint_id s = Some (SprintModel.id sprint).

Definition lowest_priority_story (db : DB) (sprint : SprintModel.t)
    (s : UserStoryModel.t) : Prop :=
  story_of_sprint db sprint s
  /\ forall s', story_of_sprint db sprint s' ->
                UserStoryModel.priority s < UserStoryModel.priority s'
                \/ (UserStoryModel.priority s = UserStoryModel.priority s'
                    /\ UserStoryModel.id s <= UserStoryModel.id s').

(** The new task of rule 4 and the story it hangs on. *)
Definition tech_debt_added (db : DB) (sprint : SprintModel.t) (db' : DB)
  : Prop :=
  exists story task,
    tasks db' = tasks db ++ [task]
    /\ TaskModel.story_id task = UserStoryModel.id story
    /\ TaskModel.story_points task = 2
    /\ TaskModel.status task = TaskStatus.TODO
    /\ TaskModel.is_tech_debt task = true
    /\ TaskModel.assignee task = None
    /\ sprints db' = sprints db
    /\ github_links db' = github_links db
    /\ burndown_snapshots db' = burndown_snapshots db
    /\ ((lowest_priority_story db sprint story
         /\ user_stories db' = user_stories db)
        \/ ((forall s, ~ story_of_sprint db sprint s)
            /\ user_stories db' = user_stories db ++ [story]
            /\ UserStoryModel.sprint_id story = Some (SprintModel.id sprint)
            /\ UserStoryModel.title story = "Tech Debt Fixes"%string
            /\ UserStoryModel.story_points story = 5
            /\ UserStoryModel.priority story = 1
            /\ UserStoryModel.is_tech_debt story = true)).

(** The four rules in their order of precedence. *)
Inductive step_rule (db : DB) (sprint : SprintModel.t) (db' : DB) : Prop :=
| rule_code_review (k : TaskModel.t) :
    chosen db sprint TaskStatus.CODE_REVIEW k ->
    moved db k TaskStatus.DONE db' ->
    step_rule db sprint db'
| rule_in_progress (k : TaskModel.t) :
    (forall x, ~ eligible db sprint TaskStatus.CODE_REVIEW x) ->
    chosen db sprint TaskStatus.IN_PROGRESS k ->
    moved db k TaskStatus.CODE_REVIEW db' ->
    step_rule db sprint db'
| rule_todo (k : TaskModel.t) :
    (forall x, ~ eligible db sprint TaskStatus.CODE_REVIEW x) ->
    (forall x, ~ eligible db sprint TaskStatus.IN_PROGRESS x) ->
    chosen db sprint TaskStatus.TODO k ->
    moved db k TaskStatus.IN_PROGRESS db' ->
    step_rule db sprint db'
| rule_tech_debt :
    (forall x, ~ eligible db sprint TaskStatus.CODE_REVIEW x) ->
    (forall x, ~ eligible db sprint TaskStatus.IN_PROGRESS x) ->
    (forall x, ~ eligible db sprint TaskStatus.TODO x) ->
    tech_debt_added db sprint db' ->
    step_rule db sprint db'.

(** A story whose stored status is what the rollup would write. *)
Definition rolled_up (db : DB) (story : UserStoryModel.t) : Prop :=
  sync_story_status db story = db.

(** ** Vocabulary of the webhook

    Whether a number identifies a task of the store, the references of a
    payload in the order the handler meets them, and whether every one of
    them is within the limit of [int]. *)

Definition task_exists (db : DB) (n : Z) : bool :=
  existsb (fun k => TaskModel.id k =? n) (tasks db).

Definition commit_refs (payload : Payload) : list Z :=
  flat_map (fun c => extractTaskIds (or_else (message c) EmptyString))
           (commits payload).

Definition pull_request_refs (payload : Payload) : list Z :=
  match pull_request payload with
  | Some pr => extractTaskIds (pull_request_text pr)
  | None => []
  end.

Definition payload_texts (payload : Payload) : list string :=
  map (fun c => or_else (message c) EmptyString) (commits payload)
  ++ match pull_request payload with
     | Some pr => [pull_request_text pr]
     | None => []
     end.

Definition payload_converts (payload : Payload) : bool :=
  forallb converts (payload_texts payload).

(** A task after a pull request that names the given references. *)
Definition to_review (refs : list Z) (k : TaskModel.t) : TaskModel.t :=
  if existsb (fun r => TaskModel.id k =? r) refs
  then TaskModel.set_status TaskStatus.CODE_REVIEW k else k.

(** ** Reference tokens, as the specification words them

    A token is the word "ref" in any mix of cases, then whitespace, then [#]
    and a run of digits.  [ref_tokens s l] reads [s] from the left: [l] lists
    the digit runs of the tokens met, each run taken to its end, in the order
    they occur and with repetitions. *)

Definition ref_word (w : text) : Prop :=
  exists c1 c2 c3,
    w = [c1; c2; c3]
    /\ (c1 = 0x72 \/ c1 = 0x52)
    /\ (c2 = 0x65 \/ c2 = 0x45)
    /\ (c3 = 0x66 \/ c3 = 0x46).

Definition ref_token (tok digits : text) : Prop :=
  exists w ws,
    tok = w ++ ws ++ 0x23 :: digits
    /\ ref_word w
    /\ ws <> [] /\ Forall (fun c => is_space c = true) ws
    /\ digits <> [] /\ Forall (fun c => is_digit c = true) digits.

Definition starts_with_token (s : text) : Prop :=
  exists tok digits rest, s = tok ++ rest /\ ref_token tok digits.

Definition contains_token (s : text) : Prop :=
  exists pre rest, s = pre ++ rest /\ starts_with_token rest.

Definition run_ended (rest : text) : Prop :=
  match rest with
  | [] => True
  | c :: _ => is_digit c = false
  end.

Inductive ref_tokens : text -> list text -> Prop :=
| ref_tokens_nil : ref_tokens [] []
| ref_tokens_skip (c : Z) (s : text) (l : list text) :
    ~ starts_with_token (c :: s) ->
    ref_tokens s l ->
    ref_tokens (c :: s) l
| ref_tokens_take (tok digits rest : text) (l : list text) :
    ref_token tok digits ->
    run_ended rest ->
    ref_tokens rest l ->
    ref_tokens (tok ++ rest) (digits :: l).

(** ** Sample stores

    A three-day sprint with one five-point story and its single task, and
    variations of it used to run the operations. *)

Definition sprint_one : SprintModel.t :=
  SprintModel.mk 1 "Sprint 1" None 10 12 SprintStatus.ACTIVE.

Definition sprint_two : SprintModel.t :=
  SprintModel.mk 2 "Sprint 2" None 11 20 SprintStatus.ACTIVE.

Definition story_one : UserStoryModel.t :=
  UserStoryModel.mk 1 (Some 1) "Login" None 5 3 false UserStoryStatus.PLANNED.

Definition task_one : TaskModel.t :=
  TaskModel.mk 1 1 "Login endpoint" TaskStatus.TODO 5 false None.

Definition db_one : DB := mkDB [sprint_one] [story_one] [task_one] [] [].

(** The same store with a snapshot taken two days before the sprint
    starts, and with one taken on its second day. *)
Definition db_early : DB :=
  with_burndown_snapshots [BurndownSnapshotModel.mk 1 1 8 3] db_one.


(** Two ACTIVE sprints. *)
Definition db_two : DB :=
  mkDB [sprint_one; sprint_two] [story_one] [task_one] [] [].

(** The story finished: its only task is DONE. *)
Definition db_done : DB :=
  mkDB [sprint_one]
       [UserStoryModel.set_status UserStoryStatus.DONE story_one]
       [TaskModel.set_status TaskStatus.DONE task_one] [] [].

(** A pull request that names task 1, and a push that names a task that
    does not exist. *)
Definition payload_pr : Payload :=
  mkPayload (Some "octocat/Hello-World"%string) []
    (Some (mkPullRequest (Str "Login, ref #1") Null
             (Some "https://github.com/octocat/Hello-World/pull/1"%string))).

Definition payload_unknown : Payload :=
  mkPayload (Some "octocat/Hello-World"%string)
    [mkCommit (Some "7fd1a60"%string) (Some "cleanup, ref #9"%string)] None.

(** A push whose message names a task by a number of 4301 digits. *)
Fixpoint repeat_char (c : ascii) (n : nat) : string :=
  match n with
  | O => EmptyString
  | S n' => String c (repeat_char c n')
  end.

Definition long_reference : string :=
  ("ref #" ++ repeat_char "9" 4301)%string.

Definition payload_long : Payload :=
  mkPayload (Some "octocat/Hello-World"%string)
    [mkCommit (Some "7fd1a60"%string) (Some long_reference)] None.

(** Texts with characters beyond ASCII: a no-break space, an ideographic
    space and a zero-width space, each in UTF-8, between the word and the
    number sign. *)
Definition ref_no_break_space : string :=
  ("ref" ++ String "194" (String "160" "#12"))%string.

Definition ref_ideographic_space : string :=
  ("ref" ++ String "227" (String "128" (String "128" "#１２")))%string.

Definition ref_zero_width_space : string :=
  ("ref" ++ String "226" (String "128" (String "139" "#5")))%string.

(** ** Sprint requests, burndown request and dashboard

    [SprintUpdate] follows [TaskUpdate].  A [null] for [goal] clears the
    column; a [null] for either date leaves [None] in the attribute, and
    the comparison of the two dates raises [TypeError]; a [null] for
    [name], a [nullable=False] column, is refused when the handler commits.
    A [null] for [status] is outside this model, as it is for tasks.  A
    handler that raises leaves its session uncommitted, so the store is the
    one it started from. *)

Definition with_sprints (v : list SprintModel.t) (db : DB) : DB :=
  mkDB v (user_stories db) (tasks db) (github_links db)
       (burndown_snapshots db).

Record SprintCreate := mkSprintCreate
  { sc_name : string;
    sc_goal : option string;
    sc_start_date : date;
    sc_end_date : date;
    sc_status : SprintStatus.t }.

Record SprintUpdate := mkSprintUpdate
  { su_name : option (option string);
    su_goal : option (option string);
    su_start_date : option (option date);
    su_end_date : option (option date);
    su_status : option SprintStatus.t }.

Definition create_sprint (payload : SprintCreate) (db : DB)
  : result DB (DB * SprintModel.t) :=
  let sprint :=
    SprintModel.mk (next_id (map SprintModel.id (sprints db)))
      (sc_name payload) (sc_goal payload) (sc_start_date payload)
      (sc_end_date payload) (sc_status payload) in
  if SprintModel.end_date sprint <? SprintModel.start_date sprint
  then HTTPException 400 "End date must be after start date"
  else Ok (with_sprints (sprints db ++ [sprint]) db, sprint).

Definition update_sprint (sprint_id : Z) (payload : SprintUpdate) (db : DB)
  : result DB (DB * SprintModel.t) :=
  match get_sprint db sprint_id with
  | None => HTTPException 404 "Sprint not found"
  | Some sprint =>
      match set_field (su_start_date payload) (SprintModel.start_date sprint),
            set_field (su_end_date payload) (SprintModel.end_date sprint) with
      | Some start_date, Some end_date =>
          if end_date <? start_date
          then HTTPException 400 "End date must be after start date"
          else
            match set_field (su_name payload) (SprintModel.name sprint) with
            | None => Unhandled "IntegrityError" db
            | Some name =>
                let sprint :=
                  SprintModel.mk (SprintModel.id sprint) name
                    (or_else (su_goal payload) (SprintModel.goal sprint))
                    start_date end_date
                    (or_else (su_status payload) (SprintModel.status sprint))
                in
                Ok (with_sprints
                      (map (fun s => if SprintModel.id s =? sprint_id
                                     then sprint else s)
                           (sprints db))
                      db,
                    sprint)
            end
      | _, _ => Unhandled "TypeError" db
      end
  end.




(** ** Vocabulary of the burndown series

    The number a decimal numeral denotes, read by the parser of the
    standard library; and the binary64 operations as the standard library
    specifies them on significands and exponents, with the value of what
    they return. *)




(** A four-day sprint with one story of ten points. *)
Definition sprint_four : SprintModel.t :=
  SprintModel.mk 1 "Sprint 1" None 10 13 SprintStatus.ACTIVE.

Definition db_ten : DB :=
  mkDB [sprint_four]
       [UserStoryModel.mk 1 (Some 1) "Search" None 10 3 false
          UserStoryStatus.PLANNED]
       [] [] [].



(** ** Vocabulary of the further properties *)

(** No sprint ends before it starts. *)
Definition dates_ordered (db : DB) : Prop :=
  forall s, In s (sprints db) ->
            SprintModel.start_date s <= SprintModel.end_date s.

(** The position of a status on the board, left to right. *)
Definition stage (st : TaskStatus.t) : Z :=
  match st with
  | TaskStatus.TODO => 0
  | TaskStatus.IN_PROGRESS => 1
  | TaskStatus.CODE_REVIEW => 2
  | TaskStatus.DONE => 3
  end.

(** Two task rows that differ at most in their status. *)
Definition same_but_status (a b : TaskModel.t) : Prop :=
  TaskModel.id a = TaskModel.id b
  /\ TaskModel.story_id a = TaskModel.story_id b
  /\ TaskModel.title a = TaskModel.title b
  /\ TaskModel.story_points a = TaskModel.story_points b
  /\ TaskModel.is_tech_debt a = TaskModel.is_tech_debt b
  /\ TaskModel.assignee a = TaskModel.assignee b.

(** The work shown on the board: one unit for each task and one more for
    each stage it has passed. *)
Definition progress (db : DB) : Z :=
  sum_Z (map (fun k => stage (TaskModel.status k) + 1) (tasks db)).

(** * Properties *)

(** ** Enumerations and store updates *)

Lemma TaskStatus_eqb_eq (a b : TaskStatus.t) :
  TaskStatus.eqb a b = true <-> a = b.
Proof. destruct a, b; simpl; split; congruence. Qed.

Lemma UserStoryStatus_eqb_eq (a b : UserStoryStatus.t) :
  UserStoryStatus.eqb a b = true <-> a = b.
Proof. destruct a, b; simpl; split; congruence. Qed.

Lemma SprintStatus_eqb_eq (a b : SprintStatus.t) :
  SprintStatus.eqb a b = true <-> a = b.
Proof. destruct a, b; simpl; split; congruence. Qed.

Lemma is_done_spec (k : TaskModel.t) :
  is_done k = true <-> TaskModel.status k = TaskStatus.DONE.
Proof. apply TaskStatus_eqb_eq. Qed.

Lemma is_under_way_spec (k : TaskModel.t) :
  is_under_way k = true <->
  TaskModel.status k = TaskStatus.IN_PROGRESS
  \/ TaskModel.status k = TaskStatus.CODE_REVIEW.
Proof.
  unfold is_under_way. rewrite orb_true_iff, !TaskStatus_eqb_eq. tauto.
Qed.

Lemma get_story_set_story_status (db : DB) (key : Z) (v : UserStoryStatus.t)
    (s : UserStoryModel.t) :
  get_story db key = Some s ->
  get_story (set_story_status key v db) key
  = Some (UserStoryModel.set_status v s).
Proof.
  unfold get_story, set_story_status; simpl.
  induction (user_stories db) as [|x l IH]; simpl; [discriminate|].
  destruct (UserStoryModel.id x =? key) eqn:E; simpl.
  - rewrite E. congruence.
  - rewrite E. exact IH.
Qed.

Lemma story_status_of_set (db : DB) (key : Z) (v : UserStoryStatus.t)
    (s : UserStoryModel.t) :
  get_story db key = Some s ->
  story_status_of (set_story_status key v db) key = Some v.
Proof.
  intros H. unfold story_status_of.
  rewrite (get_story_set_story_status _ _ v _ H). reflexivity.
Qed.

Lemma forallb_is_done (ts : list TaskModel.t) :
  forallb is_done ts = true <->
  Forall (fun k => TaskModel.status k = TaskStatus.DONE) ts.
Proof.
  rewrite forallb_forall, Forall_forall.
  split; intros H k Hk; apply is_done_spec, H, Hk.
Qed.

Lemma existsb_is_under_way (ts : list TaskModel.t) :
  existsb is_under_way ts = true <->
  Exists (fun k => TaskModel.status k = TaskStatus.IN_PROGRESS
                   \/ TaskModel.status k = TaskStatus.CODE_REVIEW) ts.
Proof.
  rewrite existsb_exists, Exists_exists.
  split; intros [k [Hk H]]; exists k; split; auto; apply is_under_way_spec, H.
Qed.

(** ** Status rollup *)

(** What [sync_story_status] writes, as a function of the task statuses. *)
Lemma sync_story_status_cases (db : DB) (story : UserStoryModel.t) :
  sync_story_status db story =
  match story_tasks db story with
  | [] => db
  | _ :: _ =>
      set_story_status (UserStoryModel.id story)
        (if forallb is_done (story_tasks db story) then UserStoryStatus.DONE
         else if existsb is_under_way (story_tasks db story)
              then UserStoryStatus.ACTIVE
              else UserStoryStatus.PLANNED)
        db
  end.
Proof.
  unfold sync_story_status.
  destruct (story_tasks db story) as [|k ts]; [reflexivity|].
  destruct (forallb is_done (k :: ts)); [reflexivity|].
  destruct (existsb is_under_way (k :: ts)); reflexivity.
Qed.

(** The three-way choice made on a list of tasks. *)
Lemma rollup_choice (ts : list TaskModel.t) :
  let v :=
    if forallb is_done ts then UserStoryStatus.DONE
    else if existsb is_under_way ts then UserStoryStatus.ACTIVE
         else UserStoryStatus.PLANNED in
  let all_done := Forall (fun k => TaskModel.status k = TaskStatus.DONE) ts in
  let some_under_way :=
    Exists (fun k => TaskModel.status k = TaskStatus.IN_PROGRESS
                     \/ TaskModel.status k = TaskStatus.CODE_REVIEW) ts in
  (v = UserStoryStatus.DONE <-> all_done)
  /\ (v = UserStoryStatus.ACTIVE <-> ~ all_done /\ some_under_way)
  /\ (v = UserStoryStatus.PLANNED <-> ~ all_done /\ ~ some_under_way)
  /\ (v = UserStoryStatus.PLANNED ->
      Forall (fun k => TaskModel.status k = TaskStatus.TODO
                       \/ TaskModel.status k = TaskStatus.DONE) ts).
Proof.
  cbv zeta.
  pose proof (forallb_is_done ts) as Hd.
  pose proof (existsb_is_under_way ts) as Hu.
  destruct (forallb is_done ts) eqn:Ed;
    [|destruct (existsb is_under_way ts) eqn:Eu].
  - repeat split; try congruence; try tauto.
  - assert (Forall (fun k => TaskModel.status k = TaskStatus.DONE) ts -> False)
      by (intros X; apply Hd in X; discriminate).
    repeat split; try congruence; try tauto.
  - assert (Hnd : Forall (fun k => TaskModel.status k = TaskStatus.DONE) ts
                  -> False)
      by (intros X; apply Hd in X; discriminate).
    assert (Hnu : Exists (fun k => TaskModel.status k = TaskStatus.IN_PROGRESS
                     \/ TaskModel.status k = TaskStatus.CODE_REVIEW) ts
                  -> False)
      by (intros X; apply Hu in X; discriminate).
    repeat split; try congruence; try tauto.
    intros _. apply Forall_forall. intros k Hk.
    destruct (TaskModel.status k) eqn:Es; auto; exfalso;
      apply Hnu; apply Exists_exists; exists k; auto.
Qed.

(** C1: a story without tasks is left as it is; for a story of the store
    with at least one task the status written is DONE exactly when every
    task is DONE, ACTIVE exactly when not every task is DONE and some task
    is IN_PROGRESS or CODE_REVIEW, and PLANNED exactly otherwise, in which
    case every task is TODO or DONE. *)
Theorem sync_story_status_rollup (db : DB) (story row : UserStoryModel.t) :
  get_story db (UserStoryModel.id story) = Some row ->
  let ts := story_tasks db story in
  let after :=
    story_status_of (sync_story_status db story) (UserStoryModel.id story) in
  let all_done := Forall (fun k => TaskModel.status k = TaskStatus.DONE) ts in
  let some_under_way :=
    Exists (fun k => TaskModel.status k = TaskStatus.IN_PROGRESS
                     \/ TaskModel.status k = TaskStatus.CODE_REVIEW) ts in
  (ts = [] ->
   sync_story_status db story = db
   /\ after = Some (UserStoryModel.status row))
  /\ (ts <> [] ->
      (after = Some UserStoryStatus.DONE <-> all_done)
      /\ (after = Some UserStoryStatus.ACTIVE <->
          ~ all_done /\ some_under_way)
      /\ (after = Some UserStoryStatus.PLANNED <->
          ~ all_done /\ ~ some_under_way)
      /\ (after = Some UserStoryStatus.PLANNED ->
          Forall (fun k => TaskModel.status k = TaskStatus.TODO
                           \/ TaskModel.status k = TaskStatus.DONE) ts)).
Proof.
  intros Hrow. cbv zeta. rewrite sync_story_status_cases.
  split.
  - intros E. rewrite E. split; [reflexivity|].
    unfold story_status_of. rewrite Hrow. reflexivity.
  - intros Hne.
    destruct (story_tasks db story) as [|k0 ts0] eqn:Ets; [congruence|].
    rewrite (story_status_of_set _ _ _ _ Hrow).
    pose proof (rollup_choice (k0 :: ts0)) as H. cbv zeta in H.
    assert (HS : forall a b : UserStoryStatus.t, Some a = Some b <-> a = b)
      by (split; congruence).
    rewrite !HS. exact H.
Qed.

(** ** Burndown engine *)

Section LoopFacts.
Variables (total_days total_points : Z) (snapshot_map : list (date * Z)).

Let loop := burndown_loop total_days total_points snapshot_map.

Lemma burndown_loop_length (n : nat) (index : Z) (d : date) (a : Z) :
  List.length (loop n index d a) = n.
Proof.
  revert index d a. induction n as [|n IH]; intros; simpl; [reflexivity|].
  f_equal. apply IH.
Qed.

(** Entry [k] of the loop's output: its label and its ideal value. *)
Lemma burndown_loop_nth (n : nat) (index : Z) (d : date) (a : Z) (k : nat) :
  (k < n)%nat ->
  exists p,
    nth_error (loop n index d a) k = Some p
    /\ day p = ("Day " ++ str_of_Z (index + Z.of_nat k + 1))%string
    /\ ideal p
       = Qmax (ideal_remaining total_days total_points (index + Z.of_nat k)) 0.
Proof.
  revert index d a k. induction n as [|n IH]; intros index d a k Hk; [lia|].
  destruct k as [|k]; simpl.
  - eexists. split; [reflexivity|]. simpl.
    replace (index + 0) with index by lia. split; reflexivity.
  - destruct (IH (index + 1) (d + 1)
                 (match dict_get d snapshot_map with
                  | Some v => v | None => a end) k) as [p [H1 [H2 H3]]];
      [lia|].
    exists p. split; [exact H1|].
    replace (index + Z.pos (Pos.of_succ_nat k))
      with (index + 1 + Z.of_nat k) by lia.
    split; assumption.
Qed.



End LoopFacts.

Lemma set_last_actual_cons (v : Q) (a b : BurndownPoint)
    (l : list BurndownPoint) :
  set_last_actual v (a :: b :: l) = a :: set_last_actual v (b :: l).
Proof. reflexivity. Qed.

(** [points[-1].actual = v] touches the last entry only, and only its
    [actual] field. *)
Lemma set_last_actual_nth (v : Q) (points : list BurndownPoint) (k : nat)
    (p : BurndownPoint) :
  nth_error points k = Some p ->
  nth_error (set_last_actual v points) k
  = Some (if (S k =? List.length points)%nat then set_actual v p else p).
Proof.
  revert k. induction points as [|a l IH]; intros k Hp.
  - destruct k; discriminate.
  - destruct l as [|b l].
    + destruct k as [|k]; [|destruct k; discriminate].
      injection Hp as <-. reflexivity.
    + rewrite set_last_actual_cons. destruct k as [|k]; simpl in Hp.
      * injection Hp as <-. reflexivity.
      * cbn [nth_error]. rewrite (IH k Hp). reflexivity.
Qed.

Lemma set_last_actual_length (v : Q) (points : list BurndownPoint) :
  List.length (set_last_actual v points) = List.length points.
Proof.
  induction points as [|a l IH]; [reflexivity|].
  destruct l as [|b l]; [reflexivity|].
  rewrite set_last_actual_cons. simpl in *. f_equal. exact IH.
Qed.

Lemma build_burndown_payload_eq (db : DB) (sprint : SprintModel.t) :
  build_burndown_payload db sprint =
  let points :=
    burndown_loop (sprint_total_days sprint) (sprint_total_points db sprint)
      (make_snapshot_map (sprint_snapshots db sprint))
      (Z.to_nat (sprint_total_days sprint)) 0 (SprintModel.start_date sprint)
      (sprint_total_points db sprint) in
  match sprint_snapshots db sprint with
  | [] =>
      set_last_actual
        (inject_Z (calculate_remaining_points db (SprintModel.id sprint)))
        points
  | _ :: _ => points
  end.
Proof.
  unfold build_burndown_payload. cbv zeta.
  destruct (burndown_loop _ _ _ _ _ _ _) as [|p l];
    destruct (sprint_snapshots db sprint); reflexivity.
Qed.

Lemma build_burndown_payload_length (db : DB) (sprint : SprintModel.t) :
  List.length (build_burndown_payload db sprint)
  = Z.to_nat (sprint_total_days sprint).
Proof.
  rewrite build_burndown_payload_eq. cbv zeta.
  destruct (sprint_snapshots db sprint);
    rewrite ?set_last_actual_length; apply burndown_loop_length.
Qed.

(** Label and ideal value of entry [k] of the series. *)
Lemma build_burndown_payload_nth (db : DB) (sprint : SprintModel.t) (k : nat) :
  (k < Z.to_nat (sprint_total_days sprint))%nat ->
  exists p,
    nth_error (build_burndown_payload db sprint) k = Some p
    /\ day p = ("Day " ++ str_of_Z (Z.of_nat k + 1))%string
    /\ ideal p
       = Qmax (ideal_remaining (sprint_total_days sprint)
                 (sprint_total_points db sprint) (Z.of_nat k)) 0.
Proof.
  intros Hk. rewrite build_burndown_payload_eq. cbv zeta.
  destruct (burndown_loop_nth (sprint_total_days sprint)
              (sprint_total_points db sprint)
              (make_snapshot_map (sprint_snapshots db sprint))
              _ 0 (SprintModel.start_date sprint)
              (sprint_total_points db sprint) k Hk) as [p [H1 [H2 H3]]].
  simpl in H2, H3.
  destruct (sprint_snapshots db sprint).
  - rewrite (set_last_actual_nth _ _ _ _ H1).
    eexists. split; [reflexivity|].
    destruct (S k =? _)%nat; simpl; auto.
  - exists p. auto.
Qed.

Lemma sprint_total_points_nonneg (db : DB) (sprint : SprintModel.t) :
  0 <= sprint_total_points db sprint.
Proof. unfold sprint_total_points. lia. Qed.


(** *** Binary64 rounding *)

Section Binary64.
Local Open Scope Q_scope.

Lemma pow2_pos (e : Z) : 0 < pow2 e.
Proof. apply Qpower_0_lt. reflexivity. Qed.

Lemma pow2_plus (a b : Z) : pow2 (a + b) == pow2 a * pow2 b.
Proof. apply Qpower_plus. discriminate. Qed.

Lemma pow2_succ (a : Z) : pow2 (a + 1) == 2 * pow2 a.
Proof. rewrite pow2_plus. change (pow2 1) with (inject_Z 2). ring. Qed.

Lemma pow2_le (a b : Z) : (a <= b)%Z -> pow2 a <= pow2 b.
Proof. intros H. apply Qpower_le_compat_l; [exact H|discriminate]. Qed.

Lemma pow2_lt (a b : Z) : (a < b)%Z -> pow2 a < pow2 b.
Proof. intros H. apply Qpower_lt_compat_l; [exact H|reflexivity]. Qed.

Lemma pow2_lt_inv (a b : Z) : pow2 a < pow2 b -> (a < b)%Z.
Proof. intros H. apply (Qpower_lt_compat_l_inv _ _ _ H). reflexivity. Qed.

Lemma pow2_Z (k : Z) : (0 <= k)%Z -> pow2 k == inject_Z (2 ^ k).
Proof. intros H. symmetry. apply Zpower_Qpower, H. Qed.

Lemma rne_comp (x y : Q) : x == y -> rne x = rne y.
Proof.
  intros E. unfold rne. rewrite (Qfloor_comp _ _ E).
  assert (C : (x - inject_Z (Qfloor y) ?= 1 # 2)
              = (y - inject_Z (Qfloor y) ?= 1 # 2))
    by (rewrite E; reflexivity).
  rewrite C. reflexivity.
Qed.

Lemma rne_Z (n : Z) : rne (inject_Z n) = n.
Proof.
  unfold rne. rewrite Qfloor_Z.
  destruct (Qcompare_spec (inject_Z n - inject_Z n) (1 # 2));
    [exfalso; lra|reflexivity|exfalso; lra].
Qed.

Lemma rne_mono (a b : Q) : a <= b -> (rne a <= rne b)%Z.
Proof.
  intros H. pose proof (Qfloor_resp_le _ _ H) as F.
  pose proof (Qfloor_le a) as A1. pose proof (Qlt_floor a) as A2.
  pose proof (Qfloor_le b) as B1. pose proof (Qlt_floor b) as B2.
  rewrite inject_Z_plus in A2, B2.
  unfold rne.
  destruct (Qcompare_spec (a - inject_Z (Qfloor a)) (1 # 2)) as [Ea|Ea|Ea];
    destruct (Qcompare_spec (b - inject_Z (Qfloor b)) (1 # 2)) as [Eb|Eb|Eb];
    destruct (Z.eq_dec (Qfloor a) (Qfloor b)) as [E|E];
    try rewrite E in *;
    repeat match goal with
           | |- context [Z.even ?x] => destruct (Z.even x)
           end;
    try lia; exfalso; lra.
Qed.


Lemma floor_log2_spec (q : Q) :
  0 < q -> pow2 (floor_log2 q) <= q /\ q < pow2 (floor_log2 q + 1).
Proof.
  intros Hq. unfold floor_log2. destruct q as [n d]. cbn [Qnum Qden].
  assert (Hn : (0 < n)%Z) by (unfold Qlt in Hq; simpl in Hq; lia).
  set (a := Z.log2 n). set (b := Z.log2 (Zpos d)).
  pose proof (Z.log2_spec n Hn) as [A1 A2]. fold a in A1, A2.
  pose proof (Z.log2_spec (Zpos d) (Pos2Z.is_pos d)) as [B1 B2].
  fold b in B1, B2.
  assert (Ha : (0 <= a)%Z) by apply Z.log2_nonneg.
  assert (Hb : (0 <= b)%Z) by apply Z.log2_nonneg.
  assert (QA1 : pow2 a <= inject_Z n)
    by (rewrite pow2_Z by lia; rewrite <- Zle_Qle; exact A1).
  assert (QA2 : inject_Z n < 2 * pow2 a).
  { rewrite <- pow2_succ, pow2_Z by lia. rewrite <- Zlt_Qlt. exact A2. }
  assert (QB1 : pow2 b <= inject_Z (Zpos d))
    by (rewrite pow2_Z by lia; rewrite <- Zle_Qle; exact B1).
  assert (QB2 : inject_Z (Zpos d) < 2 * pow2 b).
  { rewrite <- pow2_succ, pow2_Z by lia. rewrite <- Zlt_Qlt. exact B2. }
  assert (E : (n # d) * inject_Z (Zpos d) == inject_Z n).
  { rewrite Qmake_Qdiv. field. discriminate. }
  assert (P : pow2 (a - b) * pow2 b == pow2 a).
  { rewrite <- pow2_plus. replace (a - b + b)%Z with a by lia. reflexivity. }
  assert (S : pow2 (a - b) == 2 * pow2 (a - b - 1)).
  { rewrite <- pow2_succ. replace (a - b - 1 + 1)%Z with (a - b)%Z by lia.
    reflexivity. }
  pose proof (pow2_pos (a - b)) as P1. pose proof (pow2_pos b) as P2.
  pose proof (pow2_pos a) as P3. pose proof (pow2_pos (a - b - 1)) as P4.
  destruct (Qle_bool (pow2 (a - b)) (n # d)) eqn:T.
  - apply Qle_bool_iff in T. split; [exact T|].
    rewrite pow2_succ. nra.
  - assert (T' : n # d < pow2 (a - b)).
    { apply Qnot_le_lt. intros X. apply Qle_bool_iff in X. congruence. }
    replace (a - b - 1 + 1)%Z with (a - b)%Z by lia. split; [|exact T'].
    nra.
Qed.

Lemma floor_log2_unique (q : Q) (e : Z) :
  0 < q -> pow2 e <= q -> q < pow2 (e + 1) -> floor_log2 q = e.
Proof.
  intros Hq H1 H2. destruct (floor_log2_spec q Hq) as [F1 F2].
  assert (A : (floor_log2 q < e + 1)%Z)
    by (apply pow2_lt_inv; apply (Qle_lt_trans _ q); assumption).
  assert (B : (e < floor_log2 q + 1)%Z)
    by (apply pow2_lt_inv; apply (Qle_lt_trans _ q); assumption).
  lia.
Qed.

Lemma floor_log2_comp (x y : Q) :
  0 < x -> x == y -> floor_log2 x = floor_log2 y.
Proof.
  intros Hx E. assert (Hy : 0 < y) by (rewrite <- E; exact Hx).
  destruct (floor_log2_spec y Hy) as [F1 F2].
  apply floor_log2_unique; [exact Hx|rewrite E; exact F1|rewrite E; exact F2].
Qed.

Lemma floor_log2_mono (x y : Q) :
  0 < x -> x <= y -> (floor_log2 x <= floor_log2 y)%Z.
Proof.
  intros Hx H. assert (Hy : 0 < y) by lra.
  destruct (floor_log2_spec x Hx) as [X1 _].
  destruct (floor_log2_spec y Hy) as [_ Y2].
  assert (A : (floor_log2 x < floor_log2 y + 1)%Z).
  { apply pow2_lt_inv. lra. }
  lia.
Qed.

Lemma ulp_exponent_mono (x y : Q) :
  0 < x -> x <= y -> (ulp_exponent x <= ulp_exponent y)%Z.
Proof.
  intros Hx H. unfold ulp_exponent.
  pose proof (floor_log2_mono x y Hx H). lia.
Qed.

Lemma round_pos_comp (x y : Q) :
  0 < x -> x == y -> round_pos x == round_pos y.
Proof.
  intros Hx E. unfold round_pos, ulp_exponent.
  rewrite (floor_log2_comp x y Hx E).
  rewrite (rne_comp (x / pow2 (Z.max (floor_log2 y - 52) (-1074)))
                    (y / pow2 (Z.max (floor_log2 y - 52) (-1074))))
    by (rewrite E; reflexivity).
  reflexivity.
Qed.

(** Scaling by a power of two and back. *)
Lemma scale_pow2 (q : Q) (e : Z) : q / pow2 e * pow2 e == q.
Proof. pose proof (pow2_pos e). field. lra. Qed.

Lemma div_pow2_le (x y : Q) (e : Z) : x <= y -> x / pow2 e <= y / pow2 e.
Proof.
  intros H. unfold Qdiv. apply Qmult_le_compat_r; [exact H|].
  apply Qinv_le_0_compat. pose proof (pow2_pos e). lra.
Qed.

Lemma pow2_div (a b : Z) : pow2 a / pow2 b == pow2 (a - b).
Proof.
  pose proof (pow2_pos b).
  assert (E : pow2 a == pow2 (a - b) * pow2 b).
  { rewrite <- pow2_plus. replace (a - b + b)%Z with a by lia. reflexivity. }
  rewrite E. field. lra.
Qed.

Lemma rne_pow2 (k : Z) : (0 <= k)%Z -> inject_Z (rne (pow2 k)) == pow2 k.
Proof.
  intros H. rewrite (rne_comp _ _ (pow2_Z k H)), rne_Z, pow2_Z by exact H.
  reflexivity.
Qed.

Lemma round_pos_nonneg (q : Q) : 0 < q -> 0 <= round_pos q.
Proof.
  intros Hq. unfold round_pos.
  pose proof (pow2_pos (ulp_exponent q)) as P.
  assert (R : (0 <= rne (q / pow2 (ulp_exponent q)))%Z).
  { rewrite <- (rne_Z 0). apply rne_mono.
    apply Qle_shift_div_l; [exact P|]. change (inject_Z 0) with 0. lra. }
  apply Qmult_le_0_compat; [|lra].
  change 0 with (inject_Z 0). rewrite <- Zle_Qle. exact R.
Qed.

(** A positive number rounds to at least the power of two at or below it,
    when that power is on the grid, and to at most the power of two above
    it. *)
Lemma round_pos_lower (q : Q) :
  0 < q -> (- 1074 <= floor_log2 q - 52)%Z ->
  pow2 (floor_log2 q) <= round_pos q.
Proof.
  intros Hq Hn. unfold round_pos, ulp_exponent. rewrite Z.max_l by lia.
  destruct (floor_log2_spec q Hq) as [F1 _].
  set (e := (floor_log2 q - 52)%Z).
  pose proof (pow2_pos e) as P.
  assert (R : (rne (pow2 52) <= rne (q / pow2 e))%Z).
  { apply rne_mono.
    assert (X : pow2 52 == pow2 (floor_log2 q) / pow2 e).
    { rewrite pow2_div. unfold e.
      replace (floor_log2 q - (floor_log2 q - 52))%Z with 52%Z by lia.
      reflexivity. }
    rewrite X. apply div_pow2_le, F1. }
  rewrite Zle_Qle, rne_pow2 in R by lia.
  assert (X : pow2 (floor_log2 q) == pow2 52 * pow2 e).
  { rewrite <- pow2_plus. unfold e.
    replace (52 + (floor_log2 q - 52))%Z with (floor_log2 q) by lia.
    reflexivity. }
  rewrite X. apply Qmult_le_compat_r; [exact R|lra].
Qed.

Lemma round_pos_upper (q : Q) (k : Z) :
  0 < q -> (ulp_exponent q + 53 <= k)%Z -> round_pos q <= pow2 k.
Proof.
  intros Hq Hk. unfold round_pos.
  destruct (floor_log2_spec q Hq) as [_ F2].
  set (e := ulp_exponent q) in *.
  pose proof (pow2_pos e) as P.
  assert (He : (floor_log2 q + 1 <= e + 53)%Z)
    by (unfold e, ulp_exponent; lia).
  assert (R : (rne (q / pow2 e) <= rne (pow2 (k - e)))%Z).
  { apply rne_mono. rewrite <- pow2_div. apply div_pow2_le.
    apply Qlt_le_weak. apply (Qlt_le_trans _ _ _ F2). apply pow2_le. lia. }
  rewrite Zle_Qle, rne_pow2 in R by lia.
  assert (X : pow2 k == pow2 (k - e) * pow2 e).
  { rewrite <- pow2_plus. replace (k - e + e)%Z with k by lia. reflexivity. }
  rewrite X. apply Qmult_le_compat_r; [exact R|lra].
Qed.

Lemma round_pos_mono (x y : Q) :
  0 < x -> x <= y -> round_pos x <= round_pos y.
Proof.
  intros Hx H. assert (Hy : 0 < y) by lra.
  pose proof (ulp_exponent_mono x y Hx H) as He.
  destruct (Z.eq_dec (ulp_exponent x) (ulp_exponent y)) as [E|E].
  - unfold round_pos. rewrite E.
    pose proof (pow2_pos (ulp_exponent y)) as P.
    apply Qmult_le_compat_r; [|lra].
    rewrite <- Zle_Qle. apply rne_mono, div_pow2_le, H.
  - assert (Hn : (-1074 <= floor_log2 y - 52)%Z /\
                 ulp_exponent y = (floor_log2 y - 52)%Z).
    { unfold ulp_exponent in *. lia. }
    destruct Hn as [Hn Ey].
    apply (Qle_trans _ (pow2 (floor_log2 y))).
    + apply round_pos_upper; [exact Hx|lia].
    + apply round_pos_lower; assumption.
Qed.

Lemma round64_comp (x y : Q) : x == y -> round64 x == round64 y.
Proof.
  intros E. unfold round64. rewrite <- E.
  destruct (Qcompare_spec x 0) as [H|H|H]; [reflexivity| |].
  - apply Qopp_comp. apply round_pos_comp; [lra|rewrite E; reflexivity].
  - apply round_pos_comp; assumption.
Qed.

#[global] Instance round64_proper : Proper (Qeq ==> Qeq) round64.
Proof. intros x y E. apply round64_comp, E. Qed.

Lemma round64_0 : round64 0 == 0.
Proof. reflexivity. Qed.

Lemma round64_pos (q : Q) : 0 < q -> round64 q = round_pos q.
Proof.
  intros H. unfold round64.
  destruct (Qcompare_spec q 0); [exfalso; lra|exfalso; lra|reflexivity].
Qed.

Lemma round64_neg (q : Q) : q < 0 -> round64 q = - round_pos (- q).
Proof.
  intros H. unfold round64.
  destruct (Qcompare_spec q 0); [exfalso; lra|reflexivity|exfalso; lra].
Qed.

Lemma round64_mono (x y : Q) : x <= y -> round64 x <= round64 y.
Proof.
  intros H.
  destruct (Qcompare_spec x 0) as [Hx|Hx|Hx];
    destruct (Qcompare_spec y 0) as [Hy|Hy|Hy];
    try (exfalso; lra).
  - rewrite Hx, Hy. apply Qle_refl.
  - rewrite Hx, round64_0, (round64_pos y Hy).
    apply round_pos_nonneg, Hy.
  - rewrite Hy, round64_0, (round64_neg x Hx).
    pose proof (round_pos_nonneg (- x)). lra.
  - rewrite (round64_neg x Hx), (round64_neg y Hy).
    apply Qopp_le_compat. apply round_pos_mono; lra.
  - rewrite (round64_neg x Hx), (round64_pos y Hy).
    pose proof (round_pos_nonneg (- x)). pose proof (round_pos_nonneg y).
    lra.
  - rewrite (round64_pos x Hx), (round64_pos y Hy).
    apply round_pos_mono; assumption.
Qed.

(** An integer of at most 53 bits is a binary64 number. *)
Lemma round_pos_Z (n : Z) :
  (0 < n <= 2 ^ 53)%Z -> round_pos (inject_Z n) == inject_Z n.
Proof.
  intros Hn.
  assert (Hq : 0 < inject_Z n)
    by (change 0 with (inject_Z 0); rewrite <- Zlt_Qlt; lia).
  destruct (floor_log2_spec _ Hq) as [F1 F2].
  assert (L0 : (0 <= floor_log2 (inject_Z n))%Z).
  { assert (X : (0 < floor_log2 (inject_Z n) + 1)%Z); [|lia].
    apply pow2_lt_inv. apply (Qle_lt_trans _ (inject_Z n)); [|exact F2].
    change (pow2 0) with (inject_Z 1). rewrite <- Zle_Qle. lia. }
  assert (L1 : (floor_log2 (inject_Z n) <= 53)%Z).
  { assert (X : (floor_log2 (inject_Z n) < 54)%Z); [|lia].
    apply pow2_lt_inv. apply (Qle_lt_trans _ (inject_Z n)); [exact F1|].
    rewrite (pow2_Z 54) by lia. rewrite <- Zlt_Qlt. lia. }
  unfold round_pos, ulp_exponent. rewrite Z.max_l by lia.
  set (e := (floor_log2 (inject_Z n) - 52)%Z) in *.
  destruct (Z.le_gt_cases e 0) as [He|He].
  - assert (X : inject_Z n / pow2 e == inject_Z (n * 2 ^ (- e))).
    { rewrite inject_Z_mult, <- pow2_Z by lia.
      rewrite <- (pow2_div 0 e). change (pow2 0) with 1.
      pose proof (pow2_pos e). field. lra. }
    rewrite (rne_comp _ _ X), rne_Z, <- X. apply scale_pow2.
  - assert (E1 : e = 1%Z) by lia.
    assert (N : n = (2 ^ 53)%Z).
    { assert (X : (2 ^ 53 <= n)%Z); [|lia].
      rewrite Zle_Qle, <- pow2_Z by lia.
      replace 53%Z with (floor_log2 (inject_Z n)) by lia. exact F1. }
    subst n. rewrite E1. vm_compute. reflexivity.
Qed.

Lemma round64_Z (n : Z) :
  (- 2 ^ 53 <= n <= 2 ^ 53)%Z -> round64 (inject_Z n) == inject_Z n.
Proof.
  intros Hn. destruct (Z.lt_trichotomy n 0) as [H|[H|H]].
  - assert (Hq : inject_Z n < 0)
      by (change 0 with (inject_Z 0); rewrite <- Zlt_Qlt; lia).
    rewrite (round64_neg _ Hq), <- inject_Z_opp, round_pos_Z by lia.
    rewrite inject_Z_opp. ring.
  - subst n. reflexivity.
  - assert (Hq : 0 < inject_Z n)
      by (change 0 with (inject_Z 0); rewrite <- Zlt_Qlt; lia).
    rewrite (round64_pos _ Hq). apply round_pos_Z. lia.
Qed.


Lemma pow2_le_inv (a b : Z) : pow2 a <= pow2 b -> (a <= b)%Z.
Proof. intros H. apply (Qpower_le_compat_l_inv _ _ _ H). reflexivity. Qed.

Lemma inject_Z_pos (n : Z) : (0 < n)%Z -> 0 < inject_Z n.
Proof. intros H. change 0 with (inject_Z 0). rewrite <- Zlt_Qlt. exact H. Qed.

(** A number on the grid of its own last place rounds to itself. *)
Lemma round_pos_grid (m e : Z) :
  (0 < m <= 2 ^ 53)%Z -> (-1074 <= e)%Z ->
  round_pos (inject_Z m * pow2 e) == inject_Z m * pow2 e.
Proof.
  intros Hm He. set (r := inject_Z m * pow2 e).
  pose proof (pow2_pos e) as Pe. pose proof (inject_Z_pos m (proj1 Hm)) as Pm.
  assert (Hr : 0 < r) by (unfold r; nra).
  destruct (floor_log2_spec r Hr) as [F1 F2].
  assert (U : r <= pow2 (e + 53)).
  { unfold r. rewrite Z.add_comm, pow2_plus.
    apply Qmult_le_compat_r; [|lra].
    rewrite (pow2_Z 53) by lia. rewrite <- Zle_Qle. lia. }
  assert (L : (floor_log2 r <= e + 53)%Z)
    by (apply pow2_le_inv; lra).
  unfold round_pos. set (er := ulp_exponent r).
  assert (Er : (er <= e + 1)%Z) by (unfold er, ulp_exponent; lia).
  pose proof (pow2_pos er) as Per.
  destruct (Z.le_gt_cases er e) as [C|C].
  - assert (X : r / pow2 er == inject_Z (m * 2 ^ (e - er))).
    { rewrite inject_Z_mult, <- pow2_Z by lia. rewrite <- pow2_div.
      unfold r. field. lra. }
    rewrite (rne_comp _ _ X), rne_Z, <- X. apply scale_pow2.
  - assert (E1 : er = (e + 1)%Z) by lia.
    assert (Fl : floor_log2 r = (e + 53)%Z)
      by (unfold er, ulp_exponent in E1; lia).
    assert (M : m = (2 ^ 53)%Z).
    { assert (X : (2 ^ 53 <= m)%Z); [|lia].
      rewrite Zle_Qle, <- pow2_Z by lia.
      rewrite Fl, Z.add_comm, pow2_plus in F1. unfold r in F1.
      apply (Qmult_le_r _ _ (pow2 e)); [exact Pe|exact F1]. }
    assert (X : r / pow2 er == inject_Z (2 ^ 52)).
    { rewrite E1, pow2_succ. unfold r. rewrite M. field_simplify; [|lra].
      reflexivity. }
    rewrite (rne_comp _ _ X), rne_Z, <- X. apply scale_pow2.
Qed.

(** What rounding yields is a binary64 number: rounding it again changes
    nothing. *)
Lemma round_pos_idem (q : Q) :
  0 < q -> round64 (round_pos q) == round_pos q.
Proof.
  intros Hq.
  pose proof (round_pos_nonneg q Hq) as N.
  pose proof (round_pos_upper q (ulp_exponent q + 53) Hq (Z.le_refl _)) as U.
  unfold round_pos in *. set (e := ulp_exponent q) in *.
  set (m := rne (q / pow2 e)) in *.
  pose proof (pow2_pos e) as Pe.
  assert (M0 : (0 <= m)%Z).
  { rewrite Zle_Qle. change (inject_Z 0) with 0.
    apply (Qmult_le_r _ _ (pow2 e)); [exact Pe|]. lra. }
  assert (M1 : (m <= 2 ^ 53)%Z).
  { rewrite Zle_Qle, <- pow2_Z by lia.
    apply (Qmult_le_r _ _ (pow2 e)); [exact Pe|].
    rewrite <- pow2_plus, Z.add_comm. exact U. }
  destruct (Z.eq_dec m 0) as [Z0|Z0].
  - rewrite Z0. change (inject_Z 0) with 0.
    rewrite (round64_comp (0 * pow2 e) 0) by ring. rewrite round64_0. ring.
  - assert (P : 0 < inject_Z m * pow2 e).
    { assert (0 < inject_Z m) by (apply inject_Z_pos; lia). nra. }
    rewrite (round64_pos _ P). apply round_pos_grid; [lia|].
    unfold e, ulp_exponent. lia.
Qed.

Lemma round64_idem (q : Q) : round64 (round64 q) == round64 q.
Proof.
  destruct (Qcompare_spec q 0) as [H|H|H].
  - rewrite H, round64_0. apply round64_0.
  - rewrite (round64_neg q H).
    assert (P : 0 < - q) by lra.
    pose proof (round_pos_nonneg _ P) as N.
    pose proof (round_pos_idem _ P) as I.
    destruct (Qcompare_spec (round_pos (- q)) 0) as [Z0|Z0|Z0];
      [|exfalso; lra|].
    + rewrite Z0.
      rewrite (round64_comp (- 0) 0) by ring. rewrite round64_0. ring.
    + assert (Ng : - round_pos (- q) < 0) by lra.
      rewrite (round64_neg _ Ng).
      rewrite (round_pos_comp (- - round_pos (- q)) (round_pos (- q)))
        by (try ring; lra).
      rewrite (round64_pos _ Z0) in I. rewrite I. reflexivity.
  - rewrite (round64_pos q H). apply round_pos_idem, H.
Qed.

End Binary64.

(** *** The ideal line *)







(** *** Queries and dictionaries *)

Section OrderByFacts.
Context {A : Type} (leb : A -> A -> bool).

Lemma In_insert_by (a x : A) (l : list A) :
  In x (insert_by leb a l) <-> x = a \/ In x l.
Proof.
  induction l as [|y l IH]; simpl.
  - intuition.
  - destruct (leb a y); simpl; rewrite ?IH; intuition.
Qed.

Lemma In_order_by (x : A) (l : list A) :
  In x (order_by leb l) <-> In x l.
Proof.
  induction l as [|a l IH]; simpl; [tauto|].
  rewrite In_insert_by, IH. intuition.
Qed.

Lemma order_by_nil (l : list A) : order_by leb l = [] <-> l = [].
Proof.
  split; intros H; [|subst; reflexivity].
  destruct l as [|a l]; [reflexivity|].
  assert (X : In a (order_by leb (a :: l))) by (apply In_order_by; left; auto).
  rewrite H in X. destruct X.
Qed.

Hypothesis leb_total : forall a b, leb a b = true \/ leb b a = true.
Hypothesis leb_trans :
  forall a b c, leb a b = true -> leb b c = true -> leb a c = true.

(** The head of a sorted list is below every element. *)
Lemma insert_by_head (a : A) (l : list A) :
  (forall h t, l = h :: t -> forall x, In x l -> leb h x = true) ->
  forall h t, insert_by leb a l = h :: t ->
  forall x, In x (insert_by leb a l) -> leb h x = true.
Proof.
  intros Hl h t Hh x Hx. apply In_insert_by in Hx.
  destruct l as [|y l]; simpl in Hh.
  - injection Hh as <- <-. destruct Hx as [->|[]].
    destruct (leb_total a a); assumption.
  - specialize (Hl y l eq_refl).
    destruct (leb a y) eqn:E; injection Hh as <- <-.
    + destruct Hx as [->|Hx].
      * destruct (leb_total a a); assumption.
      * apply (leb_trans _ y); [exact E|apply Hl, Hx].
    + destruct Hx as [->|Hx]; [|apply Hl, Hx].
      destruct (leb_total a y); congruence.
Qed.

Lemma first_order_by_least (l : list A) (h : A) :
  first (order_by leb l) = Some h ->
  In h l /\ forall x, In x l -> leb h x = true.
Proof.
  intros H.
  assert (G : forall h t, order_by leb l = h :: t ->
                          forall x, In x (order_by leb l) -> leb h x = true).
  { clear H h. induction l as [|a l IH]; simpl; [discriminate|].
    apply insert_by_head, IH. }
  unfold first in H. destruct (order_by leb l) as [|h' t] eqn:E;
    [discriminate|]. injection H as ->.
  split.
  - apply In_order_by. rewrite E. left. reflexivity.
  - intros x Hx. apply (G h t eq_refl). rewrite <- E at 1.
    apply In_order_by, Hx.
Qed.

End OrderByFacts.

Lemma first_order_by_none {A : Type} (leb : A -> A -> bool) (l : list A) :
  first (order_by leb l) = None <-> l = [].
Proof.
  rewrite <- (order_by_nil leb). unfold first.
  destruct (order_by leb l); simpl; split; congruence.
Qed.





Lemma filter_at_most_one {A : Type} (f : A -> bool) (l : list A) (a b : A) :
  (List.length (filter f l) <= 1)%nat ->
  In a l -> In b l -> f a = true -> f b = true -> a = b.
Proof.
  intros Hlen Ha Hb Fa Fb.
  assert (Ia : In a (filter f l)) by (apply filter_In; auto).
  assert (Ib : In b (filter f l)) by (apply filter_In; auto).
  destruct (filter f l) as [|x [|y t]]; simpl in *; try lia.
  destruct Ia as [Ia|[]], Ib as [Ib|[]]. congruence.
Qed.





(** ** Simulation driver *)

Lemma task_order_total (a b : TaskModel.t) :
  task_order a b = true \/ task_order b a = true.
Proof.
  unfold task_order.
  destruct (TaskModel.is_tech_debt a), (TaskModel.is_tech_debt b); auto;
    rewrite !Z.leb_le; lia.
Qed.

Lemma task_order_trans (a b c : TaskModel.t) :
  task_order a b = true -> task_order b c = true -> task_order a c = true.
Proof.
  unfold task_order.
  destruct (TaskModel.is_tech_debt a), (TaskModel.is_tech_debt b),
    (TaskModel.is_tech_debt c); auto; try discriminate;
    rewrite !Z.leb_le; lia.
Qed.

Lemma task_order_before (a b : TaskModel.t) :
  task_order a b = true -> task_before a b.
Proof.
  unfold task_order, task_before.
  destruct (TaskModel.is_tech_debt a), (TaskModel.is_tech_debt b);
    rewrite ?Z.leb_le; intros H; split; intros; auto; discriminate.
Qed.

Lemma story_order_total (a b : UserStoryModel.t) :
  story_order a b = true \/ story_order b a = true.
Proof.
  unfold story_order.
  destruct (Z.ltb_spec (UserStoryModel.priority a) (UserStoryModel.priority b));
    destruct (Z.ltb_spec (UserStoryModel.priority b)
                (UserStoryModel.priority a));
    auto; rewrite !Z.leb_le; lia.
Qed.

Lemma story_order_trans (a b c : UserStoryModel.t) :
  story_order a b = true -> story_order b c = true -> story_order a c = true.
Proof.
  unfold story_order.
  destruct (Z.ltb_spec (UserStoryModel.priority a) (UserStoryModel.priority b));
    destruct (Z.ltb_spec (UserStoryModel.priority b)
                (UserStoryModel.priority a));
    destruct (Z.ltb_spec (UserStoryModel.priority b)
                (UserStoryModel.priority c));
    destruct (Z.ltb_spec (UserStoryModel.priority c)
                (UserStoryModel.priority b));
    destruct (Z.ltb_spec (UserStoryModel.priority a)
                (UserStoryModel.priority c));
    destruct (Z.ltb_spec (UserStoryModel.priority c)
                (UserStoryModel.priority a));
    auto; try discriminate; try lia; rewrite !Z.leb_le; lia.
Qed.

Lemma start_order_total (a b : SprintModel.t) :
  (SprintModel.start_date a <=? SprintModel.start_date b) = true
  \/ (SprintModel.start_date b <=? SprintModel.start_date a) = true.
Proof. rewrite !Z.leb_le. lia. Qed.

Lemma start_order_trans (a b c : SprintModel.t) :
  (SprintModel.start_date a <=? SprintModel.start_date b) = true ->
  (SprintModel.start_date b <=? SprintModel.start_date c) = true ->
  (SprintModel.start_date a <=? SprintModel.start_date c) = true.
Proof. rewrite !Z.leb_le. lia. Qed.

Lemma In_active_sprints (db : DB) (s : SprintModel.t) :
  In s (active_sprints db) <->
  In s (sprints db) /\ SprintModel.status s = SprintStatus.ACTIVE.
Proof.
  unfold active_sprints, is_active.
  rewrite filter_In, SprintStatus_eqb_eq. tauto.
Qed.

Lemma current_sprint_some (db : DB) (sprint : SprintModel.t) :
  current_sprint db = Some sprint -> earliest_active db sprint.
Proof.
  intros H. unfold current_sprint in H.
  apply (first_order_by_least _ start_order_total start_order_trans) in H.
  destruct H as [H1 H2]. apply In_active_sprints in H1.
  destruct H1 as [H1 H3]. repeat split; auto.
  intros s Hs Ha. apply Z.leb_le, H2, In_active_sprints. auto.
Qed.

Lemma current_sprint_none (db : DB) :
  current_sprint db = None <->
  forall s, In s (sprints db) ->
            SprintModel.status s <> SprintStatus.ACTIVE.
Proof.
  unfold current_sprint. rewrite first_order_by_none. split.
  - intros E s Hs Ha.
    assert (X : In s (active_sprints db)) by (apply In_active_sprints; auto).
    rewrite E in X. destruct X.
  - intros H. destruct (active_sprints db) as [|s l] eqn:E; [reflexivity|].
    assert (X : In s (active_sprints db)) by (rewrite E; left; auto).
    apply In_active_sprints in X. destruct X as [X1 X2].
    exfalso. exact (H s X1 X2).
Qed.

Lemma in_sprint_spec (sid : Z) (s : UserStoryModel.t) :
  in_sprint sid s = true <-> UserStoryModel.sprint_id s = Some sid.
Proof.
  unfold in_sprint. destruct (UserStoryModel.sprint_id s) as [i|].
  - rewrite Z.eqb_eq. split; congruence.
  - split; discriminate.
Qed.

Lemma eligible_spec (db : DB) (sprint : SprintModel.t) (st : TaskStatus.t)
    (k : TaskModel.t) :
  In k (filter
          (fun k => TaskStatus.eqb (TaskModel.status k) st
                    && task_in_sprint db (SprintModel.id sprint) k)
          (tasks db))
  <-> eligible db sprint st k.
Proof.
  unfold eligible, task_in_sprint, task_story.
  rewrite filter_In, andb_true_iff, TaskStatus_eqb_eq.
  destruct (get_story db (TaskModel.story_id k)) as [s|].
  - rewrite in_sprint_spec. split.
    + intros [H1 [H2 H3]]. repeat split; auto. exists s. auto.
    + intros [H1 [H2 [s' [H3 H4]]]]. injection H3 as <-. auto.
  - split.
    + intros [_ [_ H]]. discriminate.
    + intros [_ [_ [s' [H _]]]]. discriminate.
Qed.

Lemma pick_task_some (db : DB) (sprint : SprintModel.t) (st : TaskStatus.t)
    (k : TaskModel.t) :
  pick_task db sprint st = Some k -> chosen db sprint st k.
Proof.
  intros H. unfold pick_task in H.
  apply (first_order_by_least _ task_order_total task_order_trans) in H.
  destruct H as [H1 H2]. split.
  - apply eligible_spec, H1.
  - intros k' Hk'. apply task_order_before, H2, eligible_spec, Hk'.
Qed.

Lemma pick_task_none (db : DB) (sprint : SprintModel.t) (st : TaskStatus.t) :
  pick_task db sprint st = None -> forall x, ~ eligible db sprint st x.
Proof.
  unfold pick_task. rewrite first_order_by_none. intros E x Hx.
  apply eligible_spec in Hx. rewrite E in Hx. destruct Hx.
Qed.

Lemma set_story_status_tables (key : Z) (v : UserStoryStatus.t) (db : DB) :
  tasks (set_story_status key v db) = tasks db
  /\ sprints (set_story_status key v db) = sprints db
  /\ github_links (set_story_status key v db) = github_links db
  /\ burndown_snapshots (set_story_status key v db) = burndown_snapshots db.
Proof. repeat split. Qed.

(** The rollup writes the story table only. *)
Lemma sync_story_status_tables (db : DB) (story : UserStoryModel.t) :
  tasks (sync_story_status db story) = tasks db
  /\ sprints (sync_story_status db story) = sprints db
  /\ github_links (sync_story_status db story) = github_links db
  /\ burndown_snapshots (sync_story_status db story) = burndown_snapshots db.
Proof.
  rewrite sync_story_status_cases.
  destruct (story_tasks db story); [repeat split|].
  apply set_story_status_tables.
Qed.

Lemma transition_moved (db : DB) (k : TaskModel.t) (st : TaskStatus.t) :
  moved db k st (transition db k st).
Proof.
  unfold transition, moved.
  destruct (task_story (set_task_status (TaskModel.id k) st db) k) as [s|].
  - destruct (sync_story_status_tables
                (set_task_status (TaskModel.id k) st db) s)
      as (-> & -> & -> & ->).
    repeat split.
  - repeat split.
Qed.

Lemma In_sprint_stories (db : DB) (sprint : SprintModel.t)
    (s : UserStoryModel.t) :
  In s (sprint_stories db sprint) <-> story_of_sprint db sprint s.
Proof.
  unfold sprint_stories, story_of_sprint.
  rewrite filter_In, in_sprint_spec. tauto.
Qed.

Lemma story_order_lowest (a b : UserStoryModel.t) :
  story_order a b = true ->
  UserStoryModel.priority a < UserStoryModel.priority b
  \/ (UserStoryModel.priority a = UserStoryModel.priority b
      /\ UserStoryModel.id a <= UserStoryModel.id b).
Proof.
  unfold story_order.
  destruct (Z.ltb_spec (UserStoryModel.priority a) (UserStoryModel.priority b));
    [auto|].
  destruct (Z.ltb_spec (UserStoryModel.priority b) (UserStoryModel.priority a));
    [discriminate|].
  rewrite Z.leb_le. lia.
Qed.

Lemma ensure_tech_debt_task_added (db : DB) (sprint : SprintModel.t) :
  tech_debt_added db sprint (fst (ensure_tech_debt_task db sprint)).
Proof.
  unfold ensure_tech_debt_task, tech_debt_added.
  destruct (first (order_by story_order (sprint_stories db sprint)))
    as [story|] eqn:E.
  - exists story. eexists. simpl.
    repeat (split; [reflexivity|]).
    left. split; [|reflexivity].
    apply (first_order_by_least _ story_order_total story_order_trans) in E.
    destruct E as [E1 E2]. split; [apply In_sprint_stories, E1|].
    intros s' Hs'. apply story_order_lowest, E2, In_sprint_stories, Hs'.
  - exists (tech_debt_story (SprintModel.id sprint)
              (next_id (map UserStoryModel.id (user_stories db)))).
    eexists. simpl.
    repeat (split; [reflexivity|]).
    right. split; [|repeat split].
    apply first_order_by_none in E. intros s Hs.
    apply In_sprint_stories in Hs. rewrite E in Hs. destruct Hs.
Qed.

(** C4: without an ACTIVE sprint the step changes nothing; otherwise it
    works on an ACTIVE sprint of earliest start date and applies the first
    rule that has a task to act on, the task being picked tech-debt first
    and then by lowest identity, or else adds the tech-debt task. *)
Theorem simulate_progress_first_rule (db : DB) :
  ((forall s, In s (sprints db) ->
              SprintModel.status s <> SprintStatus.ACTIVE) ->
   simulate_progress db = db)
  /\ ((exists s, In s (sprints db)
                 /\ SprintModel.status s = SprintStatus.ACTIVE) ->
      exists sprint,
        earliest_active db sprint
        /\ step_rule db sprint (simulate_progress db)).
Proof.
  unfold simulate_progress. split.
  - intros H. apply current_sprint_none in H. rewrite H. reflexivity.
  - intros [s [Hs Ha]].
    destruct (current_sprint db) as [sprint|] eqn:E.
    2:{ exfalso. exact (proj1 (current_sprint_none db) E s Hs Ha). }
    exists sprint. split; [apply current_sprint_some, E|].
    destruct (pick_task db sprint TaskStatus.CODE_REVIEW) as [k1|] eqn:E1.
    { apply (rule_code_review _ _ _ k1);
        [apply pick_task_some, E1|apply transition_moved]. }
    pose proof (pick_task_none _ _ _ E1) as N1.
    destruct (pick_task db sprint TaskStatus.IN_PROGRESS) as [k2|] eqn:E2.
    { apply (rule_in_progress _ _ _ k2);
        [exact N1|apply pick_task_some, E2|apply transition_moved]. }
    pose proof (pick_task_none _ _ _ E2) as N2.
    destruct (pick_task db sprint TaskStatus.TODO) as [k3|] eqn:E3.
    { apply (rule_todo _ _ _ k3);
        [exact N1|exact N2|apply pick_task_some, E3|apply transition_moved]. }
    pose proof (pick_task_none _ _ _ E3) as N3.
    apply rule_tech_debt; auto. apply ensure_tech_debt_task_added.
Qed.

(** ** Snapshot recorder *)

Lemma next_id_fresh (ids : list Z) (x : Z) : In x ids -> x < next_id ids.
Proof.
  unfold next_id. induction ids as [|a l IH]; simpl; [tauto|].
  intros [->|H]; [lia|]. specialize (IH H). lia.
Qed.

Lemma NoDup_map_inj {A B : Type} (f : A -> B) (l : list A) (a b : A) :
  NoDup (map f l) -> In a l -> In b l -> f a = f b -> a = b.
Proof.
  induction l as [|x l IH]; simpl; intros Hnd Ha Hb E; [tauto|].
  inversion Hnd as [|? ? Hx Hl]; subst.
  destruct Ha as [->|Ha], Hb as [->|Hb]; auto.
  - exfalso. apply Hx. rewrite E. apply in_map, Hb.
  - exfalso. apply Hx. rewrite <- E. apply in_map, Ha.
Qed.

Lemma NoDup_map_filter {Row Key : Type} (key : Row -> Key)
    (keep : Row -> bool) (rows : list Row) :
  NoDup (map key rows) -> NoDup (map key (filter keep rows)).
Proof.
  intros H. induction rows as [|x rows IH]; simpl; [constructor|].
  simpl in H. inversion H as [|? ? Hx Hl]; subst.
  destruct (keep x); simpl; [constructor|]; auto.
  intros X. apply Hx. apply in_map_iff in X. destruct X as [y [E Hy]].
  apply filter_In in Hy. rewrite <- E. apply in_map, Hy.
Qed.

(** Among rows with distinct keys at most one passes a test that fixes the
    key. *)
Lemma filter_key_at_most_one {A : Type} (f : A -> Z) (g : A -> bool) (k : Z)
    (l : list A) :
  NoDup (map f l) ->
  (List.length (filter (fun x => g x && (f x =? k)%Z) l) <= 1)%nat.
Proof.
  induction l as [|x l IH]; simpl; intros H; [lia|].
  inversion H as [|? ? Hx Hl]; subst. specialize (IH Hl).
  destruct (g x && (f x =? k)) eqn:E; [|exact IH].
  apply andb_true_iff in E. destruct E as [_ E]. apply Z.eqb_eq in E.
  assert (N : filter (fun y => g y && (f y =? k)) l = []).
  { destruct (filter (fun y => g y && (f y =? k)) l) as [|y t] eqn:F;
      [reflexivity|].
    assert (Y : In y (filter (fun y => g y && (f y =? k)) l))
      by (rewrite F; left; auto).
    apply filter_In in Y. destruct Y as [Y1 Y2].
    apply andb_true_iff in Y2. destruct Y2 as [_ Y2]. apply Z.eqb_eq in Y2.
    exfalso. apply Hx. rewrite E, <- Y2. apply in_map, Y1. }
  simpl. rewrite N. simpl. lia.
Qed.

Lemma skeleton_overwrite (key v : Z) (s : BurndownSnapshotModel.t) :
  skeleton (overwrite key v s) = skeleton s.
Proof. unfold overwrite. destruct (_ =? key); reflexivity. Qed.

Lemma snapshot_at_skeleton (sid : Z) (d : date)
    (a b : BurndownSnapshotModel.t) :
  skeleton a = skeleton b -> snapshot_at sid d a = snapshot_at sid d b.
Proof. unfold skeleton, snapshot_at. intros E. injection E as _ -> ->. auto. Qed.

Lemma snapshot_at_spec (sid : Z) (d : date) (s : BurndownSnapshotModel.t) :
  snapshot_at sid d s = true <->
  BurndownSnapshotModel.sprint_id s = sid
  /\ BurndownSnapshotModel.snapshot_date s = d.
Proof. unfold snapshot_at. rewrite andb_true_iff, !Z.eqb_eq. tauto. Qed.

Lemma count_overwrite (sid : Z) (d : date) (key v : Z)
    (l : list BurndownSnapshotModel.t) :
  List.length (filter (snapshot_at sid d) (map (overwrite key v) l))
  = List.length (filter (snapshot_at sid d) l).
Proof.
  induction l as [|x l IH]; simpl; [reflexivity|].
  rewrite (snapshot_at_skeleton sid d _ x (skeleton_overwrite key v x)).
  destruct (snapshot_at sid d x); simpl; rewrite IH; reflexivity.
Qed.

Section CaptureFacts.
Variables (db : DB) (d : date).

Let T0 := burndown_snapshots db.
Let step := capture_sprint db d.
Let R := calculate_remaining_points db.

(** A sprint for which the call inserts a row. *)
Let missing (sp : SprintModel.t) : bool :=
  match first (filter (snapshot_at (SprintModel.id sp) d) T0) with
  | Some _ => false
  | None => true
  end.

Lemma missing_spec (sp : SprintModel.t) :
  missing sp = true <-> snapshot_count db (SprintModel.id sp) d = O.
Proof.
  unfold missing, snapshot_count, first. fold T0.
  destruct (filter (snapshot_at (SprintModel.id sp) d) T0); simpl;
    split; intros; try discriminate; reflexivity.
Qed.

Lemma step_count (P : list BurndownSnapshotModel.t) (sp : SprintModel.t)
    (sid : Z) (d' : date) :
  List.length (filter (snapshot_at sid d') (step P sp))
  = Nat.add (List.length (filter (snapshot_at sid d') P))
            (if missing sp && (SprintModel.id sp =? sid) && (d =? d')
             then 1%nat else 0%nat).
Proof.
  unfold step, capture_sprint, missing. fold T0.
  destruct (first (filter (snapshot_at (SprintModel.id sp) d) T0)).
  - rewrite count_overwrite. simpl. lia.
  - rewrite filter_app, length_app. simpl. unfold snapshot_at at 2. simpl.
    destruct ((SprintModel.id sp =? sid) && (d =? d')); simpl; lia.
Qed.

Lemma fold_count (sps : list SprintModel.t)
    (P : list BurndownSnapshotModel.t) (sid : Z) (d' : date) :
  List.length (filter (snapshot_at sid d') (fold_left step sps P))
  = Nat.add (List.length (filter (snapshot_at sid d') P))
            (List.length
               (filter (fun sp => (missing sp && (d =? d'))
                                  && (SprintModel.id sp =? sid)) sps)).
Proof.
  revert P. induction sps as [|sp sps IH]; intros P; simpl; [lia|].
  rewrite IH, step_count.
  replace (missing sp && (SprintModel.id sp =? sid) && (d =? d'))
    with (missing sp && (d =? d') && (SprintModel.id sp =? sid))
    by (destruct (missing sp), (d =? d'), (SprintModel.id sp =? sid);
        reflexivity).
  destruct (missing sp && (d =? d') && (SprintModel.id sp =? sid));
    simpl; lia.
Qed.

(** What every pending table satisfies during the call. *)
Let Inv (P : list BurndownSnapshotModel.t) : Prop :=
  NoDup (map BurndownSnapshotModel.id P)
  /\ forall r0, In r0 T0 -> exists r, In r P /\ skeleton r = skeleton r0.

Lemma map_id_overwrite (key v : Z) (P : list BurndownSnapshotModel.t) :
  map BurndownSnapshotModel.id (map (overwrite key v) P)
  = map BurndownSnapshotModel.id P.
Proof.
  rewrite map_map. apply map_ext. intros s.
  unfold overwrite. destruct (_ =? key); reflexivity.
Qed.

Lemma step_Inv (P : list BurndownSnapshotModel.t) (sp : SprintModel.t) :
  Inv P -> Inv (step P sp).
Proof.
  intros [H1 H2]. unfold step, capture_sprint. fold T0.
  destruct (first (filter (snapshot_at (SprintModel.id sp) d) T0)).
  - split.
    + rewrite map_id_overwrite. exact H1.
    + intros r0 Hr0. destruct (H2 r0 Hr0) as [r [Hr E]].
      eexists. split; [apply in_map, Hr|].
      rewrite skeleton_overwrite. exact E.
  - split.
    + rewrite map_app. simpl. apply NoDup_app; auto.
      * constructor; [intros []|constructor].
      * intros x Hx [<-|[]]. apply next_id_fresh in Hx. lia.
    + intros r0 Hr0. destruct (H2 r0 Hr0) as [r [Hr E]].
      exists r. split; [apply in_or_app; left; exact Hr|exact E].
Qed.

Lemma fold_Inv (sps : list SprintModel.t)
    (P : list BurndownSnapshotModel.t) :
  Inv P -> Inv (fold_left step sps P).
Proof.
  revert P. induction sps as [|sp sps IH]; intros P H; simpl; [exact H|].
  apply IH, step_Inv, H.
Qed.

Let holds (P : list BurndownSnapshotModel.t) (sid v : Z) : Prop :=
  exists r, In r P /\ snapshot_at sid d r = true
            /\ BurndownSnapshotModel.remaining_points r = v.

(** After its turn a sprint has a row for the day that holds its
    remaining points. *)
Lemma step_holds (P : list BurndownSnapshotModel.t) (sp : SprintModel.t) :
  Inv P -> holds (step P sp) (SprintModel.id sp) (R (SprintModel.id sp)).
Proof.
  intros [_ H2]. unfold step, capture_sprint, holds. fold T0. fold R.
  destruct (first (filter (snapshot_at (SprintModel.id sp) d) T0))
    as [r0|] eqn:E.
  - unfold first in E.
    assert (X : In r0 (filter (snapshot_at (SprintModel.id sp) d) T0)).
    { destruct (filter (snapshot_at (SprintModel.id sp) d) T0);
        [discriminate|]. injection E as ->. left. reflexivity. }
    apply filter_In in X. destruct X as [X1 X2].
    destruct (H2 r0 X1) as [r [Hr Es]].
    exists (overwrite (BurndownSnapshotModel.id r0)
                      (R (SprintModel.id sp)) r).
    split; [apply in_map, Hr|]. split.
    + rewrite (snapshot_at_skeleton _ _ _ r (skeleton_overwrite _ _ r)).
      rewrite (snapshot_at_skeleton _ _ _ _ Es). exact X2.
    + unfold overwrite.
      replace (BurndownSnapshotModel.id r) with (BurndownSnapshotModel.id r0)
        by (unfold skeleton in Es; congruence).
      rewrite Z.eqb_refl. reflexivity.
  - eexists. split; [apply in_or_app; right; left; reflexivity|].
    split; [|reflexivity].
    unfold snapshot_at. simpl. rewrite !Z.eqb_refl. reflexivity.
Qed.

(** The turn of another sprint leaves that row alone. *)
Lemma step_keeps (P : list BurndownSnapshotModel.t) (sp : SprintModel.t)
    (sid v : Z) :
  Inv P -> SprintModel.id sp <> sid ->
  holds P sid v -> holds (step P sp) sid v.
Proof.
  intros [H1 H2] Hne [r [Hr [Hat Hv]]].
  unfold step, capture_sprint, holds. fold T0.
  destruct (first (filter (snapshot_at (SprintModel.id sp) d) T0))
    as [r0|] eqn:E.
  - unfold first in E.
    assert (X : In r0 (filter (snapshot_at (SprintModel.id sp) d) T0)).
    { destruct (filter (snapshot_at (SprintModel.id sp) d) T0);
        [discriminate|]. injection E as ->. left. reflexivity. }
    apply filter_In in X. destruct X as [X1 X2].
    destruct (H2 r0 X1) as [r' [Hr' Es]].
    exists r. split; [|auto].
    apply in_map_iff. exists r. split; [|exact Hr].
    unfold overwrite.
    destruct (Z.eqb_spec (BurndownSnapshotModel.id r)
                (BurndownSnapshotModel.id r0)) as [Eid|]; [|reflexivity].
    exfalso. assert (r' = r).
    { apply (NoDup_map_inj BurndownSnapshotModel.id P); auto.
      unfold skeleton in Es. congruence. }
    subst r'. rewrite <- (snapshot_at_skeleton _ _ _ _ Es) in X2.
    apply snapshot_at_spec in X2. apply snapshot_at_spec in Hat. lia.
  - exists r. split; [apply in_or_app; left; exact Hr|auto].
Qed.

Lemma fold_keeps (sps : list SprintModel.t)
    (P : list BurndownSnapshotModel.t) (sid v : Z) :
  Inv P -> (forall sp, In sp sps -> SprintModel.id sp <> sid) ->
  holds P sid v -> holds (fold_left step sps P) sid v.
Proof.
  revert P. induction sps as [|sp sps IH]; intros P HI Hne H; simpl;
    [exact H|].
  apply IH.
  - apply step_Inv, HI.
  - intros x Hx. apply Hne. right. exact Hx.
  - apply step_keeps; auto. apply Hne. left. reflexivity.
Qed.

Lemma fold_holds (sps : list SprintModel.t)
    (P : list BurndownSnapshotModel.t) (sp : SprintModel.t) :
  Inv P -> NoDup (map SprintModel.id sps) -> In sp sps ->
  holds (fold_left step sps P) (SprintModel.id sp) (R (SprintModel.id sp)).
Proof.
  revert P. induction sps as [|a sps IH]; intros P HI Hnd Hin; [destruct Hin|].
  simpl in *. inversion Hnd as [|? ? Ha Hl]; subst.
  destruct Hin as [->|Hin].
  - apply fold_keeps.
    + apply step_Inv, HI.
    + intros x Hx E. apply Ha. rewrite <- E. apply in_map, Hx.
    + apply step_holds, HI.
  - apply IH; auto. apply step_Inv, HI.
Qed.

End CaptureFacts.

(** One call of the recorder on a store that satisfies its keys and has at
    most one snapshot per sprint and day. *)
Lemma capture_once (db : DB) (d : date) :
  primary_keys db -> one_snapshot_per_day db ->
  let T1 :=
    fold_left (capture_sprint db d) (active_sprints db)
              (burndown_snapshots db) in
  NoDup (map BurndownSnapshotModel.id T1)
  /\ (forall sid d', (List.length (filter (snapshot_at sid d') T1) <= 1)%nat)
  /\ forall sp, In sp (active_sprints db) ->
       List.length (filter (snapshot_at (SprintModel.id sp) d) T1) = 1%nat
       /\ forall r, In r T1 ->
            snapshot_at (SprintModel.id sp) d r = true ->
            BurndownSnapshotModel.remaining_points r
            = calculate_remaining_points db (SprintModel.id sp).
Proof.
  intros (Ksp & _ & _ & _ & Ksn) Hone. cbv zeta.
  assert (HI : NoDup (map BurndownSnapshotModel.id (burndown_snapshots db))
               /\ forall r0, In r0 (burndown_snapshots db) ->
                    exists r, In r (burndown_snapshots db)
                              /\ skeleton r = skeleton r0).
  { split; [exact Ksn|]. intros r0 H. exists r0. auto. }
  assert (Kact : NoDup (map SprintModel.id (active_sprints db)))
    by (apply NoDup_map_filter, Ksp).
  assert (Hle : forall sid d',
    (List.length
       (filter (snapshot_at sid d')
          (fold_left (capture_sprint db d) (active_sprints db)
             (burndown_snapshots db))) <= 1)%nat).
  { intros sid d'. rewrite fold_count.
    pose proof (Hone sid d') as H0. unfold snapshot_count in H0.
    pose proof (filter_key_at_most_one SprintModel.id
      (fun sp =>
         match first (filter (snapshot_at (SprintModel.id sp) d)
                        (burndown_snapshots db)) with
         | Some _ => false | None => true end && (d =? d'))
      sid (active_sprints db) Kact) as H1.
    destruct (filter (snapshot_at sid d') (burndown_snapshots db))
      as [|x t] eqn:F; simpl in *; [exact H1|].
    match goal with
    | |- (S (_ + List.length ?l) <= 1)%nat => destruct l as [|sp t'] eqn:G
    end; [simpl; lia|].
    exfalso.
    assert (X : In sp (sp :: t')) by (left; reflexivity).
    rewrite <- G in X. apply filter_In in X. destruct X as [_ X].
    apply andb_true_iff in X. destruct X as [X Eid].
    apply andb_true_iff in X. destruct X as [Xm Ed].
    apply Z.eqb_eq in Eid. apply Z.eqb_eq in Ed. subst d' sid.
    rewrite F in Xm. discriminate. }
  split; [apply (fold_Inv db d _ _ HI)|]. split; [exact Hle|].
  intros sp Hsp.
  destruct (fold_holds db d _ _ sp HI Kact Hsp) as [r [Hr [Hat Hv]]].
  assert (Hge : (1 <= List.length
                   (filter (snapshot_at (SprintModel.id sp) d)
                      (fold_left (capture_sprint db d) (active_sprints db)
                         (burndown_snapshots db))))%nat).
  { assert (X : In r (filter (snapshot_at (SprintModel.id sp) d)
                        (fold_left (capture_sprint db d) (active_sprints db)
                           (burndown_snapshots db))))
      by (apply filter_In; auto).
    destruct (filter _ _); [destruct X|simpl; lia]. }
  split; [specialize (Hle (SprintModel.id sp) d); lia|].
  intros r' Hr' Hat'. rewrite <- Hv. f_equal.
  apply (filter_at_most_one (snapshot_at (SprintModel.id sp) d)
           (fold_left (capture_sprint db d) (active_sprints db)
              (burndown_snapshots db))); auto.
Qed.

Lemma set_remaining_points_same (s : BurndownSnapshotModel.t) :
  BurndownSnapshotModel.set_remaining_points
    (BurndownSnapshotModel.remaining_points s) s = s.
Proof. destruct s. reflexivity. Qed.

(** Overwriting the row that already holds the value changes nothing. *)
Lemma overwrite_same (P : list BurndownSnapshotModel.t)
    (r : BurndownSnapshotModel.t) :
  NoDup (map BurndownSnapshotModel.id P) -> In r P ->
  map (overwrite (BurndownSnapshotModel.id r)
                 (BurndownSnapshotModel.remaining_points r)) P = P.
Proof.
  intros Hnd Hr. rewrite <- (map_id P) at 2. apply map_ext_in.
  intros s Hs. unfold overwrite.
  destruct (Z.eqb_spec (BurndownSnapshotModel.id s)
              (BurndownSnapshotModel.id r)) as [E|]; [|reflexivity].
  assert (s = r) by (apply (NoDup_map_inj BurndownSnapshotModel.id P); auto).
  subst s. apply set_remaining_points_same.
Qed.

Lemma capture_target (today : date) (for_date : option date) (db : DB) :
  capture_burndown_snapshots today for_date db
  = (with_burndown_snapshots
       (fold_left (capture_sprint db (or_else for_date today))
                  (active_sprints db) (burndown_snapshots db))
       db,
     None).
Proof. destruct for_date; reflexivity. Qed.

(** C6: a second capture for the same day, the stories being as they were,
    leaves the store exactly as the first left it; no sprint has two
    snapshots on one day, and every ACTIVE sprint has one for the captured
    day, holding its remaining points. *)
Theorem capture_burndown_snapshots_idempotent (today : date)
    (for_date : option date) (db : DB) :
  primary_keys db -> one_snapshot_per_day db ->
  let target_date := or_else for_date today in
  let db1 := fst (capture_burndown_snapshots today for_date db) in
  let db2 := fst (capture_burndown_snapshots today for_date db1) in
  db2 = db1
  /\ one_snapshot_per_day db2
  /\ forall sprint, In sprint (sprints db) ->
       SprintModel.status sprint = SprintStatus.ACTIVE ->
       snapshot_count db2 (SprintModel.id sprint) target_date = 1%nat
       /\ forall r, In r (burndown_snapshots db2) ->
            snapshot_at (SprintModel.id sprint) target_date r = true ->
            BurndownSnapshotModel.remaining_points r
            = calculate_remaining_points db (SprintModel.id sprint).
Proof.
  intros HK Hone. cbv zeta. rewrite !capture_target. simpl fst.
  set (d := or_else for_date today).
  set (T1 := fold_left (capture_sprint db d) (active_sprints db)
                       (burndown_snapshots db)).
  destruct (capture_once db d HK Hone) as (Hnd & Hle & Hact).
  fold T1 in Hnd, Hle, Hact.
  assert (Hfix :
    forall sps, (forall sp, In sp sps -> In sp (active_sprints db)) ->
      fold_left (capture_sprint (with_burndown_snapshots T1 db) d) sps T1
      = T1).
  { induction sps as [|sp sps IH]; intros Hsub; [reflexivity|]. simpl.
    assert (Hsp : In sp (active_sprints db)) by (apply Hsub; left; auto).
    destruct (Hact sp Hsp) as [Hc Hv].
    assert (E : capture_sprint (with_burndown_snapshots T1 db) d T1 sp = T1).
    { unfold capture_sprint. simpl burndown_snapshots.
      destruct (filter (snapshot_at (SprintModel.id sp) d) T1)
        as [|r t] eqn:F; [discriminate|]. simpl first.
      assert (X : In r (filter (snapshot_at (SprintModel.id sp) d) T1))
        by (rewrite F; left; reflexivity).
      apply filter_In in X. destruct X as [X1 X2].
      change (calculate_remaining_points (with_burndown_snapshots T1 db)
                (SprintModel.id sp))
        with (calculate_remaining_points db (SprintModel.id sp)).
      rewrite <- (Hv r X1 X2). apply overwrite_same; auto. }
    rewrite E. apply IH. intros x Hx. apply Hsub. right. exact Hx. }
  change (active_sprints (with_burndown_snapshots T1 db))
    with (active_sprints db).
  rewrite (Hfix (active_sprints db)) by auto.
  split; [reflexivity|]. split.
  - intros sid d'. unfold snapshot_count. simpl. apply Hle.
  - intros sprint Hs Ha.
    assert (Hsp : In sprint (active_sprints db))
      by (apply In_active_sprints; auto).
    destruct (Hact sprint Hsp) as [Hc Hv].
    split; [exact Hc|exact Hv].
Qed.

(** Every ACTIVE sprint has, after a capture, a snapshot for the target
    day that holds its remaining points. *)
Lemma capture_covers (today : date) (for_date : option date) (db : DB)
    (sprint : SprintModel.t) :
  primary_keys db ->
  In sprint (sprints db) ->
  SprintModel.status sprint = SprintStatus.ACTIVE ->
  exists r,
    In r (burndown_snapshots
            (fst (capture_burndown_snapshots today for_date db)))
    /\ BurndownSnapshotModel.sprint_id r = SprintModel.id sprint
    /\ BurndownSnapshotModel.snapshot_date r = or_else for_date today
    /\ BurndownSnapshotModel.remaining_points r
       = calculate_remaining_points db (SprintModel.id sprint).
Proof.
  intros (Ksp & _ & _ & _ & Ksn) Hs Ha. rewrite capture_target. simpl.
  assert (HI : NoDup (map BurndownSnapshotModel.id (burndown_snapshots db))
               /\ forall r0, In r0 (burndown_snapshots db) ->
                    exists r, In r (burndown_snapshots db)
                              /\ skeleton r = skeleton r0).
  { split; [exact Ksn|]. intros r0 H. exists r0. auto. }
  destruct (fold_holds db (or_else for_date today) (active_sprints db) _
              sprint HI) as [r [Hr [Hat Hv]]].
  - apply NoDup_map_filter, Ksp.
  - apply In_active_sprints. auto.
  - apply snapshot_at_spec in Hat. exists r. tauto.
Qed.

(** The tables other than the snapshots are not written by a capture. *)
Lemma capture_keeps (today : date) (for_date : option date) (db : DB) :
  let db' := fst (capture_burndown_snapshots today for_date db) in
  sprints db' = sprints db
  /\ user_stories db' = user_stories db
  /\ tasks db' = tasks db
  /\ github_links db' = github_links db.
Proof. rewrite capture_target. repeat split. Qed.

(** C9, as the code has it: the recorder hands nothing back; what it does
    is leave, for each ACTIVE sprint, a snapshot for the target day that
    holds the sprint's remaining points. *)
Theorem capture_burndown_snapshots_returns_none (today : date)
    (for_date : option date) (db : DB) :
  primary_keys db ->
  snd (capture_burndown_snapshots today for_date db) = None
  /\ forall sprint, In sprint (sprints db) ->
       SprintModel.status sprint = SprintStatus.ACTIVE ->
       exists r,
         In r (burndown_snapshots
                 (fst (capture_burndown_snapshots today for_date db)))
         /\ BurndownSnapshotModel.sprint_id r = SprintModel.id sprint
         /\ BurndownSnapshotModel.snapshot_date r = or_else for_date today
         /\ BurndownSnapshotModel.remaining_points r
            = calculate_remaining_points db (SprintModel.id sprint).
Proof.
  intros HK. split; [rewrite capture_target; reflexivity|].
  intros sprint Hs Ha. apply capture_covers; assumption.
Qed.

(** ** Reference extractor *)

Lemma span_spec (p : Z -> bool) (s a b : text) :
  span p s = (a, b) ->
  s = a ++ b
  /\ Forall (fun c => p c = true) a
  /\ match b with [] => True | c :: _ => p c = false end.
Proof.
  revert a b. induction s as [|c s IH]; intros a b H; simpl in H.
  - injection H as <- <-. repeat split. constructor.
  - destruct (p c) eqn:E.
    + destruct (span p s) as [a' b'] eqn:F. injection H as <- <-.
      destruct (IH a' b' eq_refl) as (H1 & H2 & H3).
      repeat split; [simpl; congruence|constructor; auto|exact H3].
    + injection H as <- <-. repeat split; [constructor|exact E].
Qed.

Lemma span_app (p : Z -> bool) (a : text) (c : Z) (r : text) :
  Forall (fun x => p x = true) a -> p c = false ->
  span p (a ++ c :: r) = (a, c :: r).
Proof.
  induction a as [|x a IH]; intros Ha Hc; simpl.
  - rewrite Hc. reflexivity.
  - inversion Ha; subst. rewrite H1, IH; auto.
Qed.

Lemma span_cons_true (p : Z -> bool) (c : Z) (s : text) :
  p c = true -> exists a b, span p (c :: s) = (c :: a, b).
Proof.
  intros H. simpl. rewrite H. destruct (span p s) as [a b]. eauto.
Qed.

Lemma span_all (p : Z -> bool) (a : text) :
  Forall (fun x => p x = true) a -> span p a = (a, []).
Proof.
  induction a as [|x a IH]; intros Ha; simpl; [reflexivity|].
  inversion Ha; subst. rewrite H1, IH; auto.
Qed.

Lemma span_run (p : Z -> bool) (a rest : text) :
  Forall (fun x => p x = true) a ->
  match rest with [] => True | c :: _ => p c = false end ->
  span p (a ++ rest) = (a, rest).
Proof.
  intros Ha Hr. destruct rest as [|c r].
  - rewrite app_nil_r. apply span_all, Ha.
  - apply span_app; assumption.
Qed.

Lemma is_letter_spec (lower c : Z) :
  is_letter lower c = true <-> c = lower \/ c = lower - 32.
Proof. unfold is_letter. rewrite orb_true_iff, !Z.eqb_eq. tauto. Qed.

(** The three letters of the pattern, as the matcher tests them. *)
Lemma ref_word_letters (c1 c2 c3 : Z) :
  ref_word [c1; c2; c3] <->
  is_letter 0x72 c1 && is_letter 0x65 c2 && is_letter 0x66 c3 = true.
Proof.
  rewrite !andb_true_iff, !is_letter_spec. unfold ref_word. split.
  - intros (a & b & c & E & H1 & H2 & H3). injection E as -> -> ->. lia.
  - intros [[H1 H2] H3]. exists c1, c2, c3. split; [reflexivity|]. lia.
Qed.

Lemma number_sign_not_space : is_space 0x23 = false.
Proof. reflexivity. Qed.

Lemma ref_token_nonempty (tok digits : text) :
  ref_token tok digits -> tok <> [].
Proof.
  intros (w & ws & -> & (c1 & c2 & c3 & -> & _) & _). discriminate.
Qed.

(** A successful match is a token at the start of the text, its digit run
    taken to the end. *)
Lemma match_ref_some (s group rest : text) :
  match_ref s = Some (group, rest) ->
  exists tok, s = tok ++ rest /\ ref_token tok group /\ run_ended rest.
Proof.
  unfold match_ref. intros H.
  destruct s as [|c1 [|c2 [|c3 s1]]]; try discriminate.
  destruct (is_letter 0x72 c1 && is_letter 0x65 c2 && is_letter 0x66 c3)
    eqn:L; [|discriminate].
  apply ref_word_letters in L.
  destruct (span is_space s1) as [ws r1] eqn:S1.
  destruct ws as [|w0 ws]; [discriminate|].
  destruct r1 as [|h s2]; [discriminate|].
  destruct (is_number_sign h) eqn:Hh; [|discriminate].
  apply Z.eqb_eq in Hh. subst h.
  destruct (span is_digit s2) as [ds r2] eqn:S2.
  destruct ds as [|d0 ds]; [discriminate|].
  injection H as <- <-.
  apply span_spec in S1. destruct S1 as (E1 & F1 & _).
  apply span_spec in S2. destruct S2 as (E2 & F2 & G2).
  exists ([c1; c2; c3] ++ (w0 :: ws) ++ 0x23 :: d0 :: ds). split.
  - rewrite E1, E2. simpl. rewrite <- !app_assoc. reflexivity.
  - split; [|exact G2].
    exists [c1; c2; c3], (w0 :: ws).
    repeat split; auto; discriminate.
Qed.

(** A token at the start of the text, its digit run ended, is matched. *)
Lemma match_ref_token (tok digits rest : text) :
  ref_token tok digits -> run_ended rest ->
  match_ref (tok ++ rest) = Some (digits, rest).
Proof.
  intros (w & ws & -> & Hw & Hne & Hws & Hd & Hds) He.
  pose proof Hw as (c1 & c2 & c3 & -> & _).
  apply ref_word_letters in Hw.
  cbn [app match_ref]. rewrite Hw.
  rewrite <- !app_assoc. cbn [app].
  rewrite (span_app is_space ws 0x23 (digits ++ rest) Hws
             number_sign_not_space).
  destruct ws as [|w0 ws]; [congruence|].
  change (is_number_sign 0x23) with true. cbv iota.
  rewrite (span_run is_digit digits rest Hds He).
  destruct digits; [congruence|reflexivity].
Qed.

(** No match means that no token starts the text. *)
Lemma match_ref_none (s : text) :
  match_ref s = None -> ~ starts_with_token s.
Proof.
  intros H (tok & digits & rest & -> & Ht).
  destruct digits as [|d0 ds].
  { destruct Ht as (_ & _ & _ & _ & _ & _ & Hd & _). congruence. }
  assert (He : exists run rest', rest = run ++ rest'
                                 /\ Forall (fun c => is_digit c = true) run
                                 /\ run_ended rest').
  { destruct (span is_digit rest) as [run rest'] eqn:Sp.
    apply span_spec in Sp. destruct Sp as (E & F & G).
    exists run, rest'. auto. }
  destruct He as (run & rest' & -> & Hrun & He).
  assert (Ht' : ref_token (tok ++ run) ((d0 :: ds) ++ run)).
  { destruct Ht as (w & ws & -> & Hw & Hne & Hws & Hd & Hds).
    exists w, ws. rewrite <- !app_assoc. cbn [app].
    split; [reflexivity|]. split; [exact Hw|]. split; [exact Hne|].
    split; [exact Hws|]. split; [discriminate|].
    change (d0 :: ds ++ run) with ((d0 :: ds) ++ run).
    apply Forall_app. auto. }
  rewrite app_assoc, (match_ref_token _ _ _ Ht' He) in H. discriminate.
Qed.

Lemma findall_from_tokens (fuel : nat) (s : text) :
  (List.length s <= fuel)%nat -> ref_tokens s (findall_from fuel s).
Proof.
  revert s. induction fuel as [|fuel IH]; intros s Hlen.
  - destruct s; [constructor|simpl in Hlen; lia].
  - destruct s as [|c s]; [constructor|].
    cbn [findall_from].
    destruct (match_ref (c :: s)) as [[group rest]|] eqn:M.
    + destruct (match_ref_some _ _ _ M) as (tok & E & Ht & He).
      rewrite E. constructor; auto. apply IH.
      assert (L : List.length (c :: s)
                  = (List.length tok + List.length rest)%nat)
        by (rewrite E; apply length_app).
      pose proof (ref_token_nonempty _ _ Ht).
      destruct tok; [congruence|]. simpl in *. lia.
    + constructor; [apply match_ref_none, M|].
      apply IH. simpl in Hlen. lia.
Qed.

Lemma ref_tokens_none (s : text) (l : list text) :
  ref_tokens s l -> (l = [] <-> ~ contains_token s).
Proof.
  induction 1 as [|c s l Hn Hr IH|tok digits rest l Ht He Hr IH].
  - split; [|reflexivity]. intros _ (pre & rest & E & tok & ds & r & E' & Ht).
    destruct pre; [|discriminate]. simpl in E. subst rest.
    apply ref_token_nonempty in Ht. destruct tok; [congruence|discriminate].
  - rewrite IH. split.
    + intros Hs (pre & rest & E & Hst). destruct pre as [|x pre].
      * simpl in E. subst rest. exact (Hn Hst).
      * injection E as -> ->. apply Hs. exists pre, rest. auto.
    + intros Hs (pre & rest & E & Hst). apply Hs.
      exists (c :: pre), rest. split; [simpl; congruence|exact Hst].
  - split; [discriminate|]. intros Hs. exfalso. apply Hs.
    exists [], (tok ++ rest). split; [reflexivity|].
    exists tok, digits, rest. auto.
Qed.

Lemma ref_tokens_findall_from (s : text) (l : list text) :
  ref_tokens s l ->
  forall fuel, (List.length s <= fuel)%nat -> findall_from fuel s = l.
Proof.
  induction 1 as [|c s l Hn Hr IH|tok digits rest l Ht He Hr IH];
    intros fuel Hlen.
  - destruct fuel; reflexivity.
  - destruct fuel as [|fuel]; [simpl in Hlen; lia|]. cbn [findall_from].
    destruct (match_ref (c :: s)) as [[g r]|] eqn:M.
    + exfalso. apply Hn.
      destruct (match_ref_some _ _ _ M) as (tok & E & Ht & _).
      exists tok, g, r. auto.
    + apply IH. simpl in Hlen. lia.
  - pose proof (ref_token_nonempty _ _ Ht) as Hnil.
    rewrite length_app in Hlen.
    destruct fuel as [|fuel]; [destruct tok; simpl in *; [congruence|lia]|].
    destruct (tok ++ rest) as [|c s'] eqn:E.
    { destruct tok; [congruence|discriminate]. }
    cbn [findall_from]. rewrite <- E, (match_ref_token _ _ _ Ht He).
    f_equal. apply IH. destruct tok; simpl in *; [congruence|lia].
Qed.

Lemma int_of_digits_snoc (ds : text) (c : Z) :
  int_of_digits (ds ++ [c]) = 10 * int_of_digits ds + digit_value c.
Proof. unfold int_of_digits. rewrite fold_left_app. reflexivity. Qed.

Lemma digit_of_spec (c z : Z) : digit_of c z = true <-> z <= c < z + 10.
Proof.
  unfold digit_of. rewrite andb_true_iff, Z.leb_le, Z.ltb_lt. tauto.
Qed.

(** A digit is one of the ten that follow a zero of the table, and its
    value is its distance from that zero. *)
Lemma is_digit_value (c : Z) :
  is_digit c = true <->
  exists z, In z decimal_zeros /\ z <= c < z + 10 /\ digit_value c = c - z.
Proof.
  unfold is_digit, digit_value. split.
  - intros H. destruct (find (digit_of c) decimal_zeros) as [z|] eqn:F.
    + apply find_some in F. destruct F as [F1 F2].
      apply digit_of_spec in F2. exists z. auto.
    + apply existsb_exists in H. destruct H as [z [H1 H2]].
      rewrite (find_none _ _ F z H1) in H2. discriminate.
  - intros (z & H1 & H2 & _). apply existsb_exists. exists z.
    split; [exact H1|]. apply digit_of_spec, H2.
Qed.

Lemma digit_value_range (c : Z) : 0 <= digit_value c <= 9.
Proof.
  unfold digit_value.
  destruct (find (digit_of c) decimal_zeros) as [z|] eqn:F; [|lia].
  apply find_some in F. destruct F as [_ F]. apply digit_of_spec in F. lia.
Qed.

Lemma ascii_digit (c : Z) :
  0x30 <= c <= 0x39 -> is_digit c = true /\ digit_value c = c - 0x30.
Proof.
  intros H.
  assert (D : digit_of c 0x30 = true) by (apply digit_of_spec; lia).
  unfold is_digit, digit_value, decimal_zeros. cbn [existsb find].
  rewrite D. auto.
Qed.

(** The conversions of a loop go through exactly when every match is
    within the limit of [int]. *)
Lemma ints_spec (matches : list text) :
  ints matches
  = if forallb within_limit matches
    then Some (map int_of_digits matches) else None.
Proof.
  induction matches as [|m l IH]; [reflexivity|].
  cbn [ints forallb map]. unfold int.
  destruct (within_limit m); [|reflexivity].
  rewrite IH. destruct (forallb within_limit l); reflexivity.
Qed.

Lemma extract_spec (s : string) :
  extract s = if converts s then Some (extractTaskIds s) else None.
Proof. apply ints_spec. Qed.

Lemma within_limit_spec (m : text) :
  within_limit m = true <-> Z.of_nat (List.length m) <= int_max_str_digits.
Proof. unfold within_limit. apply Z.leb_le. Qed.

(** C8, as the code has it.  The matches of the pattern are the digit runs
    of exactly the tokens met from left to right, in order and with
    repetitions.  When no run has more than 4300 digits the extraction
    returns their numbers, and it returns nothing exactly when the text
    contains no token; when some run is longer the conversion raises.  A
    run is read in base ten, each digit with its decimal value.  The word
    matches in any mix of cases; the whitespace and the digits are those of
    Unicode. *)
Theorem extractTaskIds_tokens (s : string) :
  let t := code_points s in
  (forall l, ref_tokens t l <-> findall t = l)
  /\ ((forall m, In m (findall t) ->
         Z.of_nat (List.length m) <= int_max_str_digits) ->
      extract s = Some (map int_of_digits (findall t)))
  /\ ((exists m, In m (findall t)
                 /\ int_max_str_digits < Z.of_nat (List.length m)) ->
      extract s = None)
  /\ (extract s = Some [] <-> ~ contains_token t)
  /\ int_of_digits [] = 0
  /\ (forall ds c,
        int_of_digits (ds ++ [c]) = 10 * int_of_digits ds + digit_value c)
  /\ (forall c, 0x30 <= c <= 0x39 ->
        is_digit c = true /\ digit_value c = c - 0x30)
  /\ (forall c, is_digit c = true <->
        exists z, In z decimal_zeros /\ z <= c < z + 10
                  /\ digit_value c = c - z)
  /\ (forall c, is_space c = true <->
        exists lo hi, In (lo, hi) whitespace /\ lo <= c <= hi)
  /\ extract "Ref #12 fix, ref #7 also" = Some [12; 7]
  /\ extract "no refs here" = Some []
  /\ extract "rEf #3 REF #4 ref #3" = Some [3; 4; 3]
  /\ extract "ref #007, xref #8" = Some [7; 8]
  /\ extract "ref#5 ref # 6 ref #x reference #9" = Some []
  /\ extract ref_no_break_space = Some [12]
  /\ extract ref_ideographic_space = Some [12]
  /\ extract ref_zero_width_space = Some []
  /\ extract "ref #1٢ ref #٣٤ ref #5²" = Some [12; 34; 5].
Proof.
  cbv zeta.
  assert (T : ref_tokens (code_points s) (findall (code_points s)))
    by apply findall_from_tokens, Nat.le_refl.
  split.
  { intros l. split.
    - intros H. apply (ref_tokens_findall_from _ _ H). apply Nat.le_refl.
    - intros <-. exact T. }
  split.
  { intros H. rewrite extract_spec. unfold converts, extractTaskIds.
    assert (X : forallb within_limit (findall (code_points s)) = true).
    { apply forallb_forall. intros m Hm. apply within_limit_spec, H, Hm. }
    rewrite X. reflexivity. }
  split.
  { intros (m & Hm & Hlong). rewrite extract_spec. unfold converts.
    destruct (forallb within_limit (findall (code_points s))) eqn:X;
      [|reflexivity].
    rewrite forallb_forall in X. specialize (X m Hm).
    apply within_limit_spec in X. lia. }
  split.
  { rewrite <- (ref_tokens_none _ _ T), extract_spec.
    unfold converts, extractTaskIds.
    destruct (findall (code_points s)) as [|m l].
    - simpl. split; reflexivity.
    - simpl. split; [|discriminate].
      destruct (within_limit m && forallb within_limit l); discriminate. }
  split; [reflexivity|]. split; [apply int_of_digits_snoc|].
  split; [apply ascii_digit|]. split; [apply is_digit_value|].
  split.
  { intros c. unfold is_space. rewrite existsb_exists. split.
    - intros [[lo hi] [H1 H2]]. apply andb_true_iff in H2.
      rewrite !Z.leb_le in H2. exists lo, hi. auto.
    - intros (lo & hi & H1 & H2). exists (lo, hi). split; [exact H1|].
      apply andb_true_iff. rewrite !Z.leb_le. exact H2. }
  repeat split; vm_compute; reflexivity.
Qed.

(** ** GitHub webhook *)

Lemma get_task_none (db : DB) (n : Z) :
  get_task db n = None <-> task_exists db n = false.
Proof.
  unfold get_task, task_exists.
  induction (tasks db) as [|k l IH]; simpl; [tauto|].
  destruct (TaskModel.id k =? n); simpl; [split; discriminate|exact IH].
Qed.

Lemma get_task_some (db : DB) (n : Z) (k : TaskModel.t) :
  get_task db n = Some k ->
  TaskModel.id k = n /\ In k (tasks db) /\ task_exists db n = true.
Proof.
  intros H. pose proof (find_some _ _ H) as [H1 H2].
  apply Z.eqb_eq in H2. repeat split; auto.
  destruct (task_exists db n) eqn:E; [reflexivity|].
  apply get_task_none in E. congruence.
Qed.

Lemma task_exists_ids (db1 db2 : DB) (n : Z) :
  map TaskModel.id (tasks db1) = map TaskModel.id (tasks db2) ->
  task_exists db1 n = task_exists db2 n.
Proof.
  unfold task_exists. intros E.
  assert (G : forall l, existsb (fun k => TaskModel.id k =? n) l
                        = existsb (fun i => i =? n) (map TaskModel.id l)).
  { induction l as [|k l IH]; simpl; [reflexivity|]. rewrite IH. auto. }
  rewrite !G, E. reflexivity.
Qed.

Lemma link_refs_cons (link : DB -> TaskModel.t -> DB) (r : Z)
    (refs : list Z) (db : DB) (acc : list Z) :
  link_refs link (r :: refs) (db, acc)
  = link_refs link refs
      match get_task db r with
      | Some task => (link db task, acc ++ [TaskModel.id task])
      | None => (db, acc)
      end.
Proof. reflexivity. Qed.

Section LinkRefs.
Variable link : DB -> TaskModel.t -> DB.

Hypothesis link_adds :
  forall db k, exists l,
    github_links (link db k) = github_links db ++ [l]
    /\ GitHubLinkModel.task_id l = TaskModel.id k.
Hypothesis link_ids :
  forall db k,
    map TaskModel.id (tasks (link db k)) = map TaskModel.id (tasks db).

(** One pass over a list of references: the numbers of existing tasks are
    appended to [processed_tasks], one link is added for each of them, and
    the others leave no trace. *)
Lemma link_refs_known (refs : list Z) (db : DB) (acc : list Z) :
  snd (link_refs link refs (db, acc)) = acc ++ filter (task_exists db) refs
  /\ map TaskModel.id (tasks (fst (link_refs link refs (db, acc))))
     = map TaskModel.id (tasks db)
  /\ exists new,
       github_links (fst (link_refs link refs (db, acc)))
       = github_links db ++ new
       /\ map GitHubLinkModel.task_id new = filter (task_exists db) refs.
Proof.
  revert db acc. induction refs as [|r refs IH]; intros db acc.
  - simpl. rewrite app_nil_r. repeat split. exists []. rewrite app_nil_r. auto.
  - rewrite link_refs_cons.
    destruct (get_task db r) as [k|] eqn:G.
    + destruct (get_task_some _ _ _ G) as (Hid & _ & Hex).
      destruct (IH (link db k) (acc ++ [TaskModel.id k]))
        as (H1 & H2 & new & H3 & H4).
      destruct (link_adds db k) as (l & L1 & L2).
      assert (Hsame : filter (task_exists (link db k)) refs
                      = filter (task_exists db) refs).
      { apply filter_ext. intros n. apply task_exists_ids, link_ids. }
      simpl filter. rewrite Hex.
      split; [rewrite H1, Hsame, <- app_assoc, Hid; reflexivity|].
      split; [rewrite H2; apply link_ids|].
      exists (l :: new). split.
      * rewrite H3, L1, <- app_assoc. reflexivity.
      * simpl. rewrite H4, Hsame, L2, Hid. reflexivity.
    + apply get_task_none in G. simpl filter. rewrite G. apply IH.
Qed.

End LinkRefs.

Lemma link_refs_keeps {A : Type} (f : DB -> A)
    (link : DB -> TaskModel.t -> DB) (refs : list Z) (db : DB)
    (acc : list Z) :
  (forall db k, f (link db k) = f db) ->
  f (fst (link_refs link refs (db, acc))) = f db.
Proof.
  intros H. revert db acc. induction refs as [|r refs IH]; intros db acc;
    [reflexivity|].
  rewrite link_refs_cons. destruct (get_task db r) as [k|].
  - rewrite IH. apply H.
  - apply IH.
Qed.

Lemma link_commits_fold (repo : option string) (cs : list Commit) (db : DB)
    (acc : list Z) :
  let out := fold_left (link_commit repo) cs (db, acc) in
  let refs :=
    flat_map (fun c => extractTaskIds (or_else (message c) EmptyString)) cs in
  snd out = acc ++ filter (task_exists db) refs
  /\ tasks (fst out) = tasks db
  /\ user_stories (fst out) = user_stories db
  /\ sprints (fst out) = sprints db
  /\ burndown_snapshots (fst out) = burndown_snapshots db
  /\ exists new,
       github_links (fst out) = github_links db ++ new
       /\ map GitHubLinkModel.task_id new = filter (task_exists db) refs.
Proof.
  cbv zeta. revert db acc. induction cs as [|c cs IH]; intros db acc.
  - simpl. rewrite app_nil_r. repeat split. exists []. rewrite app_nil_r. auto.
  - simpl fold_left. simpl flat_map.
    set (link := fun db task =>
                   link_commit_to_task db task (commit_id c) repo).
    set (refs := extractTaskIds (or_else (message c) EmptyString)).
    change (link_commit repo (db, acc) c)
      with (link_refs link refs (db, acc)).
    destruct (link_refs_known link) with (refs := refs) (db := db) (acc := acc)
      as (H1 & H2 & new1 & H3 & H4).
    { intros db0 k. eexists. split; reflexivity. }
    { reflexivity. }
    assert (Ht : tasks (fst (link_refs link refs (db, acc))) = tasks db)
      by (apply (link_refs_keeps tasks); reflexivity).
    assert (Hu : user_stories (fst (link_refs link refs (db, acc)))
                 = user_stories db)
      by (apply (link_refs_keeps user_stories); reflexivity).
    assert (Hs : sprints (fst (link_refs link refs (db, acc))) = sprints db)
      by (apply (link_refs_keeps sprints); reflexivity).
    assert (Hb : burndown_snapshots (fst (link_refs link refs (db, acc)))
                 = burndown_snapshots db)
      by (apply (link_refs_keeps burndown_snapshots); reflexivity).
    destruct (link_refs link refs (db, acc)) as [db1 acc1]. simpl in *.
    destruct (IH db1 acc1) as (I1 & I2 & I3 & I4 & I5 & new2 & I6 & I7).
    assert (Hsame : forall l, filter (task_exists db1) l
                              = filter (task_exists db) l).
    { intros l. apply filter_ext. intros n. apply task_exists_ids.
      rewrite Ht. reflexivity. }
    rewrite Hsame in I1, I7. rewrite filter_app.
    split; [rewrite I1, H1, <- app_assoc; reflexivity|].
    split; [congruence|]. split; [congruence|]. split; [congruence|].
    split; [congruence|].
    exists (new1 ++ new2). split.
    + rewrite I6, H3, <- app_assoc. reflexivity.
    + rewrite map_app, H4, I7. reflexivity.
Qed.

(** The tasks after the pull-request pass: those referenced are in
    CODE_REVIEW, the others are as they were. *)
Lemma link_pr_tasks (pr_url repo : option string) (refs : list Z) (db : DB)
    (acc : list Z) :
  tasks (fst (link_refs
                (fun db task => link_pr_to_task db task pr_url repo)
                refs (db, acc)))
  = map (to_review refs) (tasks db).
Proof.
  revert db acc. induction refs as [|r refs IH]; intros db acc.
  - simpl. symmetry. apply map_id.
  - rewrite link_refs_cons. destruct (get_task db r) as [k|] eqn:G.
    + rewrite IH. destruct (get_task_some _ _ _ G) as (Hid & _ & _).
      simpl tasks. rewrite map_map. apply map_ext. intros x.
      unfold to_review. simpl existsb. rewrite Hid.
      destruct (TaskModel.id x =? r) eqn:E; simpl; [|reflexivity].
      destruct (existsb _ refs); reflexivity.
    + apply get_task_none in G. rewrite IH. apply map_ext_in. intros x Hx.
      unfold to_review. simpl existsb.
      destruct (TaskModel.id x =? r) eqn:E; [|reflexivity].
      exfalso. unfold task_exists in G.
      assert (X : existsb (fun k => TaskModel.id k =? r) (tasks db) = true)
        by (apply existsb_exists; exists x; auto).
      congruence.
Qed.

Lemma DB_eq (a b : DB) :
  sprints a = sprints b -> user_stories a = user_stories b ->
  tasks a = tasks b -> github_links a = github_links b ->
  burndown_snapshots a = burndown_snapshots b -> a = b.
Proof. destruct a, b. simpl. intros; subst; reflexivity. Qed.

(** A delivery that goes through: the numbers returned are those
    references, in the order met and once per reference, that identify a
    task of the store; one link is added for each of them and none for the
    others; only tasks named in the pull-request text change, to
    CODE_REVIEW; a payload whose references all miss leaves the store as it
    was and returns the empty list. *)
Lemma github_webhook_outcome (payload : Payload) (db : DB) :
  let out := github_webhook payload db in
  let refs := commit_refs payload ++ pull_request_refs payload in
  snd out = filter (task_exists db) refs
  /\ (exists new,
        github_links (fst out) = github_links db ++ new
        /\ map GitHubLinkModel.task_id new = snd out)
  /\ tasks (fst out) = map (to_review (pull_request_refs payload)) (tasks db)
  /\ user_stories (fst out) = user_stories db
  /\ (forall n, task_exists db n = false ->
        ~ In n (snd out)
        /\ forall l, In l (github_links (fst out)) ->
             GitHubLinkModel.task_id l = n -> In l (github_links db))
  /\ ((forall n, In n refs -> task_exists db n = false) ->
      out = (db, [])).
Proof.
  cbv zeta.
  assert (Core :
    snd (github_webhook payload db)
    = filter (task_exists db) (commit_refs payload ++ pull_request_refs payload)
    /\ (exists new,
          github_links (fst (github_webhook payload db))
          = github_links db ++ new
          /\ map GitHubLinkModel.task_id new
             = snd (github_webhook payload db))
    /\ tasks (fst (github_webhook payload db))
       = map (to_review (pull_request_refs payload)) (tasks db)
    /\ user_stories (fst (github_webhook payload db)) = user_stories db
    /\ sprints (fst (github_webhook payload db)) = sprints db
    /\ burndown_snapshots (fst (github_webhook payload db))
       = burndown_snapshots db).
  { unfold github_webhook, commit_refs, pull_request_refs.
    pose proof (link_commits_fold (full_name payload) (commits payload) db [])
      as H. cbv zeta in H. simpl app in H.
    destruct H as (H1 & H2 & H3 & H4 & H5 & new1 & H6 & H7).
    destruct (fold_left (link_commit (full_name payload)) (commits payload)
                (db, [])) as [db1 acc1]. simpl in H1, H2, H3, H4, H5, H6.
    rewrite filter_app.
    destruct (pull_request payload) as [pr|].
    - set (link := fun db task =>
                     link_pr_to_task db task (html_url pr)
                                     (full_name payload)).
      set (prs := extractTaskIds (pull_request_text pr)).
      destruct (link_refs_known link) with (refs := prs) (db := db1)
                                           (acc := acc1)
        as (P1 & P2 & new2 & P3 & P4).
      { intros db0 k. eexists. split; reflexivity. }
      { intros db0 k. unfold link, link_pr_to_task, add_link. simpl.
        rewrite map_map. apply map_ext. intros x.
        destruct (TaskModel.id x =? TaskModel.id k); reflexivity. }
      assert (Hsame : filter (task_exists db1) prs
                      = filter (task_exists db) prs).
      { apply filter_ext. intros n. apply task_exists_ids. rewrite H2.
        reflexivity. }
      rewrite Hsame in P1, P4.
      split; [rewrite P1, H1; reflexivity|]. split.
      { exists (new1 ++ new2). split.
        - rewrite P3, H6, <- app_assoc. reflexivity.
        - rewrite map_app, H7, P4, P1, H1. reflexivity. }
      split; [unfold link; rewrite link_pr_tasks, H2; reflexivity|].
      split; [rewrite (link_refs_keeps user_stories); auto|].
      split; [rewrite (link_refs_keeps sprints); auto|].
      rewrite (link_refs_keeps burndown_snapshots); auto.
    - simpl. rewrite app_nil_r.
      split; [exact H1|]. split.
      { exists new1. split; [exact H6|]. rewrite H7, H1. reflexivity. }
      split; [rewrite H2; symmetry; apply map_id|].
      repeat split; assumption. }
  destruct Core as (C1 & (new & C2 & C3) & C4 & C5 & C6 & C7).
  split; [exact C1|]. split; [exists new; auto|].
  split; [exact C4|]. split; [exact C5|]. split.
  - intros n Hn. split.
    + rewrite C1. intros X. apply filter_In in X. destruct X as [_ X].
      congruence.
    + intros l Hl El. rewrite C2 in Hl. apply in_app_or in Hl.
      destruct Hl as [Hl|Hl]; [exact Hl|]. exfalso.
      assert (X : In n (snd (github_webhook payload db))).
      { rewrite <- C3, <- El. apply in_map, Hl. }
      rewrite C1 in X. apply filter_In in X. destruct X as [_ X]. congruence.
  - intros Hmiss.
    assert (E : filter (task_exists db)
                  (commit_refs payload ++ pull_request_refs payload) = []).
    { destruct (filter _ _) as [|n t] eqn:F; [reflexivity|].
      assert (X : In n (n :: t)) by (left; reflexivity).
      rewrite <- F in X. apply filter_In in X. destruct X as [X1 X2].
      rewrite (Hmiss n X1) in X2. discriminate. }
    rewrite E in C1. rewrite C1 in C3.
    destruct new; [|discriminate]. rewrite app_nil_r in C2.
    destruct (github_webhook payload db) as [db' l]. simpl in *.
    subst l. f_equal. apply DB_eq; auto.
    rewrite C4. rewrite <- (map_id (tasks db)) at 2. apply map_ext_in.
    intros x Hx. unfold to_review.
    destruct (existsb (fun r => TaskModel.id x =? r)
                (pull_request_refs payload)) eqn:X; [|reflexivity].
    exfalso. apply existsb_exists in X. destruct X as [r [Hr Er]].
    apply Z.eqb_eq in Er.
    assert (Y : task_exists db r = false)
      by (apply Hmiss, in_or_app; right; exact Hr).
    unfold task_exists in Y.
    assert (Z0 : existsb (fun k => TaskModel.id k =? r) (tasks db) = true).
    { apply existsb_exists. exists x. split; [exact Hx|].
      apply Z.eqb_eq, Er. }
    congruence.
Qed.

Lemma link_matches_none (link : DB -> TaskModel.t -> DB)
    (matches : list text) :
  link_matches link matches None = None.
Proof.
  unfold link_matches. induction matches as [|m l IH]; [reflexivity|].
  exact IH.
Qed.

(** The loop over the matches of one text: it raises when a match is
    beyond the limit of [int], and otherwise does what the loop over their
    numbers does. *)
Lemma link_matches_some (link : DB -> TaskModel.t -> DB)
    (matches : list text) (st : DB * list Z) :
  link_matches link matches (Some st)
  = if forallb within_limit matches
    then Some (link_refs link (map int_of_digits matches) st)
    else None.
Proof.
  revert st. induction matches as [|m l IH]; intros [db acc]; [reflexivity|].
  cbn [forallb map]. rewrite link_refs_cons.
  change (link_matches link (m :: l) (Some (db, acc)))
    with (link_matches link l
            match int m with
            | None => None
            | Some ref =>
                match get_task db ref with
                | Some task => Some (link db task, acc ++ [TaskModel.id task])
                | None => Some (db, acc)
                end
            end).
  unfold int. destruct (within_limit m); cbn [andb].
  - destruct (get_task db (int_of_digits m)); apply IH.
  - apply link_matches_none.
Qed.

Lemma forallb_false {A : Type} (p : A -> bool) (l : list A) :
  forallb p l = false <-> exists x, In x l /\ p x = false.
Proof.
  induction l as [|y l IH]; simpl.
  - split; [discriminate|intros [x [[] _]]].
  - rewrite andb_false_iff, IH. split.
    + intros [H|[x [H1 H2]]]; [exists y; auto|exists x; auto].
    + intros [x [[->|H1] H2]]; [left; exact H2|right; exists x; auto].
Qed.

Lemma forallb_map {A B : Type} (p : B -> bool) (f : A -> B) (l : list A) :
  forallb p (map f l) = forallb (fun x => p (f x)) l.
Proof.
  induction l as [|x l IH]; simpl; [reflexivity|]. rewrite IH. reflexivity.
Qed.

(** The handler with its conversions: it raises [ValueError], the store
    left as it was, when some reference of the payload is beyond the limit
    of [int], and is [github_webhook] otherwise. *)
Lemma github_webhook_request_cases (payload : Payload) (db : DB) :
  github_webhook_request payload db
  = if payload_converts payload
    then Ok (github_webhook payload db)
    else Unhandled "ValueError" db.
Proof.
  unfold github_webhook_request, github_webhook, payload_converts,
    payload_texts.
  rewrite forallb_app, forallb_map.
  set (step := fun (st : option (DB * list Z)) (commit : Commit) =>
                 link_matches
                   (fun db task =>
                      link_commit_to_task db task (commit_id commit)
                                          (full_name payload))
                   (findall
                      (code_points (or_else (message commit) EmptyString)))
                   st).
  assert (N : forall cs, fold_left step cs None = None).
  { induction cs as [|c cs IH]; [reflexivity|]. cbn [fold_left].
    unfold step at 2. rewrite link_matches_none. exact IH. }
  assert (C : forall cs st,
            fold_left step cs (Some st)
            = if forallb
                   (fun c => converts (or_else (message c) EmptyString)) cs
              then Some (fold_left (link_commit (full_name payload)) cs st)
              else None).
  { induction cs as [|c cs IH]; intros st; [reflexivity|].
    cbn [fold_left forallb]. unfold step at 2.
    rewrite link_matches_some. unfold converts at 1.
    destruct (forallb within_limit
                (findall
                   (code_points (or_else (message c) EmptyString))));
      cbn [andb]; [apply IH|apply N]. }
  rewrite C.
  destruct (forallb (fun c => converts (or_else (message c) EmptyString))
              (commits payload)); cbn [andb].
  - destruct (pull_request payload) as [pr|]; [|reflexivity].
    rewrite link_matches_some. cbn [forallb]. unfold converts.
    destruct (forallb within_limit
                (findall (code_points (pull_request_text pr))));
      reflexivity.
  - destruct (pull_request payload) as [pr|]; [|reflexivity].
    rewrite link_matches_none. reflexivity.
Qed.

(** C10, as the code has it.  A payload with a reference of more than 4300
    digits makes the handler raise [ValueError], and nothing is written.
    On every other payload the handler answers, and a reference that
    identifies no task is skipped: the numbers returned are those
    references, in the order met and once per reference, that identify a
    task of the store; one link is added for each of them and none for the
    others; only tasks named in the pull-request text change, to
    CODE_REVIEW; no story changes; a payload whose references all miss
    leaves the store as it was and returns the empty list. *)
Theorem github_webhook_skips_unknown (payload : Payload) (db : DB) :
  let refs := commit_refs payload ++ pull_request_refs payload in
  (payload_converts payload = false ->
   github_webhook_request payload db = Unhandled "ValueError" db)
  /\ (payload_converts payload = true ->
      exists db' linked_tasks,
        github_webhook_request payload db = Ok (db', linked_tasks)
        /\ linked_tasks = filter (task_exists db) refs
        /\ (exists new,
              github_links db' = github_links db ++ new
              /\ map GitHubLinkModel.task_id new = linked_tasks)
        /\ tasks db'
           = map (to_review (pull_request_refs payload)) (tasks db)
        /\ user_stories db' = user_stories db
        /\ (forall n, task_exists db n = false ->
              ~ In n linked_tasks
              /\ forall l, In l (github_links db') ->
                   GitHubLinkModel.task_id l = n -> In l (github_links db))
        /\ ((forall n, In n refs -> task_exists db n = false) ->
            db' = db /\ linked_tasks = []))
  /\ (payload_converts payload = false <->
      exists s m, In s (payload_texts payload)
                  /\ In m (findall (code_points s))
                  /\ int_max_str_digits < Z.of_nat (List.length m)).
Proof.
  cbv zeta. rewrite github_webhook_request_cases. split; [|split].
  - intros ->. reflexivity.
  - intros ->.
    destruct (github_webhook_outcome payload db)
      as (H1 & H2 & H3 & H4 & H5 & H6).
    destruct (github_webhook payload db) as [db' linked_tasks].
    cbn [fst snd] in *.
    exists db', linked_tasks. split; [reflexivity|].
    split; [exact H1|]. split; [exact H2|]. split; [exact H3|].
    split; [exact H4|]. split; [exact H5|].
    intros Hmiss. specialize (H6 Hmiss). injection H6 as -> ->. auto.
  - unfold payload_converts. split.
    + intros H. apply forallb_false in H. destruct H as [s [Hs Hc]].
      unfold converts in Hc. apply forallb_false in Hc.
      destruct Hc as [m [Hm Hw]].
      exists s, m. split; [exact Hs|]. split; [exact Hm|].
      unfold within_limit in Hw. apply Z.leb_gt in Hw. exact Hw.
    + intros (s & m & Hs & Hm & Hlong).
      destruct (forallb converts (payload_texts payload)) eqn:X;
        [|reflexivity].
      rewrite forallb_forall in X. specialize (X s Hs).
      unfold converts in X. rewrite forallb_forall in X.
      specialize (X m Hm). apply within_limit_spec in X. lia.
Qed.

(** ** Simulation control *)

Lemma date_in_range_spec (d : Z) :
  date_in_range d = true <-> 1 <= d <= date_max.
Proof.
  unfold date_in_range. rewrite andb_true_iff, !Z.leb_le. tauto.
Qed.

(** C7, as the code has it: with a non-negative target the handler fails
    with 404 only when no sprint is ACTIVE; otherwise it takes an ACTIVE
    sprint of earliest start date and assigns the offset
    [(end_date - real_today).days - target].  The day that offset stands
    for is [end_date - target].  If that is a date, the request succeeds:
    [(end_date - today).days] is the target, one capture is run for the new
    current day, no sprint, story, task or link is written, and on a store
    with unique keys and at most one snapshot per sprint and day every
    ACTIVE sprint has exactly one snapshot for that day.  If it is not, the
    clock read raises [OverflowError]: the request fails, the offset stays
    assigned and nothing is captured. *)
Theorem simulate_set_remaining_days_jump (real_today target : Z) (w : World) :
  0 <= target ->
  ((forall s, In s (sprints (store w)) ->
              SprintModel.status s <> SprintStatus.ACTIVE) ->
   simulate_set_remaining_days real_today target w
   = HTTPException 404 "No active sprint found")
  /\ ((exists s, In s (sprints (store w))
                 /\ SprintModel.status s = SprintStatus.ACTIVE) ->
      exists sprint,
        earliest_active (store w) sprint
        /\ (date_in_range (SprintModel.end_date sprint - target) = false ->
            simulate_set_remaining_days real_today target w
            = Unhandled "OverflowError"
                (mkWorld (store w)
                   (SprintModel.end_date sprint - real_today - target)))
        /\ (date_in_range (SprintModel.end_date sprint - target) = true ->
            exists w' resp,
              simulate_set_remaining_days real_today target w = Ok (w', resp)
              /\ SIMULATION_OFFSET_DAYS w'
                 = SprintModel.end_date sprint - real_today - target
              /\ SprintModel.end_date sprint - get_today real_today w'
                 = target
              /\ current_day resp = get_today real_today w'
              /\ offset_days resp = SIMULATION_OFFSET_DAYS w'
              /\ remaining_days resp = target
              /\ store w'
                 = fst (capture_burndown_snapshots (get_today real_today w')
                          (Some (get_today real_today w')) (store w))
              /\ sprints (store w') = sprints (store w)
              /\ user_stories (store w') = user_stories (store w)
              /\ tasks (store w') = tasks (store w)
              /\ github_links (store w') = github_links (store w)
              /\ (primary_keys (store w) ->
                  forall s, In s (sprints (store w)) ->
                    SprintModel.status s = SprintStatus.ACTIVE ->
                    exists r,
                      In r (burndown_snapshots (store w'))
                      /\ BurndownSnapshotModel.sprint_id r = SprintModel.id s
                      /\ BurndownSnapshotModel.snapshot_date r
                         = get_today real_today w')
              /\ (primary_keys (store w) -> one_snapshot_per_day (store w) ->
                  one_snapshot_per_day (store w')
                  /\ forall s, In s (sprints (store w)) ->
                       SprintModel.status s = SprintStatus.ACTIVE ->
                       snapshot_count (store w') (SprintModel.id s)
                         (get_today real_today w') = 1%nat))).
Proof.
  intros Ht. unfold simulate_set_remaining_days.
  destruct (Z.ltb_spec target 0) as [|_]; [lia|]. split.
  - intros H. apply current_sprint_none in H. rewrite H. reflexivity.
  - intros [s [Hs Ha]].
    destruct (current_sprint (store w)) as [sprint|] eqn:E.
    2:{ exfalso. exact (proj1 (current_sprint_none _) E s Hs Ha). }
    exists sprint. split; [apply current_sprint_some, E|].
    unfold get_today. cbn [SIMULATION_OFFSET_DAYS store].
    set (off := SprintModel.end_date sprint - real_today - target).
    assert (Ed : real_today + off = SprintModel.end_date sprint - target)
      by (unfold off; lia).
    rewrite Ed. split; [intros ->; reflexivity|]. intros ->.
    eexists. eexists. split; [reflexivity|].
    cbn [SIMULATION_OFFSET_DAYS store current_day offset_days remaining_days].
    split; [reflexivity|]. split; [lia|].
    split; [symmetry; exact Ed|]. split; [reflexivity|]. split; [reflexivity|].
    split; [rewrite Ed; reflexivity|].
    repeat (split; [reflexivity|]).
    rewrite Ed. split.
    + intros HK s' Hs' Ha'.
      destruct (capture_covers
                  (SprintModel.end_date sprint - target)
                  (Some (SprintModel.end_date sprint - target))
                  (store w) s' HK Hs' Ha') as (r & R1 & R2 & R3 & _).
      exists r. auto.
    + intros HK Hone.
      destruct (capture_once (store w)
                  (SprintModel.end_date sprint - target) HK Hone)
        as (_ & Hle & Hact).
      split.
      * intros sid d'. unfold snapshot_count. rewrite capture_target.
        apply Hle.
      * intros s' Hs' Ha'. unfold snapshot_count. rewrite capture_target.
        apply Hact. apply In_active_sprints. auto.
Qed.

(** ** Task requests *)

Lemma set_story_status_twice (key : Z) (v : UserStoryStatus.t) (db : DB) :
  set_story_status key v (set_story_status key v db)
  = set_story_status key v db.
Proof.
  unfold set_story_status, with_user_stories. simpl. f_equal.
  rewrite map_map. apply map_ext. intros s.
  destruct (UserStoryModel.id s =? key) eqn:E; simpl; rewrite E; reflexivity.
Qed.

(** Rolling up twice is rolling up once. *)
Lemma sync_story_status_rolled_up (db : DB) (story : UserStoryModel.t) :
  rolled_up (sync_story_status db story) story.
Proof.
  unfold rolled_up.
  rewrite (sync_story_status_cases (sync_story_status db story)).
  assert (E : story_tasks (sync_story_status db story) story
              = story_tasks db story).
  { unfold story_tasks.
    destruct (sync_story_status_tables db story) as [-> _]. reflexivity. }
  rewrite E, sync_story_status_cases.
  destruct (story_tasks db story) as [|k ts]; [reflexivity|].
  apply set_story_status_twice.
Qed.

(** The three task requests end with the story rolled up. *)
Lemma create_task_rolled_up (payload : TaskCreate) (db db' : DB)
    (task : TaskModel.t) :
  create_task payload db = Ok (db', task) ->
  exists story, get_story db (TaskModel.story_id task) = Some story
                /\ rolled_up db' story.
Proof.
  unfold create_task.
  destruct (get_story db (tc_story_id payload)) as [story|] eqn:E;
    [|discriminate].
  intros H. injection H as <- <-. exists story. split; [exact E|].
  apply sync_story_status_rolled_up.
Qed.

Lemma update_task_rolled_up (task_id : Z) (payload : TaskUpdate)
    (db db' : DB) (task : TaskModel.t) :
  update_task task_id payload db = Ok (db', task) ->
  forall story, get_story db (TaskModel.story_id task) = Some story ->
                rolled_up db' story.
Proof.
  unfold update_task.
  destruct (get_task db task_id) as [k|]; [|discriminate].
  destruct (apply_update payload k) as [k'|]; [|discriminate].
  unfold task_story, get_story. simpl.
  destruct (find _ (user_stories db)) as [story|] eqn:E.
  - intros H. injection H as <- <-. simpl. intros story' E'.
    rewrite E in E'. injection E' as <-. apply sync_story_status_rolled_up.
  - intros H. injection H as <- <-. simpl. intros story' E'.
    rewrite E in E'. discriminate.
Qed.

Lemma delete_task_rolled_up (task_id : Z) (db db' : DB)
    (task : TaskModel.t) :
  get_task db task_id = Some task ->
  delete_task task_id db = Ok db' ->
  forall story, get_story db (TaskModel.story_id task) = Some story ->
                rolled_up db' story.
Proof.
  unfold delete_task. intros ->. unfold task_story.
  intros H story E. rewrite E in H. injection H as <-.
  apply sync_story_status_rolled_up.
Qed.

(** C5 at a pull request: task 1 is moved to CODE_REVIEW and its story is
    left PLANNED, where the rollup, and [update_task] with the same status,
    give ACTIVE. *)
Theorem github_webhook_pull_request_no_rollup :
  let db' := fst (github_webhook payload_pr db_one) in
  snd (github_webhook payload_pr db_one) = [1]
  /\ option_map TaskModel.status (get_task db' 1)
     = Some TaskStatus.CODE_REVIEW
  /\ story_status_of db' 1 = Some UserStoryStatus.PLANNED
  /\ story_status_of (sync_story_status db' story_one) 1
     = Some UserStoryStatus.ACTIVE
  /\ ~ rolled_up db' story_one
  /\ exists db'' task,
       update_task 1
         (mkTaskUpdate None (Some TaskStatus.CODE_REVIEW) None None None)
         db_one
       = Ok (db'', task)
       /\ story_status_of db'' 1 = Some UserStoryStatus.ACTIVE.
Proof.
  cbv zeta. repeat split; try reflexivity.
  - unfold rolled_up. intros H.
    apply (f_equal (fun db => story_status_of db 1)) in H.
    vm_compute in H. discriminate.
  - eexists. eexists. split; reflexivity.
Qed.

(** The fourth simulation rule has the same gap: the task added to a
    finished story is TODO and the story stays DONE. *)
Lemma simulate_progress_tech_debt_no_rollup :
  let db' := simulate_progress db_done in
  map TaskModel.status (tasks db') = [TaskStatus.DONE; TaskStatus.TODO]
  /\ story_status_of db' 1 = Some UserStoryStatus.DONE
  /\ story_status_of (sync_story_status db' story_one) 1
     = Some UserStoryStatus.PLANNED.
Proof. cbv zeta. repeat split; reflexivity. Qed.

(** ** The operations on the sample stores *)

Lemma primary_keys_db_one : primary_keys db_one.
Proof.
  unfold primary_keys, db_one. simpl.
  repeat split; repeat constructor; simpl; tauto.
Qed.

Lemma primary_keys_db_two : primary_keys db_two.
Proof.
  unfold primary_keys, db_two. simpl.
  repeat split; repeat constructor; simpl; intuition discriminate.
Qed.


Lemma one_snapshot_per_day_empty (db : DB) :
  burndown_snapshots db = [] -> one_snapshot_per_day db.
Proof. intros E sid d. unfold snapshot_count. rewrite E. simpl. lia. Qed.


(** C7 as stated fails on [db_two]: with two ACTIVE sprints the handler
    does not answer 404; it succeeds and the capture writes two
    snapshots. *)
Lemma set_remaining_days_with_two_active_sprints :
  List.length (active_sprints db_two) = 2%nat
  /\ (forall detail,
        simulate_set_remaining_days 9 2 (mkWorld db_two 0)
        <> HTTPException 404 detail)
  /\ exists w' resp,
       simulate_set_remaining_days 9 2 (mkWorld db_two 0) = Ok (w', resp)
       /\ List.length (burndown_snapshots (store w')) = 2%nat.
Proof.
  split; [reflexivity|]. split.
  - intros detail H. vm_compute in H. discriminate.
  - eexists. eexists. split; reflexivity.
Qed.



(** C8 as stated fails on a text whose reference has 4301 digits: the
    pattern matches once, and the conversion of the match raises. *)
Lemma extract_raises_on_long_reference :
  (exists m, findall (code_points long_reference) = [m]
             /\ List.length m = 4301%nat)
  /\ extract long_reference = None.
Proof.
  split; [eexists; split; vm_compute; reflexivity|].
  vm_compute. reflexivity.
Qed.

(** C10 as stated fails on [payload_long]: its one reference identifies no
    task of [db_one], and the handler raises instead of skipping it. *)
Lemma github_webhook_raises_on_long_reference :
  (exists n, commit_refs payload_long ++ pull_request_refs payload_long = [n]
             /\ task_exists db_one n = false)
  /\ github_webhook_request payload_long db_one
     = Unhandled "ValueError" db_one
  /\ forall out, github_webhook_request payload_long db_one <> Ok out.
Proof.
  assert (E : github_webhook_request payload_long db_one
              = Unhandled "ValueError" db_one)
    by (vm_compute; reflexivity).
  split; [eexists; split; vm_compute; reflexivity|].
  split; [exact E|]. intros out H. rewrite E in H. discriminate.
Qed.

(** C9 as stated fails on [db_two]: two sprints receive a snapshot and the
    call returns no number. *)
Lemma capture_returns_no_count :
  List.length (active_sprints db_two) = 2%nat
  /\ List.length
       (burndown_snapshots (fst (capture_burndown_snapshots 10 None db_two)))
     = 2%nat
  /\ forall n : Z, snd (capture_burndown_snapshots 10 None db_two) <> Some n.
Proof.
  split; [reflexivity|]. split; [reflexivity|].
  intros n H. vm_compute in H. discriminate.
Qed.

(** C1 on [db_one] with its task under review: the story becomes ACTIVE. *)
Lemma sync_story_status_rollup_witness :
  get_story (set_task_status 1 TaskStatus.CODE_REVIEW db_one) 1
  = Some story_one
  /\ story_status_of
       (sync_story_status (set_task_status 1 TaskStatus.CODE_REVIEW db_one)
                          story_one) 1
     = Some UserStoryStatus.ACTIVE.
Proof.
  split; [reflexivity|].
  destruct (sync_story_status_rollup
              (set_task_status 1 TaskStatus.CODE_REVIEW db_one)
              story_one story_one eq_refl) as [_ H].
  destruct H as (_ & H & _); [discriminate|].
  apply H. split.
  - intros X. inversion X; subst. discriminate.
  - constructor. right. reflexivity.
Defined.



(** C4 on [db_one]: the sprint is found and a rule applies. *)
Lemma simulate_progress_first_rule_witness :
  (exists s, In s (sprints db_one)
             /\ SprintModel.status s = SprintStatus.ACTIVE)
  /\ exists sprint,
       earliest_active db_one sprint
       /\ step_rule db_one sprint (simulate_progress db_one).
Proof.
  assert (H : exists s, In s (sprints db_one)
                        /\ SprintModel.status s = SprintStatus.ACTIVE)
    by (exists sprint_one; split; [left; reflexivity|reflexivity]).
  split; [exact H|].
  exact (proj2 (simulate_progress_first_rule db_one) H).
Defined.

(** C6 on [db_one]: two captures for day 10 leave one snapshot holding the
    five remaining points. *)
Lemma capture_burndown_snapshots_idempotent_witness :
  primary_keys db_one
  /\ one_snapshot_per_day db_one
  /\ fst (capture_burndown_snapshots 10 None
            (fst (capture_burndown_snapshots 10 None db_one)))
     = fst (capture_burndown_snapshots 10 None db_one)
  /\ snapshot_count
       (fst (capture_burndown_snapshots 10 None
               (fst (capture_burndown_snapshots 10 None db_one)))) 1 10
     = 1%nat.
Proof.
  assert (K : primary_keys db_one) by exact primary_keys_db_one.
  assert (U : one_snapshot_per_day db_one)
    by (apply one_snapshot_per_day_empty; reflexivity).
  split; [exact K|]. split; [exact U|].
  destruct (capture_burndown_snapshots_idempotent 10 None db_one K U)
    as (H1 & _ & H3).
  split; [exact H1|].
  exact (proj1 (H3 sprint_one (or_introl eq_refl) eq_refl)).
Defined.

(** C7 on [db_one], three real days before the end of the sprint: asking
    for one remaining day sets the offset to 2 and leaves one snapshot for
    day 11. *)
Lemma simulate_set_remaining_days_jump_witness :
  0 <= 1
  /\ exists w' resp,
       simulate_set_remaining_days 9 1 (mkWorld db_one 0) = Ok (w', resp)
       /\ SIMULATION_OFFSET_DAYS w' = 2
       /\ get_today 9 w' = 11
       /\ snapshot_count (store w') 1 11 = 1%nat.
Proof.
  assert (T : 0 <= 1) by lia.
  split; [exact T|].
  destruct (proj2 (simulate_set_remaining_days_jump 9 1 (mkWorld db_one 0) T))
    as (sprint & H1 & _ & H3).
  - exists sprint_one. split; [left; reflexivity|reflexivity].
  - destruct H1 as [[<-|[]] _].
    destruct (H3 eq_refl)
      as (w' & resp & E & O & D & _ & _ & _ & _ & _ & _ & _ & _ & _ & C).
    exists w', resp. split; [exact E|]. split; [exact O|].
    assert (G : get_today 9 w' = 11) by (change (SprintModel.end_date sprint_one) with 12 in D; lia).
    split; [exact G|]. rewrite <- G.
    apply (proj2 (C primary_keys_db_one
                    (one_snapshot_per_day_empty db_one eq_refl))
             sprint_one).
    + left. reflexivity.
    + reflexivity.
Defined.

(** C9 on [db_two]: nothing is returned and both sprints are covered. *)
Lemma capture_burndown_snapshots_returns_none_witness :
  primary_keys db_two
  /\ snd (capture_burndown_snapshots 10 None db_two) = None.
Proof.
  split; [exact primary_keys_db_two|].
  exact (proj1 (capture_burndown_snapshots_returns_none 10 None db_two
                  primary_keys_db_two)).
Defined.

(** C10 on [db_one] with a push that names task 9: nothing changes. *)
Lemma github_webhook_skips_unknown_witness :
  payload_converts payload_unknown = true
  /\ (forall n, In n (commit_refs payload_unknown
                      ++ pull_request_refs payload_unknown) ->
                task_exists db_one n = false)
  /\ github_webhook_request payload_unknown db_one = Ok (db_one, []).
Proof.
  assert (H : forall n, In n (commit_refs payload_unknown
                              ++ pull_request_refs payload_unknown) ->
                        task_exists db_one n = false).
  { intros n [<-|[]]. reflexivity. }
  split; [reflexivity|]. split; [exact H|].
  destruct (proj1 (proj2 (github_webhook_skips_unknown payload_unknown
                            db_one)) eq_refl)
    as (db' & linked & E & _ & _ & _ & _ & _ & H6).
  destruct (H6 H) as [-> ->]. exact E.
Defined.

(** * Further properties *)

(** ** Sprint requests *)

Lemma find_id_app_fresh {Row : Type} (key : Row -> Z) (rows : list Row)
    (x : Row) (k : Z) :
  (forall r, In r rows -> key r < key x) ->
  find (fun r => key r =? k) (rows ++ [x])
  = if key x =? k then Some x else find (fun r => key r =? k) rows.
Proof.
  intros Hlt. induction rows as [|r rows IH]; simpl.
  - destruct (key x =? k); reflexivity.
  - destruct (Z.eqb_spec (key r) k) as [E|E].
    + destruct (Z.eqb_spec (key x) k) as [E'|]; [|reflexivity].
      assert (key r < key x) by (apply Hlt; left; reflexivity). lia.
    + apply IH. intros r' Hr'. apply Hlt. right. exact Hr'.
Qed.

Lemma NoDup_app_fresh (ids : list Z) : NoDup ids -> NoDup (ids ++ [next_id ids]).
Proof.
  intros H. apply NoDup_app; auto.
  - constructor; [intros []|constructor].
  - intros x Hx [<-|[]]. apply next_id_fresh in Hx. lia.
Qed.

(** X1.  A sprint that ends before it starts is refused with status 400;
    any other sprint is stored under a key no sprint had, can be read back
    under that key, hides no other sprint, and keeps both the ordering of
    dates and the primary keys of the store. *)
Theorem create_sprint_checked (payload : SprintCreate) (db : DB) :
  (sc_end_date payload < sc_start_date payload ->
   create_sprint payload db
   = HTTPException 400 "End date must be after start date")
  /\ (sc_start_date payload <= sc_end_date payload ->
      exists db' sprint,
        create_sprint payload db = Ok (db', sprint)
        /\ SprintModel.start_date sprint = sc_start_date payload
        /\ SprintModel.end_date sprint = sc_end_date payload
        /\ SprintModel.status sprint = sc_status payload
        /\ get_sprint db (SprintModel.id sprint) = None
        /\ get_sprint db' (SprintModel.id sprint) = Some sprint
        /\ (forall key, key <> SprintModel.id sprint ->
                        get_sprint db' key = get_sprint db key)
        /\ (dates_ordered db -> dates_ordered db')
        /\ (primary_keys db -> primary_keys db')).
Proof.
  unfold create_sprint. simpl. split.
  - intros H. destruct (Z.ltb_spec (sc_end_date payload)
                          (sc_start_date payload)); [reflexivity|lia].
  - intros H. destruct (Z.ltb_spec (sc_end_date payload)
                          (sc_start_date payload)); [lia|].
    eexists. eexists. split; [reflexivity|]. simpl.
    repeat (split; [reflexivity|]).
    assert (Hfresh : forall r, In r (sprints db) ->
              SprintModel.id r < next_id (map SprintModel.id (sprints db)))
      by (intros r Hr; apply next_id_fresh, in_map, Hr).
    split.
    { unfold get_sprint.
      destruct (find _ (sprints db)) as [r|] eqn:F; [|reflexivity].
      apply find_some in F. destruct F as [F1 F2]. apply Z.eqb_eq in F2.
      specialize (Hfresh r F1). lia. }
    split.
    { unfold get_sprint. simpl. rewrite find_id_app_fresh by exact Hfresh.
      simpl. rewrite Z.eqb_refl. reflexivity. }
    split.
    { intros key Hk. unfold get_sprint. simpl.
      rewrite find_id_app_fresh by exact Hfresh. simpl.
      destruct (Z.eqb_spec (next_id (map SprintModel.id (sprints db))) key);
        [congruence|reflexivity]. }
    split.
    { intros Hd s Hs. simpl in Hs. apply in_app_or in Hs.
      destruct Hs as [Hs|[<-|[]]]; [apply Hd, Hs|simpl; lia]. }
    intros (K1 & K2 & K3 & K4 & K5). unfold primary_keys. simpl.
    repeat split; auto. rewrite map_app. simpl. apply NoDup_app_fresh, K1.
Qed.

Lemma find_id_map_replace {Row : Type} (key : Row -> Z) (rows : list Row)
    (x : Row) (k k' : Z) :
  key x = k ->
  find (fun r => key r =? k')
       (map (fun r => if key r =? k then x else r) rows)
  = if k' =? k
    then option_map (fun _ => x) (find (fun r => key r =? k) rows)
    else find (fun r => key r =? k') rows.
Proof.
  intros Hx. induction rows as [|r rows IH]; simpl.
  - destruct (k' =? k); reflexivity.
  - destruct (Z.eqb_spec (key r) k) as [E|E].
    + rewrite Hx. destruct (Z.eqb_spec k k') as [E'|E'].
      * subst k'. rewrite Z.eqb_refl. reflexivity.
      * destruct (Z.eqb_spec k' k); [congruence|].
        destruct (Z.eqb_spec (key r) k'); [congruence|]. exact IH.
    + destruct (Z.eqb_spec (key r) k') as [E'|E'].
      * destruct (Z.eqb_spec k' k); [congruence|reflexivity].
      * exact IH.
Qed.

(** X2.  An update of an unknown sprint is refused with 404.  For a known
    sprint the dates compared are, each, the one sent or else the stored
    one.  If either was sent as [null] the comparison raises [TypeError];
    if the end date is before the start date the update is refused with
    400; if the dates are in order and the name was sent as [null] the
    commit raises [IntegrityError]; in all three cases the store is as it
    was.  Otherwise the update is accepted: the row has the dates compared,
    every other field sent, a goal sent as [null] being cleared, and the
    stored value of every field not sent; it can be read back, no other
    sprint and no key is changed, and the store keeps the ordering of
    dates. *)
Theorem update_sprint_checked (sprint_id : Z) (payload : SprintUpdate)
    (db : DB) :
  (get_sprint db sprint_id = None ->
   update_sprint sprint_id payload db = HTTPException 404 "Sprint not found")
  /\ (forall sprint, get_sprint db sprint_id = Some sprint ->
      ((su_start_date payload = Some None
        \/ su_end_date payload = Some None) ->
       update_sprint sprint_id payload db = Unhandled "TypeError" db)
      /\ forall start_date end_date,
           set_field (su_start_date payload) (SprintModel.start_date sprint)
           = Some start_date ->
           set_field (su_end_date payload) (SprintModel.end_date sprint)
           = Some end_date ->
           (end_date < start_date ->
            update_sprint sprint_id payload db
            = HTTPException 400 "End date must be after start date")
           /\ (start_date <= end_date -> su_name payload = Some None ->
               update_sprint sprint_id payload db
               = Unhandled "IntegrityError" db)
           /\ (start_date <= end_date -> su_name payload <> Some None ->
               exists db' sprint',
                 update_sprint sprint_id payload db = Ok (db', sprint')
                 /\ SprintModel.id sprint' = sprint_id
                 /\ SprintModel.start_date sprint' = start_date
                 /\ SprintModel.end_date sprint' = end_date
                 /\ Some (SprintModel.name sprint')
                    = set_field (su_name payload) (SprintModel.name sprint)
                 /\ SprintModel.goal sprint'
                    = match su_goal payload with
                      | Some sent => sent
                      | None => SprintModel.goal sprint
                      end
                 /\ SprintModel.status sprint'
                    = match su_status payload with
                      | Some sent => sent
                      | None => SprintModel.status sprint
                      end
                 /\ get_sprint db' sprint_id = Some sprint'
                 /\ (forall key, key <> sprint_id ->
                                 get_sprint db' key = get_sprint db key)
                 /\ map SprintModel.id (sprints db')
                    = map SprintModel.id (sprints db)
                 /\ user_stories db' = user_stories db
                 /\ tasks db' = tasks db
                 /\ (dates_ordered db -> dates_ordered db'))).
Proof.
  unfold update_sprint. split; [intros ->; reflexivity|].
  intros sprint Hg. rewrite Hg.
  assert (Hid : SprintModel.id sprint = sprint_id).
  { apply find_some in Hg. apply Z.eqb_eq, (proj2 Hg). }
  split.
  { intros [H|H]; rewrite H; simpl; [reflexivity|].
    destruct (set_field (su_start_date payload)
                (SprintModel.start_date sprint)); reflexivity. }
  intros start_date end_date -> ->. split; [|split].
  - intros H. destruct (Z.ltb_spec end_date start_date); [reflexivity|lia].
  - intros H ->. destruct (Z.ltb_spec end_date start_date); [lia|].
    reflexivity.
  - intros H Hn. destruct (Z.ltb_spec end_date start_date); [lia|].
    destruct (set_field (su_name payload) (SprintModel.name sprint))
      as [name|] eqn:N.
    2:{ exfalso. apply Hn. unfold set_field in N.
        destruct (su_name payload) as [[v|]|]; congruence. }
    eexists. eexists. split; [reflexivity|]. split; [exact Hid|].
    split; [reflexivity|]. split; [reflexivity|]. split; [reflexivity|].
    split; [destruct (su_goal payload); reflexivity|].
    split; [destruct (su_status payload); reflexivity|].
    split.
    { unfold get_sprint in *. simpl.
      rewrite (find_id_map_replace SprintModel.id) by exact Hid.
      rewrite Z.eqb_refl, Hg. reflexivity. }
    split.
    { intros key Hk. unfold get_sprint. simpl.
      rewrite (find_id_map_replace SprintModel.id) by exact Hid.
      destruct (Z.eqb_spec key sprint_id); [congruence|reflexivity]. }
    split.
    { simpl. rewrite map_map. apply map_ext_in. intros s _.
      destruct (Z.eqb_spec (SprintModel.id s) sprint_id); [|reflexivity].
      simpl. congruence. }
    split; [reflexivity|]. split; [reflexivity|].
    intros Hd s Hs. simpl in Hs. apply in_map_iff in Hs.
    destruct Hs as [s0 [E Hs0]].
    destruct (SprintModel.id s0 =? sprint_id); subst s; auto.
Qed.

(** ** Simulation driver: what a step keeps and what it moves *)

Lemma sync_story_status_story_ids (db : DB) (story : UserStoryModel.t) :
  map UserStoryModel.id (user_stories (sync_story_status db story))
  = map UserStoryModel.id (user_stories db).
Proof.
  rewrite sync_story_status_cases.
  destruct (story_tasks db story); [reflexivity|].
  simpl. rewrite map_map. apply map_ext. intros s.
  destruct (UserStoryModel.id s =? UserStoryModel.id story); reflexivity.
Qed.

Lemma set_task_status_ids (key : Z) (st : TaskStatus.t) (db : DB) :
  map TaskModel.id (tasks (set_task_status key st db))
  = map TaskModel.id (tasks db).
Proof.
  simpl. rewrite map_map. apply map_ext. intros k.
  destruct (TaskModel.id k =? key); reflexivity.
Qed.

Lemma transition_keys (db : DB) (k : TaskModel.t) (st : TaskStatus.t) :
  map TaskModel.id (tasks (transition db k st)) = map TaskModel.id (tasks db)
  /\ map UserStoryModel.id (user_stories (transition db k st))
     = map UserStoryModel.id (user_stories db).
Proof.
  destruct (transition_moved db k st) as (Ht & _).
  split.
  - rewrite Ht, map_map. apply map_ext. intros x.
    destruct (TaskModel.id x =? TaskModel.id k); reflexivity.
  - unfold transition.
    destruct (task_story (set_task_status (TaskModel.id k) st db) k);
      [rewrite sync_story_status_story_ids|]; reflexivity.
Qed.

(** The shape of a step: either one picked task of the sprint moves to the
    next stage, or the tech-debt task is appended. *)
Lemma simulate_progress_shape (db : DB) (sprint : SprintModel.t) :
  current_sprint db = Some sprint ->
  (exists k st,
     eligible db sprint (TaskModel.status k) k
     /\ stage st = stage (TaskModel.status k) + 1
     /\ simulate_progress db = transition db k st)
  \/ ((forall x st, st <> TaskStatus.DONE -> ~ eligible db sprint st x)
      /\ simulate_progress db = fst (ensure_tech_debt_task db sprint)).
Proof.
  intros E. unfold simulate_progress. rewrite E.
  destruct (pick_task db sprint TaskStatus.CODE_REVIEW) as [k1|] eqn:E1.
  { left. exists k1, TaskStatus.DONE.
    destruct (pick_task_some _ _ _ _ E1) as [H _].
    assert (S1 : TaskModel.status k1 = TaskStatus.CODE_REVIEW)
      by (destruct H as (_ & H & _); exact H).
    rewrite S1. split; [exact H|split; reflexivity]. }
  destruct (pick_task db sprint TaskStatus.IN_PROGRESS) as [k2|] eqn:E2.
  { left. exists k2, TaskStatus.CODE_REVIEW.
    destruct (pick_task_some _ _ _ _ E2) as [H _].
    assert (S1 : TaskModel.status k2 = TaskStatus.IN_PROGRESS)
      by (destruct H as (_ & H & _); exact H).
    rewrite S1. split; [exact H|split; reflexivity]. }
  destruct (pick_task db sprint TaskStatus.TODO) as [k3|] eqn:E3.
  { left. exists k3, TaskStatus.IN_PROGRESS.
    destruct (pick_task_some _ _ _ _ E3) as [H _].
    assert (S1 : TaskModel.status k3 = TaskStatus.TODO)
      by (destruct H as (_ & H & _); exact H).
    rewrite S1. split; [exact H|split; reflexivity]. }
  right. split; [|reflexivity].
  intros x st Hst Hx. destruct st; try congruence.
  - exact (pick_task_none _ _ _ E3 x Hx).
  - exact (pick_task_none _ _ _ E2 x Hx).
  - exact (pick_task_none _ _ _ E1 x Hx).
Qed.

Lemma simulate_progress_idle (db : DB) :
  current_sprint db = None -> simulate_progress db = db.
Proof. intros E. unfold simulate_progress. rewrite E. reflexivity. Qed.

Lemma simulate_progress_frame (db : DB) :
  sprints (simulate_progress db) = sprints db
  /\ github_links (simulate_progress db) = github_links db
  /\ burndown_snapshots (simulate_progress db) = burndown_snapshots db
  /\ (primary_keys db -> primary_keys (simulate_progress db)).
Proof.
  destruct (current_sprint db) as [sprint|] eqn:E.
  2:{ rewrite (simulate_progress_idle db E).
      repeat (split; [reflexivity|]). auto. }
  destruct (simulate_progress_shape db sprint E)
    as [(k & st & _ & _ & ->)|[_ ->]].
  - destruct (transition_moved db k st) as (_ & H1 & H2 & H3).
    destruct (transition_keys db k st) as [K1 K2].
    split; [exact H1|]. split; [exact H2|]. split; [exact H3|].
    intros (P1 & P2 & P3 & P4 & P5). unfold primary_keys.
    rewrite H1, H2, H3, K1, K2. repeat split; assumption.
  - unfold ensure_tech_debt_task.
    destruct (first (order_by story_order (sprint_stories db sprint)));
      simpl; repeat (split; [reflexivity|]);
      intros (P1 & P2 & P3 & P4 & P5); unfold primary_keys; simpl;
      repeat split; auto; rewrite map_app; simpl;
      apply NoDup_app_fresh; assumption.
Qed.

(** X3.  A step writes no sprint, link or snapshot, and keeps the primary
    keys of the store: the rows it adds receive keys that were free. *)
Theorem simulate_progress_keeps_keys (db : DB) :
  sprints (simulate_progress db) = sprints db
  /\ github_links (simulate_progress db) = github_links db
  /\ burndown_snapshots (simulate_progress db) = burndown_snapshots db
  /\ (primary_keys db -> primary_keys (simulate_progress db)).
Proof.
  destruct (current_sprint db) as [sprint|] eqn:E.
  2:{ rewrite (simulate_progress_idle db E).
      repeat (split; [reflexivity|]). auto. }
  destruct (simulate_progress_shape db sprint E)
    as [(k & st & _ & _ & ->)|[_ ->]].
  - destruct (transition_moved db k st) as (_ & H1 & H2 & H3).
    destruct (transition_keys db k st) as [K1 K2].
    split; [exact H1|]. split; [exact H2|]. split; [exact H3|].
    intros (P1 & P2 & P3 & P4 & P5). unfold primary_keys.
    rewrite H1, H2, H3, K1, K2. repeat split; assumption.
  - unfold ensure_tech_debt_task.
    destruct (first (order_by story_order (sprint_stories db sprint)));
      simpl; repeat (split; [reflexivity|]);
      intros (P1 & P2 & P3 & P4 & P5); unfold primary_keys; simpl;
      repeat split; auto; rewrite map_app; simpl;
      apply NoDup_app_fresh; assumption.
Qed.

Lemma Forall2_map_same {A : Type} (R : A -> A -> Prop) (f : A -> A)
    (l : list A) :
  (forall x, In x l -> R x (f x)) -> Forall2 R l (map f l).
Proof.
  induction l as [|x l IH]; intros H; simpl; constructor.
  - apply H. left. reflexivity.
  - apply IH. intros y Hy. apply H. right. exact Hy.
Qed.

Lemma same_but_status_refl (k : TaskModel.t) : same_but_status k k.
Proof. unfold same_but_status. repeat split. Qed.

Lemma same_but_status_set (st : TaskStatus.t) (k : TaskModel.t) :
  same_but_status k (TaskModel.set_status st k).
Proof. unfold same_but_status. repeat split. Qed.

(** X4.  Keys being unique, a step never removes a task and never moves one
    backwards: every task is still there with the same key, story, title,
    points, flag and assignee, at the stage it had or at the next one; at
    most one task is added, and that one is a TODO tech-debt task. *)
Theorem simulate_progress_forward (db : DB) :
  NoDup (map TaskModel.id (tasks db)) ->
  exists moved extra,
    tasks (simulate_progress db) = moved ++ extra
    /\ Forall2
         (fun a b =>
            same_but_status a b
            /\ stage (TaskModel.status a) <= stage (TaskModel.status b)
               <= stage (TaskModel.status a) + 1)
         (tasks db) moved
    /\ (extra = []
        \/ exists k, extra = [k]
                     /\ TaskModel.status k = TaskStatus.TODO
                     /\ TaskModel.is_tech_debt k = true).
Proof.
  intros Hnd.
  assert (Hsame : Forall2
                    (fun a b =>
                       same_but_status a b
                       /\ stage (TaskModel.status a)
                          <= stage (TaskModel.status b)
                          <= stage (TaskModel.status a) + 1)
                    (tasks db) (tasks db)).
  { rewrite <- (map_id (tasks db)) at 2. apply Forall2_map_same.
    intros x _. split; [apply same_but_status_refl|lia]. }
  destruct (current_sprint db) as [sprint|] eqn:E.
  2:{ rewrite (simulate_progress_idle db E).
      exists (tasks db), []. rewrite app_nil_r. auto. }
  destruct (simulate_progress_shape db sprint E)
    as [(k & st & Hel & Hst & ->)|[_ ->]].
  - destruct (transition_moved db k st) as (Ht & _).
    eexists. exists []. rewrite app_nil_r. split; [exact Ht|].
    split; [|left; reflexivity].
    apply Forall2_map_same. intros x Hx.
    destruct (Z.eqb_spec (TaskModel.id x) (TaskModel.id k)) as [Eid|].
    + assert (x = k).
      { apply (NoDup_map_inj TaskModel.id (tasks db)); auto.
        destruct Hel as (H & _). exact H. }
      subst x. split; [apply same_but_status_set|]. simpl. lia.
    + split; [apply same_but_status_refl|lia].
  - exists (tasks db), [snd (ensure_tech_debt_task db sprint)]. split.
    + unfold ensure_tech_debt_task.
      destruct (first (order_by story_order (sprint_stories db sprint)));
        reflexivity.
    + split; [exact Hsame|]. right. eexists. split; [reflexivity|].
      unfold ensure_tech_debt_task.
      destruct (first (order_by story_order (sprint_stories db sprint)));
        split; reflexivity.
Qed.

Lemma sum_Z_app (a b : list Z) : sum_Z (a ++ b) = sum_Z a + sum_Z b.
Proof.
  unfold sum_Z. induction a as [|x a IH]; simpl; [reflexivity|].
  rewrite IH. lia.
Qed.

(** Replacing the status of the one row with a given key moves the sum by
    the difference of that row's terms. *)
Lemma sum_replace_status (g : TaskModel.t -> Z) (st : TaskStatus.t)
    (k : TaskModel.t) (l : list TaskModel.t) :
  NoDup (map TaskModel.id l) -> In k l ->
  sum_Z (map g (map (fun x => if TaskModel.id x =? TaskModel.id k
                              then TaskModel.set_status st x else x) l))
  = sum_Z (map g l) - g k + g (TaskModel.set_status st k).
Proof.
  induction l as [|x l IH]; intros Hnd Hin; [destruct Hin|].
  simpl in Hnd. inversion Hnd as [|? ? Hx Hl]; subst.
  destruct Hin as [->|Hin].
  - simpl. rewrite Z.eqb_refl.
    assert (E : map (fun x => if TaskModel.id x =? TaskModel.id k
                              then TaskModel.set_status st x else x) l = l).
    { rewrite <- (map_id l) at 2. apply map_ext_in. intros y Hy.
      destruct (Z.eqb_spec (TaskModel.id y) (TaskModel.id k)) as [Eid|];
        [|reflexivity].
      exfalso. apply Hx. rewrite <- Eid. apply in_map, Hy. }
    rewrite E. unfold sum_Z. simpl. lia.
  - simpl.
    destruct (Z.eqb_spec (TaskModel.id x) (TaskModel.id k)) as [Eid|].
    + exfalso. apply Hx. rewrite Eid. apply in_map, Hin.
    + specialize (IH Hl Hin). unfold sum_Z in *. simpl. lia.
Qed.

(** X5.  Keys being unique, every step with an ACTIVE sprint makes exactly
    one unit of progress (one task moves one stage, or one task is added),
    and a step without an ACTIVE sprint makes none. *)
Theorem simulate_progress_one_unit (db : DB) :
  NoDup (map TaskModel.id (tasks db)) ->
  progress (simulate_progress db)
  = progress db + match current_sprint db with Some _ => 1 | None => 0 end.
Proof.
  intros Hnd. destruct (current_sprint db) as [sprint|] eqn:E.
  2:{ rewrite (simulate_progress_idle db E). lia. }
  destruct (simulate_progress_shape db sprint E)
    as [(k & st & Hel & Hst & ->)|[_ ->]].
  - destruct (transition_moved db k st) as (Ht & _).
    unfold progress. rewrite Ht.
    rewrite sum_replace_status; auto.
    + simpl. lia.
    + destruct Hel as (H & _). exact H.
  - unfold progress, ensure_tech_debt_task.
    destruct (first (order_by story_order (sprint_stories db sprint)));
      simpl; rewrite map_app, sum_Z_app; simpl; lia.
Qed.

(** X6.  When the current sprint has a task that is not DONE, the step
    moves one such task [k] to the next stage: the task table is the old
    one with the status of the row keyed as [k] replaced, and [k] at its new
    stage is among the tasks of its story.  That story is still in the
    store, unchanged but for its status, and its status is the one the
    rollup derives from the story's tasks as they are after the move; a
    further rollup changes nothing. *)
Theorem simulate_progress_rolls_up (db : DB) (sprint : SprintModel.t) :
  current_sprint db = Some sprint ->
  (exists x st, st <> TaskStatus.DONE /\ eligible db sprint st x) ->
  exists k st story,
    eligible db sprint (TaskModel.status k) k
    /\ TaskModel.status k <> TaskStatus.DONE
    /\ stage st = stage (TaskModel.status k) + 1
    /\ moved db k st (simulate_progress db)
    /\ get_story db (TaskModel.story_id k) = Some story
    /\ UserStoryModel.sprint_id story = Some (SprintModel.id sprint)
    /\ In (TaskModel.set_status st k)
          (story_tasks (simulate_progress db) story)
    /\ get_story (simulate_progress db) (TaskModel.story_id k)
       = Some (UserStoryModel.set_status
                 (if forallb is_done
                       (story_tasks (simulate_progress db) story)
                  then UserStoryStatus.DONE
                  else if existsb is_under_way
                            (story_tasks (simulate_progress db) story)
                       then UserStoryStatus.ACTIVE
                       else UserStoryStatus.PLANNED)
                 story)
    /\ rolled_up (simulate_progress db) story.
Proof.
  intros E (x & st0 & Hst0 & Hx).
  destruct (simulate_progress_shape db sprint E)
    as [(k & st & Hel & Hst & ->)|[Hno _]].
  2:{ exfalso. exact (Hno x st0 Hst0 Hx). }
  pose proof Hel as (Hin & Hs & story & Hg & Hsp).
  exists k, st, story. split; [exact Hel|].
  split.
  { intros D. rewrite D in Hst. destruct st; simpl in Hst; lia. }
  split; [exact Hst|]. split; [apply transition_moved|].
  split; [exact Hg|]. split; [exact Hsp|].
  set (db1 := set_task_status (TaskModel.id k) st db).
  assert (G : task_story db1 k = Some story) by exact Hg.
  assert (Hid : UserStoryModel.id story = TaskModel.story_id k).
  { unfold get_story in Hg. apply find_some in Hg.
    destruct Hg as [_ Hg]. apply Z.eqb_eq, Hg. }
  assert (Hk : In (TaskModel.set_status st k) (story_tasks db1 story)).
  { unfold story_tasks. apply filter_In. split.
    - unfold db1, set_task_status. cbn [tasks with_tasks].
      apply in_map_iff. exists k. rewrite Z.eqb_refl. auto.
    - apply Z.eqb_eq. symmetry. exact Hid. }
  assert (T : transition db k st = sync_story_status db1 story).
  { unfold transition. fold db1. rewrite G. reflexivity. }
  assert (Ts : story_tasks (sync_story_status db1 story) story
               = story_tasks db1 story).
  { unfold story_tasks.
    destruct (sync_story_status_tables db1 story) as [-> _]. reflexivity. }
  rewrite T, Ts. split; [exact Hk|]. split.
  - rewrite sync_story_status_cases.
    destruct (story_tasks db1 story) as [|k0 ts] eqn:F; [destruct Hk|].
    rewrite <- Hid. apply get_story_set_story_status.
    rewrite Hid. exact Hg.
  - apply sync_story_status_rolled_up.
Qed.

(** ** Recorder: what a capture keeps *)

Lemma capture_primary_keys (today : date) (for_date : option date) (db : DB) :
  primary_keys db ->
  primary_keys (fst (capture_burndown_snapshots today for_date db)).
Proof.
  intros (K1 & K2 & K3 & K4 & K5). rewrite capture_target.
  unfold primary_keys. simpl. repeat split; auto.
  apply (fold_Inv db (or_else for_date today)).
  split; [exact K5|]. intros r0 H. exists r0. auto.
Qed.

(** Every row there was is still there, with its key, sprint and day. *)
Lemma capture_skeleton (today : date) (for_date : option date) (db : DB)
    (r0 : BurndownSnapshotModel.t) :
  primary_keys db -> In r0 (burndown_snapshots db) ->
  exists r,
    In r (burndown_snapshots
            (fst (capture_burndown_snapshots today for_date db)))
    /\ skeleton r = skeleton r0.
Proof.
  intros (_ & _ & _ & _ & K5) Hr. rewrite capture_target. simpl.
  assert (HI : NoDup (map BurndownSnapshotModel.id (burndown_snapshots db))
               /\ forall r0, In r0 (burndown_snapshots db) ->
                    exists r, In r (burndown_snapshots db)
                              /\ skeleton r = skeleton r0).
  { split; [exact K5|]. intros x H. exists x. auto. }
  exact (proj2 (fold_Inv db (or_else for_date today) (active_sprints db) _ HI)
               r0 Hr).
Qed.

(** X7.  On a store that has its keys and at most one snapshot per sprint
    and day, a capture keeps both. *)
Theorem capture_keeps_invariants (today : date) (for_date : option date)
    (db : DB) :
  primary_keys db -> one_snapshot_per_day db ->
  primary_keys (fst (capture_burndown_snapshots today for_date db))
  /\ one_snapshot_per_day
       (fst (capture_burndown_snapshots today for_date db)).
Proof.
  intros HK Hone. split; [apply capture_primary_keys, HK|].
  destruct (capture_once db (or_else for_date today) HK Hone) as (_ & H & _).
  rewrite capture_target. intros sid d'. unfold snapshot_count. simpl.
  apply H.
Qed.

Section CaptureUntouched.
Variables (db : DB) (d : date).
Hypothesis keys : NoDup (map BurndownSnapshotModel.id (burndown_snapshots db)).

(** Rows that no turn of the loop may write: those of another day, and
    those of a sprint that is not in the list. *)
Lemma capture_sprint_untouched (P : list BurndownSnapshotModel.t)
    (sp : SprintModel.t) (r : BurndownSnapshotModel.t) :
  In r (burndown_snapshots db) ->
  BurndownSnapshotModel.snapshot_date r <> d
  \/ BurndownSnapshotModel.sprint_id r <> SprintModel.id sp ->
  In r P -> In r (capture_sprint db d P sp).
Proof.
  intros Hr Hout HP. unfold capture_sprint.
  destruct (first (filter (snapshot_at (SprintModel.id sp) d)
                          (burndown_snapshots db))) as [r0|] eqn:E.
  - unfold first in E.
    assert (X : In r0 (filter (snapshot_at (SprintModel.id sp) d)
                              (burndown_snapshots db))).
    { destruct (filter _ _); [discriminate|]. injection E as ->.
      left. reflexivity. }
    apply filter_In in X. destruct X as [X1 X2].
    apply snapshot_at_spec in X2.
    apply in_map_iff. exists r. split; [|exact HP].
    unfold overwrite.
    destruct (Z.eqb_spec (BurndownSnapshotModel.id r)
                (BurndownSnapshotModel.id r0)) as [Eid|]; [|reflexivity].
    exfalso.
    assert (r = r0)
      by (apply (NoDup_map_inj BurndownSnapshotModel.id
                   (burndown_snapshots db)); auto).
    subst r0. destruct X2, Hout; congruence.
  - apply in_or_app. left. exact HP.
Qed.

Lemma capture_fold_untouched (sps : list SprintModel.t)
    (P : list BurndownSnapshotModel.t) (r : BurndownSnapshotModel.t) :
  In r (burndown_snapshots db) ->
  BurndownSnapshotModel.snapshot_date r <> d
  \/ (forall sp, In sp sps ->
                 BurndownSnapshotModel.sprint_id r <> SprintModel.id sp) ->
  In r P -> In r (fold_left (capture_sprint db d) sps P).
Proof.
  revert P. induction sps as [|sp sps IH]; intros P Hr Hout HP; simpl;
    [exact HP|].
  apply IH; auto.
  - destruct Hout as [H|H]; [left; exact H|].
    right. intros x Hx. apply H. right. exact Hx.
  - apply capture_sprint_untouched; auto.
    destruct Hout as [H|H]; [left; exact H|].
    right. apply H. left. reflexivity.
Qed.

End CaptureUntouched.

(** X8.  A capture rewrites history nowhere else: keys being unique, a
    snapshot of another day, or of a sprint that is not ACTIVE, is in the
    store afterwards exactly as it was. *)
Theorem capture_leaves_other_rows (today : date) (for_date : option date)
    (db : DB) (r : BurndownSnapshotModel.t) :
  primary_keys db ->
  In r (burndown_snapshots db) ->
  BurndownSnapshotModel.snapshot_date r <> or_else for_date today
  \/ (forall sp, In sp (sprints db) ->
                 SprintModel.status sp = SprintStatus.ACTIVE ->
                 SprintModel.id sp <> BurndownSnapshotModel.sprint_id r) ->
  In r (burndown_snapshots
          (fst (capture_burndown_snapshots today for_date db))).
Proof.
  intros (_ & _ & _ & _ & K5) Hr Hout. rewrite capture_target. simpl.
  apply capture_fold_untouched; auto.
  destruct Hout as [H|H]; [left; exact H|].
  right. intros sp Hsp E. apply In_active_sprints in Hsp.
  destruct Hsp as [H1 H2]. apply (H sp H1 H2). congruence.
Qed.

(** X9.  A capture adds rows only for ACTIVE sprints on the target day: for
    any other day, and for any sprint key that no ACTIVE sprint has, the
    number of snapshots is what it was. *)
Theorem capture_adds_only_for_active (today : date) (for_date : option date)
    (db : DB) (sid : Z) (d' : date) :
  d' <> or_else for_date today
  \/ (forall sp, In sp (sprints db) ->
                 SprintModel.status sp = SprintStatus.ACTIVE ->
                 SprintModel.id sp <> sid) ->
  snapshot_count (fst (capture_burndown_snapshots today for_date db)) sid d'
  = snapshot_count db sid d'.
Proof.
  intros Hout. rewrite capture_target. unfold snapshot_count. simpl.
  rewrite fold_count.
  match goal with
  | |- (_ + List.length ?l)%nat = _ => assert (E : l = [])
  end.
  { match goal with
    | |- ?l = [] => destruct l as [|sp t] eqn:F; [reflexivity|]
    end.
    exfalso.
    assert (X : In sp (sp :: t)) by (left; reflexivity).
    rewrite <- F in X. apply filter_In in X. destruct X as [X1 X2].
    apply andb_true_iff in X2. destruct X2 as [X2 X3].
    apply andb_true_iff in X2. destruct X2 as [_ X2].
    apply Z.eqb_eq in X2, X3. apply In_active_sprints in X1.
    destruct X1 as [A1 A2].
    destruct Hout as [H|H]; [congruence|exact (H sp A1 A2 X3)]. }
  rewrite E. simpl. lia.
Qed.

(** ** Simulation control: advancing the clock *)

Lemma advance_loop_step (real_today : date) (n : nat) (w : World)
    (created : Z) (simulate_date : date) :
  advance_loop real_today (S n) w created simulate_date
  = if date_in_range (real_today + (SIMULATION_OFFSET_DAYS w + 1))
    then
      advance_loop real_today n
        (mkWorld
           (fst (capture_burndown_snapshots
                   (real_today + (SIMULATION_OFFSET_DAYS w + 1))
                   (Some (real_today + (SIMULATION_OFFSET_DAYS w + 1)))
                   (simulate_progress (store w))))
           (SIMULATION_OFFSET_DAYS w + 1))
        (created + 1) (real_today + (SIMULATION_OFFSET_DAYS w + 1))
    else
      Unhandled "OverflowError"
        (mkWorld (store w) (SIMULATION_OFFSET_DAYS w + 1)).
Proof. reflexivity. Qed.

(** The loop run for [n + m] days is the loop run for [n] days and then,
    if that went through, for [m] more. *)
Lemma advance_loop_app (real_today : date) (n m : nat) (w : World)
    (created : Z) (simulate_date : date) :
  advance_loop real_today (n + m) w created simulate_date
  = match advance_loop real_today n w created simulate_date with
    | Ok (w1, created1, date1) =>
        advance_loop real_today m w1 created1 date1
    | HTTPException status_code detail => HTTPException status_code detail
    | Unhandled exception state => Unhandled exception state
    end.
Proof.
  revert w created simulate_date.
  induction n as [|n IH]; intros w created simulate_date; [reflexivity|].
  change (S n + m)%nat with (S (n + m)). rewrite !advance_loop_step.
  destruct (date_in_range (real_today + (SIMULATION_OFFSET_DAYS w + 1)));
    [apply IH|reflexivity].
Qed.

(** What a loop that went through has done to the clock, and that every day
    it passed is a date. *)
Lemma advance_loop_clock (real_today : date) (n : nat) (w : World)
    (created : Z) (simulate_date : date) (w' : World) (created' : Z)
    (date' : date) :
  advance_loop real_today n w created simulate_date
  = Ok (w', created', date') ->
  SIMULATION_OFFSET_DAYS w' = SIMULATION_OFFSET_DAYS w + Z.of_nat n
  /\ created' = created + Z.of_nat n
  /\ (n <> O ->
      date' = real_today + SIMULATION_OFFSET_DAYS w + Z.of_nat n)
  /\ sprints (store w') = sprints (store w)
  /\ github_links (store w') = github_links (store w)
  /\ forall i, 1 <= i <= Z.of_nat n ->
       date_in_range (real_today + SIMULATION_OFFSET_DAYS w + i) = true.
Proof.
  revert w created simulate_date.
  induction n as [|n IH]; intros w created simulate_date H.
  - simpl in H. injection H as <- <- <-.
    repeat split; intros; lia.
  - rewrite advance_loop_step in H.
    destruct (date_in_range (real_today + (SIMULATION_OFFSET_DAYS w + 1)))
      eqn:R; [|discriminate].
    destruct (IH _ _ _ H) as (H1 & H2 & H3 & H4 & H5 & H6).
    cbn [SIMULATION_OFFSET_DAYS store] in H1, H3, H4, H5, H6.
    split; [rewrite H1; lia|]. split; [rewrite H2; lia|].
    split.
    { intros _. destruct n as [|n'].
      - simpl in H. injection H as _ _ <-. lia.
      - rewrite H3 by discriminate. lia. }
    destruct (capture_keeps
                (real_today + (SIMULATION_OFFSET_DAYS w + 1))
                (Some (real_today + (SIMULATION_OFFSET_DAYS w + 1)))
                (simulate_progress (store w))) as (C1 & _ & _ & C4).
    destruct (simulate_progress_frame (store w)) as (S1 & S2 & _).
    split; [congruence|]. split; [congruence|].
    intros i Hi. destruct (Z.eq_dec i 1) as [->|Hne].
    + rewrite <- R. f_equal. lia.
    + rewrite <- (H6 (i - 1)) by lia. f_equal. lia.
Qed.

(** The loop goes through when every day it has to pass is a date. *)
Lemma advance_loop_ok (real_today : date) (n : nat) (w : World)
    (created : Z) (simulate_date : date) :
  (forall i, 1 <= i <= Z.of_nat n ->
     date_in_range (real_today + SIMULATION_OFFSET_DAYS w + i) = true) ->
  exists w' created' date',
    advance_loop real_today n w created simulate_date
    = Ok (w', created', date').
Proof.
  revert w created simulate_date.
  induction n as [|n IH]; intros w created simulate_date H.
  - simpl. eauto.
  - rewrite advance_loop_step.
    replace (real_today + (SIMULATION_OFFSET_DAYS w + 1))
      with (real_today + SIMULATION_OFFSET_DAYS w + 1) by lia.
    rewrite (H 1) by lia. apply IH.
    cbn [SIMULATION_OFFSET_DAYS]. intros i Hi.
    rewrite <- (H (i + 1)) by lia. f_equal. lia.
Qed.

(** X10.  A request to advance by zero or fewer days is refused with 400.
    A request for [days] days, each of them a date, moves the clock forward
    by exactly that many days, reports that many captures and the new
    current day, and writes no sprint and no link.  When day [j] is the
    first that is no date, the clock read of that iteration raises
    [OverflowError]: the request fails, the offset stays on day [j], and
    the store is the one the first [j - 1] days have left. *)
Theorem simulate_advance_days_clock (real_today days : Z) (w : World) :
  (days <= 0 ->
   simulate_advance_days real_today days w
   = HTTPException 400 "Days must be positive")
  /\ (0 < days ->
      (forall i, 1 <= i <= days ->
         date_in_range (get_today real_today w + i) = true) ->
      exists w' resp,
        simulate_advance_days real_today days w = Ok (w', resp)
        /\ SIMULATION_OFFSET_DAYS w' = SIMULATION_OFFSET_DAYS w + days
        /\ get_today real_today w' = get_today real_today w + days
        /\ created_snapshots resp = days
        /\ last_date resp = get_today real_today w'
        /\ adv_current_day resp = get_today real_today w'
        /\ adv_offset_days resp = SIMULATION_OFFSET_DAYS w'
        /\ sprints (store w') = sprints (store w)
        /\ github_links (store w') = github_links (store w))
  /\ (forall j, 1 <= j <= days ->
        date_in_range (get_today real_today w + j) = false ->
        (forall i, 1 <= i < j ->
           date_in_range (get_today real_today w + i) = true) ->
        exists w',
          simulate_advance_days real_today days w
          = Unhandled "OverflowError" w'
          /\ SIMULATION_OFFSET_DAYS w' = SIMULATION_OFFSET_DAYS w + j
          /\ sprints (store w') = sprints (store w)
          /\ github_links (store w') = github_links (store w)
          /\ (j = 1 -> store w' = store w)
          /\ forall w1 resp1,
               simulate_advance_days real_today (j - 1) w = Ok (w1, resp1) ->
               store w' = store w1).
Proof.
  unfold simulate_advance_days, get_today. split; [|split].
  - intros H. destruct (Z.leb_spec days 0); [reflexivity|lia].
  - intros H Hr. destruct (Z.leb_spec days 0); [lia|].
    destruct (advance_loop_ok real_today (Z.to_nat days) w 0 0)
      as (w' & created & sd & E).
    { intros i Hi. apply Hr. lia. }
    rewrite E. apply advance_loop_clock in E.
    rewrite Z2Nat.id in E by lia.
    destruct E as (L1 & L2 & L3 & L4 & L5 & _).
    exists w'. eexists. split; [reflexivity|]. simpl.
    rewrite L1.
    split; [reflexivity|]. split; [lia|]. split; [lia|].
    split; [rewrite L3 by lia; lia|].
    repeat split; auto.
  - intros j Hj Hout Hin. destruct (Z.leb_spec days 0); [lia|].
    replace (Z.to_nat days)
      with (Z.to_nat (j - 1) + S (Z.to_nat (days - j)))%nat by lia.
    rewrite advance_loop_app.
    destruct (advance_loop_ok real_today (Z.to_nat (j - 1)) w 0 0)
      as (w1 & c1 & d1 & E).
    { intros i Hi. apply Hin. lia. }
    rewrite E, advance_loop_step.
    pose proof (advance_loop_clock _ _ _ _ _ _ _ _ E)
      as (L1 & _ & _ & L4 & L5 & _).
    rewrite Z2Nat.id in L1 by lia.
    replace (real_today + (SIMULATION_OFFSET_DAYS w1 + 1))
      with (real_today + SIMULATION_OFFSET_DAYS w + j) by lia.
    rewrite Hout. eexists. split; [reflexivity|].
    cbn [SIMULATION_OFFSET_DAYS store].
    split; [lia|]. split; [exact L4|]. split; [exact L5|]. split.
    + intros ->. simpl in E. injection E as <- _ _. reflexivity.
    + intros w2 resp2. destruct (j - 1 <=? 0); [discriminate|].
      intros X. injection X as <- _. reflexivity.
Qed.

Lemma advance_loop_snapshots (real_today : date) (n : nat) (w : World)
    (created : Z) (simulate_date : date) (w' : World) (created' : Z)
    (date' : date) :
  primary_keys (store w) ->
  advance_loop real_today n w created simulate_date
  = Ok (w', created', date') ->
  primary_keys (store w')
  /\ (forall r0, In r0 (burndown_snapshots (store w)) ->
        exists r, In r (burndown_snapshots (store w'))
                  /\ skeleton r = skeleton r0)
  /\ forall s i,
       In s (sprints (store w)) ->
       SprintModel.status s = SprintStatus.ACTIVE ->
       1 <= i <= Z.of_nat n ->
       exists r,
         In r (burndown_snapshots (store w'))
         /\ BurndownSnapshotModel.sprint_id r = SprintModel.id s
         /\ BurndownSnapshotModel.snapshot_date r
            = real_today + SIMULATION_OFFSET_DAYS w + i.
Proof.
  revert w created simulate_date.
  induction n as [|n IH]; intros w created simulate_date HK E.
  - simpl in E. injection E as <- _ _.
    split; [exact HK|]. split; [eauto|]. intros; lia.
  - rewrite advance_loop_step in E.
    destruct (date_in_range (real_today + (SIMULATION_OFFSET_DAYS w + 1)));
      [|discriminate].
    set (d1 := real_today + (SIMULATION_OFFSET_DAYS w + 1)) in *.
    set (db0 := simulate_progress (store w)) in *.
    set (db1 := fst (capture_burndown_snapshots d1 (Some d1) db0)) in *.
    destruct (simulate_progress_frame (store w)) as (S1 & _ & S3 & S4).
    assert (K0 : primary_keys db0) by (apply S4, HK).
    assert (K1 : primary_keys db1) by (apply capture_primary_keys, K0).
    destruct (IH (mkWorld db1 (SIMULATION_OFFSET_DAYS w + 1)) (created + 1)
                 d1 K1 E) as (I1 & I2 & I3).
    cbn [SIMULATION_OFFSET_DAYS store] in I2, I3.
    split; [exact I1|]. split.
    { intros r0 Hr0.
      assert (H0 : In r0 (burndown_snapshots db0))
        by (unfold db0; rewrite S3; exact Hr0).
      destruct (capture_skeleton d1 (Some d1) db0 r0 K0 H0) as [r1 [R1 R2]].
      destruct (I2 r1 R1) as [r [R3 R4]].
      exists r. split; [exact R3|congruence]. }
    intros s i Hs Ha Hi.
    assert (Hs1 : In s (sprints db1)).
    { unfold db1.
      destruct (capture_keeps d1 (Some d1) db0) as (C1 & _).
      rewrite C1. unfold db0. rewrite S1. exact Hs. }
    destruct (Z.eq_dec i 1) as [->|Hne].
    + assert (Hs0 : In s (sprints db0)) by (unfold db0; rewrite S1; exact Hs).
      destruct (capture_covers d1 (Some d1) db0 s K0 Hs0 Ha)
        as (r1 & R1 & R2 & R3 & _).
      destruct (I2 r1 R1) as [r [R4 R5]].
      exists r. split; [exact R4|].
      unfold skeleton in R5. injection R5 as _ E2 E3.
      simpl in R3. unfold d1 in R3. split; [congruence|]. lia.
    + destruct (I3 s (i - 1) Hs1 Ha) as (r & R1 & R2 & R3); [lia|].
      exists r. split; [exact R1|]. split; [exact R2|]. lia.
Qed.

(** X11.  After advancing by [days] on a store with unique keys, every
    ACTIVE sprint has a snapshot for each of the simulated days, and no
    snapshot that existed before has lost its key, sprint or day. *)
Theorem simulate_advance_days_snapshots (real_today days : Z) (w w' : World)
    (resp : AdvanceResponse) :
  primary_keys (store w) ->
  simulate_advance_days real_today days w = Ok (w', resp) ->
  primary_keys (store w')
  /\ (forall r0, In r0 (burndown_snapshots (store w)) ->
        exists r, In r (burndown_snapshots (store w'))
                  /\ skeleton r = skeleton r0)
  /\ forall s i,
       In s (sprints (store w)) ->
       SprintModel.status s = SprintStatus.ACTIVE ->
       1 <= i <= days ->
       exists r,
         In r (burndown_snapshots (store w'))
         /\ BurndownSnapshotModel.sprint_id r = SprintModel.id s
         /\ BurndownSnapshotModel.snapshot_date r
            = get_today real_today w + i.
Proof.
  intros HK. unfold simulate_advance_days.
  destruct (Z.leb_spec days 0); [discriminate|].
  destruct (advance_loop real_today (Z.to_nat days) w 0 0)
    as [[[w1 created] sd]| |] eqn:L; [|discriminate|discriminate].
  intros E. injection E as <- _.
  pose proof (advance_loop_snapshots _ _ _ _ _ _ _ _ HK L) as X.
  rewrite Z2Nat.id in X by lia. exact X.
Qed.

(** ** Burndown engine: bounds and composition with the recorder *)

Lemma quotient_nonneg (a b : Z) :
  0 <= a -> 0 < b -> (0 <= inject_Z a / inject_Z b)%Q.
Proof.
  intros Ha Hb. unfold Qdiv. apply Qmult_le_0_compat.
  - change 0%Q with (inject_Z 0). rewrite <- Zle_Qle. exact Ha.
  - apply Qinv_le_0_compat. change 0%Q with (inject_Z 0).
    rewrite <- Zle_Qle. lia.
Qed.

Lemma ideal_remaining_antitone (total_days total_points i j : Z) :
  0 <= total_points -> 0 <= i <= j ->
  (ideal_remaining total_days total_points j
   <= ideal_remaining total_days total_points i)%Q.
Proof.
  intros Hp Hij. unfold ideal_remaining, float_sub, int_truediv.
  apply round64_mono. unfold Qminus.
  apply Qplus_le_compat; [apply Qle_refl|].
  apply Qopp_le_compat. apply round64_mono. unfold Qdiv.
  apply Qmult_le_compat_r.
  - rewrite <- Zle_Qle. nia.
  - apply Qinv_le_0_compat. change 0%Q with (inject_Z 0).
    rewrite <- Zle_Qle. lia.
Qed.

Lemma ideal_remaining_le_total (total_days total_points i : Z) :
  0 <= total_points -> 0 <= i ->
  (ideal_remaining total_days total_points i
   <= float_of_int total_points)%Q.
Proof.
  intros Hp Hi. unfold ideal_remaining, float_sub, float_of_int, int_truediv.
  rewrite <- (round64_idem (inject_Z total_points)) at 2.
  apply round64_mono.
  assert (Q0 : (0 <= round64 (inject_Z (i * total_points)
                               / inject_Z (Z.max (total_days - 1) 1)))%Q).
  { rewrite <- round64_0. apply round64_mono, quotient_nonneg; nia. }
  lra.
Qed.

(** X12.  The ideal line never rises and stays between zero and the total
    points as a float: of two entries of a series the later one has the
    smaller or equal ideal value.  A total of at most 2^53 is its own
    float; beyond that [float(total_points)] can exceed the total, and the
    first entry with it. *)
Theorem build_burndown_payload_ideal_bounds (db : DB) (sprint : SprintModel.t)
    (i j : nat) (p q : BurndownPoint) :
  (i <= j)%nat ->
  nth_error (build_burndown_payload db sprint) i = Some p ->
  nth_error (build_burndown_payload db sprint) j = Some q ->
  (ideal q <= ideal p)%Q
  /\ (0 <= ideal q)%Q
  /\ (ideal p <= float_of_int (sprint_total_points db sprint))%Q
  /\ (sprint_total_points db sprint <= 2 ^ 53 ->
      float_of_int (sprint_total_points db sprint)
      == inject_Z (sprint_total_points db sprint)
      /\ (ideal p <= inject_Z (sprint_total_points db sprint))%Q).
Proof.
  intros Hij Hp Hq.
  assert (Li : (i < Z.to_nat (sprint_total_days sprint))%nat).
  { rewrite <- (build_burndown_payload_length db sprint).
    apply nth_error_Some. congruence. }
  assert (Lj : (j < Z.to_nat (sprint_total_days sprint))%nat).
  { rewrite <- (build_burndown_payload_length db sprint).
    apply nth_error_Some. congruence. }
  destruct (build_burndown_payload_nth db sprint i Li) as (p' & P1 & _ & P3).
  destruct (build_burndown_payload_nth db sprint j Lj) as (q' & Q1 & _ & Q3).
  assert (p' = p) by congruence. assert (q' = q) by congruence. subst p' q'.
  rewrite P3, Q3.
  pose proof (sprint_total_points_nonneg db sprint) as Hp0.
  assert (F0 : (0 <= float_of_int (sprint_total_points db sprint))%Q).
  { unfold float_of_int. rewrite <- round64_0. apply round64_mono.
    change 0%Q with (inject_Z 0). rewrite <- Zle_Qle. exact Hp0. }
  assert (B : (Qmax (ideal_remaining (sprint_total_days sprint)
                       (sprint_total_points db sprint) (Z.of_nat i)) 0
               <= float_of_int (sprint_total_points db sprint))%Q).
  { apply Q.max_lub; [|exact F0]. apply ideal_remaining_le_total; lia. }
  split; [|split; [|split]].
  - apply Q.max_le_compat_r. apply ideal_remaining_antitone; lia.
  - apply Q.le_max_r.
  - exact B.
  - intros Hb.
    assert (E : float_of_int (sprint_total_points db sprint)
                == inject_Z (sprint_total_points db sprint))
      by (apply round64_Z; lia).
    split; [exact E|]. rewrite <- E. exact B.
Qed.


Lemma sum_filter_le {A : Type} (g : A -> Z) (p q : A -> bool) (l : list A) :
  (forall x, In x l -> p x = true -> 0 <= g x) ->
  0 <= sum_Z (map g (filter (fun x => p x && q x) l))
  <= sum_Z (map g (filter p l)).
Proof.
  induction l as [|x l IH]; intros H; simpl; [unfold sum_Z; simpl; lia|].
  assert (IH' : 0 <= sum_Z (map g (filter (fun x => p x && q x) l))
                <= sum_Z (map g (filter p l)))
    by (apply IH; intros y Hy; apply H; right; exact Hy).
  destruct (p x) eqn:Px; simpl; [|exact IH'].
  assert (0 <= g x) by (apply H; [left; reflexivity|exact Px]).
  destruct (q x); unfold sum_Z in *; simpl; lia.
Qed.

(** X14.  With story points that are not negative, the remaining points of
    a sprint lie between zero and its total points; they are zero when
    every story of the sprint is DONE and the total when none is. *)
Theorem calculate_remaining_points_bounds (db : DB) (sprint : SprintModel.t) :
  (forall s, In s (sprint_stories db sprint) ->
             0 <= UserStoryModel.story_points s) ->
  0 <= calculate_remaining_points db (SprintModel.id sprint)
  <= sprint_total_points db sprint
  /\ ((forall s, In s (sprint_stories db sprint) ->
                 UserStoryModel.status s = UserStoryStatus.DONE) ->
      calculate_remaining_points db (SprintModel.id sprint) = 0)
  /\ ((forall s, In s (sprint_stories db sprint) ->
                 UserStoryModel.status s <> UserStoryStatus.DONE) ->
      calculate_remaining_points db (SprintModel.id sprint)
      = sprint_total_points db sprint).
Proof.
  intros Hp. unfold calculate_remaining_points, sprint_total_points,
    sprint_stories in *.
  pose proof (sum_filter_le UserStoryModel.story_points
                (in_sprint (SprintModel.id sprint))
                (fun s => negb (is_story_done s)) (user_stories db)) as B.
  assert (B' := B (fun x Hx Px => Hp x (proj2 (filter_In _ _ _)
                                          (conj Hx Px)))).
  split; [lia|]. split.
  - intros Hall.
    assert (E : filter (fun s => in_sprint (SprintModel.id sprint) s
                                 && negb (is_story_done s))
                       (user_stories db) = []).
    { destruct (filter (fun s => in_sprint (SprintModel.id sprint) s
                                 && negb (is_story_done s))
                       (user_stories db)) as [|s t] eqn:F; [reflexivity|].
      exfalso.
      assert (X : In s (s :: t)) by (left; reflexivity).
      rewrite <- F in X. apply filter_In in X. destruct X as [X1 X2].
      apply andb_true_iff in X2. destruct X2 as [X2 X3].
      assert (D : UserStoryModel.status s = UserStoryStatus.DONE)
        by (apply Hall, filter_In; auto).
      unfold is_story_done in X3. rewrite D in X3. discriminate. }
    rewrite E. reflexivity.
  - intros Hnone.
    assert (E : filter (fun s => in_sprint (SprintModel.id sprint) s
                                 && negb (is_story_done s))
                       (user_stories db)
                = filter (in_sprint (SprintModel.id sprint))
                         (user_stories db)).
    { apply filter_ext_in. intros s Hs.
      destruct (in_sprint (SprintModel.id sprint) s) eqn:I; [|reflexivity].
      simpl. unfold is_story_done.
      destruct (UserStoryStatus.eqb (UserStoryModel.status s)
                  UserStoryStatus.DONE) eqn:D; [|reflexivity].
      apply UserStoryStatus_eqb_eq in D. exfalso.
      apply (Hnone s); [apply filter_In; auto|exact D]. }
    rewrite E. lia.
Qed.

(** ** Webhook: tables after a delivery *)






(** ** Dashboard after other requests *)

Lemma current_sprint_sprints (a b : DB) :
  sprints a = sprints b -> current_sprint a = current_sprint b.
Proof. unfold current_sprint, active_sprints. intros ->. reflexivity. Qed.



(** ** Rollup and task requests: what is written and what is not *)

Lemma get_story_set_story_status_other (db : DB) (key key' : Z)
    (v : UserStoryStatus.t) :
  key' <> key ->
  get_story (set_story_status key v db) key' = get_story db key'.
Proof.
  intros Hne. unfold get_story, set_story_status. simpl.
  induction (user_stories db) as [|s l IH]; simpl; [reflexivity|].
  destruct (Z.eqb_spec (UserStoryModel.id s) key) as [E|E]; simpl.
  - destruct (Z.eqb_spec (UserStoryModel.id s) key'); [congruence|exact IH].
  - destruct (UserStoryModel.id s =? key'); [reflexivity|exact IH].
Qed.

(** X18.  The rollup writes one column of one story: every other story
    reads as before, the story itself keeps everything but its status, no
    other table is written, and a second rollup changes nothing more. *)
Theorem sync_story_status_local (db : DB) (story : UserStoryModel.t) :
  (forall key, key <> UserStoryModel.id story ->
     get_story (sync_story_status db story) key = get_story db key)
  /\ (forall row, get_story db (UserStoryModel.id story) = Some row ->
        exists v,
          get_story (sync_story_status db story) (UserStoryModel.id story)
          = Some (UserStoryModel.set_status v row))
  /\ tasks (sync_story_status db story) = tasks db
  /\ sprints (sync_story_status db story) = sprints db
  /\ github_links (sync_story_status db story) = github_links db
  /\ burndown_snapshots (sync_story_status db story) = burndown_snapshots db
  /\ sync_story_status (sync_story_status db story) story
     = sync_story_status db story.
Proof.
  split.
  { intros key Hne. rewrite sync_story_status_cases.
    destruct (story_tasks db story); [reflexivity|].
    apply get_story_set_story_status_other, Hne. }
  split.
  { intros row Hrow. rewrite sync_story_status_cases.
    destruct (story_tasks db story).
    - exists (UserStoryModel.status row). rewrite Hrow. f_equal.
      destruct row; reflexivity.
    - eexists. apply get_story_set_story_status, Hrow. }
  destruct (sync_story_status_tables db story) as (T1 & T2 & T3 & T4).
  repeat (split; [assumption|]).
  apply sync_story_status_rolled_up.
Qed.

Lemma get_task_tasks (a b : DB) (key : Z) :
  tasks a = tasks b -> get_task a key = get_task b key.
Proof. unfold get_task. intros ->. reflexivity. Qed.

(** X19.  A task for an unknown story is refused with 404.  Otherwise the
    task is stored under a key no task had, with the fields that were
    sent, can be read back under that key, hides no other task, and its
    story ends rolled up; the primary keys of the store are kept. *)
Theorem create_task_round_trip (payload : TaskCreate) (db : DB) :
  (get_story db (tc_story_id payload) = None ->
   create_task payload db = HTTPException 404 "Story not found")
  /\ (forall story, get_story db (tc_story_id payload) = Some story ->
      exists db' task,
        create_task payload db = Ok (db', task)
        /\ task
           = TaskModel.mk (TaskModel.id task) (tc_story_id payload)
               (tc_title payload) (tc_status payload)
               (tc_story_points payload) (tc_is_tech_debt payload)
               (tc_assignee payload)
        /\ get_task db (TaskModel.id task) = None
        /\ get_task db' (TaskModel.id task) = Some task
        /\ (forall key, key <> TaskModel.id task ->
                        get_task db' key = get_task db key)
        /\ rolled_up db' story
        /\ (primary_keys db -> primary_keys db')).
Proof.
  unfold create_task. split; [intros ->; reflexivity|].
  intros story Hs. rewrite Hs.
  set (key := next_id (map TaskModel.id (tasks db))).
  set (task := TaskModel.mk key (tc_story_id payload) (tc_title payload)
                 (tc_status payload) (tc_story_points payload)
                 (tc_is_tech_debt payload) (tc_assignee payload)).
  set (db1 := with_tasks (tasks db ++ [task]) db).
  exists (sync_story_status db1 story), task.
  assert (Hfresh : forall r, In r (tasks db) ->
                             TaskModel.id r < TaskModel.id task)
    by (intros r Hr; apply next_id_fresh, in_map, Hr).
  destruct (sync_story_status_tables db1 story) as (T1 & T2 & T3 & T4).
  split; [reflexivity|]. split; [reflexivity|]. split.
  { unfold get_task. destruct (find _ (tasks db)) as [r|] eqn:F;
      [|reflexivity].
    apply find_some in F. destruct F as [F1 F2]. apply Z.eqb_eq in F2.
    specialize (Hfresh r F1). lia. }
  split.
  { rewrite (get_task_tasks _ db1) by exact T1.
    unfold get_task, db1. simpl tasks.
    rewrite find_id_app_fresh by exact Hfresh.
    rewrite Z.eqb_refl. reflexivity. }
  split.
  { intros k Hk. rewrite (get_task_tasks _ db1) by exact T1.
    unfold get_task, db1. simpl tasks.
    rewrite find_id_app_fresh by exact Hfresh.
    destruct (Z.eqb_spec (TaskModel.id task) k); [congruence|reflexivity]. }
  split; [apply sync_story_status_rolled_up|].
  intros (P1 & P2 & P3 & P4 & P5). unfold primary_keys.
  rewrite T1, T2, T3, T4, sync_story_status_story_ids.
  unfold db1. simpl. repeat split; auto.
  rewrite map_app. simpl. apply NoDup_app_fresh, P3.
Qed.

Lemma find_id_filter_out {Row : Type} (key : Row -> Z) (rows : list Row)
    (k k' : Z) :
  find (fun r => key r =? k')
       (filter (fun r => negb (key r =? k)) rows)
  = if k' =? k then None else find (fun r => key r =? k') rows.
Proof.
  induction rows as [|r rows IH]; simpl.
  - destruct (k' =? k); reflexivity.
  - destruct (Z.eqb_spec (key r) k) as [E|E]; simpl.
    + rewrite IH. destruct (Z.eqb_spec k' k) as [E'|E']; [reflexivity|].
      destruct (Z.eqb_spec (key r) k'); [congruence|reflexivity].
    + destruct (Z.eqb_spec (key r) k') as [E'|E'].
      * destruct (Z.eqb_spec k' k); [congruence|reflexivity].
      * exact IH.
Qed.

(** X20.  Deleting an unknown task is refused with 404.  Otherwise the task
    can no longer be read, every other task reads as before, the links of
    the task are gone and all other links are kept; and when the task was
    the only one of its story, the story keeps the status it had. *)
Theorem delete_task_cascade (task_id : Z) (db : DB) :
  (get_task db task_id = None ->
   delete_task task_id db = HTTPException 404 "Task not found")
  /\ (forall task, get_task db task_id = Some task ->
      exists db',
        delete_task task_id db = Ok db'
        /\ get_task db' task_id = None
        /\ (forall key, key <> task_id ->
                        get_task db' key = get_task db key)
        /\ (forall l, In l (github_links db') <->
                      In l (github_links db)
                      /\ GitHubLinkModel.task_id l <> task_id)
        /\ (forall story,
              get_story db (TaskModel.story_id task) = Some story ->
              (forall k, In k (tasks db) ->
                         TaskModel.story_id k = UserStoryModel.id story ->
                         TaskModel.id k = task_id) ->
              get_story db' (UserStoryModel.id story)
              = get_story db (UserStoryModel.id story))).
Proof.
  unfold delete_task. split; [intros ->; reflexivity|].
  intros task Ht. rewrite Ht.
  set (db1 := with_github_links
                (filter (fun l => negb (GitHubLinkModel.task_id l =? task_id))
                        (github_links db))
                (with_tasks
                   (filter (fun k => negb (TaskModel.id k =? task_id))
                           (tasks db))
                   db)).
  assert (G1 : forall key,
            get_task db1 key
            = if key =? task_id then None else get_task db key).
  { intros key. unfold get_task, db1. simpl tasks.
    apply (find_id_filter_out TaskModel.id). }
  assert (L1 : forall l, In l (github_links db1) <->
                         In l (github_links db)
                         /\ GitHubLinkModel.task_id l <> task_id).
  { intros l. unfold db1. simpl github_links. rewrite filter_In.
    rewrite negb_true_iff, Z.eqb_neq. tauto. }
  unfold task_story.
  destruct (get_story db (TaskModel.story_id task)) as [story|] eqn:Es.
  - destruct (sync_story_status_tables db1 story) as (T1 & T2 & T3 & T4).
    exists (sync_story_status db1 story).
    split; [reflexivity|]. split.
    { rewrite (get_task_tasks _ db1) by exact T1. rewrite G1, Z.eqb_refl.
      reflexivity. }
    split.
    { intros key Hk. rewrite (get_task_tasks _ db1) by exact T1. rewrite G1.
      destruct (Z.eqb_spec key task_id); [congruence|reflexivity]. }
    split; [intros l; rewrite T3; apply L1|].
    intros story' E Honly. injection E as <-.
    assert (N : story_tasks db1 story = []).
    { unfold story_tasks, db1. simpl tasks.
      destruct (filter _ (filter _ (tasks db))) as [|k t] eqn:F;
        [reflexivity|]. exfalso.
      assert (X : In k (k :: t)) by (left; reflexivity).
      rewrite <- F in X. apply filter_In in X. destruct X as [X1 X2].
      apply filter_In in X1. destruct X1 as [X0 X1].
      apply Z.eqb_eq in X2. apply negb_true_iff, Z.eqb_neq in X1.
      exact (X1 (Honly k X0 X2)). }
    rewrite sync_story_status_cases, N. reflexivity.
  - exists db1. split; [reflexivity|]. split.
    { rewrite G1, Z.eqb_refl. reflexivity. }
    split.
    { intros key Hk. rewrite G1.
      destruct (Z.eqb_spec key task_id); [congruence|reflexivity]. }
    split; [exact L1|]. intros story' E. discriminate.
Qed.

(** X21.  Updating an unknown task is refused with 404.  For a known task,
    a title or a number of points sent as [null] makes the commit raise
    [IntegrityError] and the store stays as it was.  Otherwise the update
    is accepted: the task keeps its key and its story, every field sent has
    the value sent, an assignee sent as [null] being cleared, and every
    field not sent has its stored value; the task can be read back, and no
    other task, no key, no link, sprint or snapshot is changed. *)
Theorem update_task_fields (task_id : Z) (payload : TaskUpdate) (db : DB) :
  (get_task db task_id = None ->
   update_task task_id payload db = HTTPException 404 "Task not found")
  /\ (forall task, get_task db task_id = Some task ->
      ((tu_title payload = Some None
        \/ tu_story_points payload = Some None) ->
       update_task task_id payload db = Unhandled "IntegrityError" db)
      /\ (tu_title payload <> Some None ->
          tu_story_points payload <> Some None ->
          exists db' task',
            update_task task_id payload db = Ok (db', task')
            /\ TaskModel.id task' = task_id
            /\ TaskModel.story_id task' = TaskModel.story_id task
            /\ Some (TaskModel.title task')
               = set_field (tu_title payload) (TaskModel.title task)
            /\ TaskModel.status task'
               = match tu_status payload with
                 | Some sent => sent
                 | None => TaskModel.status task
                 end
            /\ Some (TaskModel.story_points task')
               = set_field (tu_story_points payload)
                   (TaskModel.story_points task)
            /\ TaskModel.is_tech_debt task'
               = match tu_is_tech_debt payload with
                 | Some sent => sent
                 | None => TaskModel.is_tech_debt task
                 end
            /\ TaskModel.assignee task'
               = match tu_assignee payload with
                 | Some sent => sent
                 | None => TaskModel.assignee task
                 end
            /\ get_task db' task_id = Some task'
            /\ (forall key, key <> task_id ->
                            get_task db' key = get_task db key)
            /\ map TaskModel.id (tasks db') = map TaskModel.id (tasks db)
            /\ github_links db' = github_links db
            /\ sprints db' = sprints db
            /\ burndown_snapshots db' = burndown_snapshots db)).
Proof.
  unfold update_task. split; [intros ->; reflexivity|].
  intros task Ht. rewrite Ht.
  assert (Hid : TaskModel.id task = task_id).
  { apply find_some in Ht. apply Z.eqb_eq, (proj2 Ht). }
  split.
  { unfold apply_update. intros [H|H]; rewrite H; simpl; [reflexivity|].
    destruct (set_field (tu_title payload) (TaskModel.title task));
      reflexivity. }
  intros Hn1 Hn2.
  destruct (set_field (tu_title payload) (TaskModel.title task))
    as [title|] eqn:F1.
  2:{ exfalso. apply Hn1. unfold set_field in F1.
      destruct (tu_title payload) as [[v|]|]; congruence. }
  destruct (set_field (tu_story_points payload)
              (TaskModel.story_points task)) as [points|] eqn:F2.
  2:{ exfalso. apply Hn2. unfold set_field in F2.
      destruct (tu_story_points payload) as [[v|]|]; congruence. }
  unfold apply_update. rewrite F1, F2.
  set (task' := TaskModel.mk (TaskModel.id task) (TaskModel.story_id task)
                  title (or_else (tu_status payload) (TaskModel.status task))
                  points
                  (or_else (tu_is_tech_debt payload)
                           (TaskModel.is_tech_debt task))
                  (or_else (tu_assignee payload) (TaskModel.assignee task))).
  set (db1 := with_tasks
                (map (fun k => if TaskModel.id k =? task_id then task' else k)
                     (tasks db))
                db).
  assert (G1 : forall key,
            get_task db1 key
            = if key =? task_id
              then option_map (fun _ => task') (get_task db task_id)
              else get_task db key).
  { intros key. unfold get_task, db1. simpl tasks.
    apply (find_id_map_replace TaskModel.id). exact Hid. }
  assert (I1 : map TaskModel.id (tasks db1) = map TaskModel.id (tasks db)).
  { unfold db1. simpl tasks. rewrite map_map. apply map_ext_in.
    intros k _. destruct (Z.eqb_spec (TaskModel.id k) task_id);
      [|reflexivity]. simpl. congruence. }
  assert (Core : forall db',
            tasks db' = tasks db1 -> github_links db' = github_links db ->
            sprints db' = sprints db ->
            burndown_snapshots db' = burndown_snapshots db ->
            TaskModel.id task' = task_id
            /\ TaskModel.story_id task' = TaskModel.story_id task
            /\ Some (TaskModel.title task') = Some title
            /\ TaskModel.status task'
               = match tu_status payload with
                 | Some sent => sent
                 | None => TaskModel.status task
                 end
            /\ Some (TaskModel.story_points task') = Some points
            /\ TaskModel.is_tech_debt task'
               = match tu_is_tech_debt payload with
                 | Some sent => sent
                 | None => TaskModel.is_tech_debt task
                 end
            /\ TaskModel.assignee task'
               = match tu_assignee payload with
                 | Some sent => sent
                 | None => TaskModel.assignee task
                 end
            /\ get_task db' task_id = Some task'
            /\ (forall key, key <> task_id ->
                            get_task db' key = get_task db key)
            /\ map TaskModel.id (tasks db') = map TaskModel.id (tasks db)
            /\ github_links db' = github_links db
            /\ sprints db' = sprints db
            /\ burndown_snapshots db' = burndown_snapshots db).
  { intros db' T L Sp Bs. split; [exact Hid|]. split; [reflexivity|].
    split; [reflexivity|].
    split; [destruct (tu_status payload); reflexivity|].
    split; [reflexivity|].
    split; [destruct (tu_is_tech_debt payload); reflexivity|].
    split; [destruct (tu_assignee payload); reflexivity|].
    split.
    { rewrite (get_task_tasks _ db1) by exact T.
      rewrite G1, Z.eqb_refl, Ht. reflexivity. }
    split.
    { intros key Hk. rewrite (get_task_tasks _ db1) by exact T. rewrite G1.
      destruct (Z.eqb_spec key task_id); [congruence|reflexivity]. }
    split; [rewrite T; exact I1|]. split; [exact L|]. split; assumption. }
  destruct (task_story db1 task') as [story|].
  - destruct (sync_story_status_tables db1 story) as (T1 & T2 & T3 & T4).
    eexists. eexists. split; [reflexivity|]. apply Core; assumption.
  - eexists. eexists. split; [reflexivity|]. apply Core; reflexivity.
Qed.

(** X22.  An accepted update or deletion of a task ends with the story of
    the task rolled up. *)
Theorem update_delete_roll_up (task_id : Z) (db : DB) (task : TaskModel.t)
    (story : UserStoryModel.t) :
  get_task db task_id = Some task ->
  get_story db (TaskModel.story_id task) = Some story ->
  (forall payload db' task',
     update_task task_id payload db = Ok (db', task') ->
     rolled_up db' story)
  /\ (forall db', delete_task task_id db = Ok db' -> rolled_up db' story).
Proof.
  intros Ht Hs. split.
  - intros payload db' task' H.
    apply (update_task_rolled_up task_id payload db db' task' H).
    assert (E : TaskModel.story_id task' = TaskModel.story_id task).
    { unfold update_task in H. rewrite Ht in H.
      destruct (apply_update payload task) as [k|] eqn:A; [|discriminate].
      assert (X : task' = k)
        by (destruct (task_story _ _); injection H as _ <-; reflexivity).
      subst k. unfold apply_update in A.
      destruct (set_field (tu_title payload) _); [|discriminate].
      destruct (set_field (tu_story_points payload) _); [|discriminate].
      injection A as <-. reflexivity. }
    rewrite E. exact Hs.
  - intros db' H.
    exact (delete_task_rolled_up task_id db db' task Ht H story Hs).
Qed.

(** ** Reference extractor: bounds *)

Lemma int_of_digits_acc_nonneg (ds : text) (acc : Z) :
  0 <= acc -> 0 <= fold_left (fun a c => 10 * a + digit_value c) ds acc.
Proof.
  revert acc. induction ds as [|c ds IH]; intros acc Ha;
    cbn [fold_left]; [exact Ha|].
  apply IH. pose proof (digit_value_range c). lia.
Qed.

Lemma ref_token_facts (tok digits : text) :
  ref_token tok digits ->
  (6 <= List.length tok)%nat /\ In 0x23 tok.
Proof.
  intros (w & ws & -> & (c1 & c2 & c3 & -> & _) & Hne & _ & Hd & _).
  split.
  - rewrite !length_app. simpl.
    destruct ws; [congruence|]. destruct digits; [congruence|]. simpl. lia.
  - apply in_or_app. right. apply in_or_app. right. left. reflexivity.
Qed.

Lemma ref_tokens_facts (s : text) (l : list text) :
  ref_tokens s l ->
  (6 * List.length l <= List.length s)%nat
  /\ (l <> [] -> In 0x23 s).
Proof.
  induction 1 as [|c s l Hn Hr IH|tok digits rest l Ht He Hr IH].
  - split; [simpl; lia|congruence].
  - destruct IH as (I2 & I3). split; [simpl; lia|].
    intros Hl. right. exact (I3 Hl).
  - destruct IH as (I2 & _).
    destruct (ref_token_facts _ _ Ht) as (F2 & F3).
    split; [rewrite length_app; simpl; lia|].
    intros _. apply in_or_app. left. exact F3.
Qed.

Lemma length_list_ascii_of_string (s : string) :
  List.length (list_ascii_of_string s) = String.length s.
Proof. induction s as [|c s IH]; simpl; [reflexivity|]. f_equal. exact IH. Qed.

Lemma checked_not_ascii (lo hi v : Z) : 0x80 <= lo -> 0x80 <= checked lo hi v.
Proof.
  intros H. unfold checked, replacement.
  destruct ((lo <=? v) && (v <=? hi)) eqn:E; [|lia].
  apply andb_true_iff in E. rewrite !Z.leb_le in E. lia.
Qed.

(** A step of the decoder consumes at least the first byte, and yields a
    code point below 128 only when that byte is the code point. *)
Lemma utf8_next_spec (b0 : Z) (r0 : list Z) :
  (exists pre, r0 = pre ++ snd (utf8_next b0 r0))
  /\ (fst (utf8_next b0 r0) < 0x80 -> fst (utf8_next b0 r0) = b0).
Proof.
  assert (R : (exists pre : list Z, r0 = pre ++ r0)
              /\ (replacement < 0x80 -> replacement = b0)).
  { split; [exists []; reflexivity|unfold replacement; lia]. }
  unfold utf8_next.
  destruct (b0 <? 0x80); [split; [exists []; reflexivity|reflexivity]|].
  destruct ((0xC0 <=? b0) && (b0 <? 0xE0)).
  { destruct r0 as [|b1 r1]; [exact R|].
    destruct (continuation b1); [|exact R]. split.
    - exists [b1]. reflexivity.
    - cbn [fst]. intros H.
      pose proof (checked_not_ascii 0x80 0x7FF
                    ((b0 - 0xC0) * 64 + (b1 - 0x80))). lia. }
  destruct ((0xE0 <=? b0) && (b0 <? 0xF0)).
  { destruct r0 as [|b1 [|b2 r2]]; try exact R.
    destruct (continuation b1 && continuation b2); [|exact R]. split.
    - exists [b1; b2]. reflexivity.
    - cbn [fst]. intros H.
      pose proof (checked_not_ascii 0x800 0xFFFF
                    ((b0 - 0xE0) * 4096 + (b1 - 0x80) * 64 + (b2 - 0x80))).
      lia. }
  destruct ((0xF0 <=? b0) && (b0 <? 0xF8)); [|exact R].
  destruct r0 as [|b1 [|b2 [|b3 r3]]]; try exact R.
  destruct (continuation b1 && continuation b2 && continuation b3);
    [|exact R].
  split.
  - exists [b1; b2; b3]. reflexivity.
  - cbn [fst]. intros H.
    pose proof (checked_not_ascii 0x10000 0x10FFFF
                  ((b0 - 0xF0) * 262144 + (b1 - 0x80) * 4096
                   + (b2 - 0x80) * 64 + (b3 - 0x80))).
    lia.
Qed.

(** There are no more code points than bytes, and a code point below 128
    is one of the bytes. *)
Lemma utf8_decode_facts (fuel : nat) (bs : list Z) :
  (List.length (utf8_decode fuel bs) <= List.length bs)%nat
  /\ forall c, In c (utf8_decode fuel bs) -> c < 0x80 -> In c bs.
Proof.
  revert bs. induction fuel as [|fuel IH]; intros bs.
  - simpl. split; [lia|tauto].
  - destruct bs as [|b0 r0]; [simpl; split; [lia|tauto]|].
    cbn [utf8_decode].
    destruct (utf8_next_spec b0 r0) as [[pre E] Hc].
    destruct (utf8_next b0 r0) as [c rest]. cbn [fst snd] in E, Hc.
    destruct (IH rest) as [I1 I2]. split.
    + apply (f_equal (@List.length Z)) in E. rewrite length_app in E.
      cbn [List.length]. lia.
    + intros x [<-|Hx] Hlt.
      * left. symmetry. apply Hc, Hlt.
      * right. rewrite E. apply in_or_app. right. apply I2; assumption.
Qed.

(** X23.  The extractor never yields a negative number, yields at most one
    number for every six characters of text, and yields nothing for a text
    without the character [#]. *)
Theorem extractTaskIds_bounds (s : string) :
  Forall (fun n => 0 <= n) (extractTaskIds s)
  /\ (6 * List.length (extractTaskIds s) <= String.length s)%nat
  /\ ((forall c, In c (list_ascii_of_string s) -> is_hash c = false) ->
      extractTaskIds s = []).
Proof.
  pose proof (findall_from_tokens (List.length (code_points s))
                (code_points s) (Nat.le_refl _)) as H.
  fold (findall (code_points s)) in H.
  destruct (ref_tokens_facts _ _ H) as (F2 & F3).
  destruct (utf8_decode_facts
              (List.length (map code (list_ascii_of_string s)))
              (map code (list_ascii_of_string s))) as (U1 & U2).
  fold (code_points s) in U1, U2.
  rewrite length_map, length_list_ascii_of_string in U1.
  unfold extractTaskIds. split; [|split].
  - apply Forall_forall. intros n Hn. apply in_map_iff in Hn.
    destruct Hn as [ds [<- Hds]].
    apply int_of_digits_acc_nonneg. lia.
  - rewrite length_map. lia.
  - intros Hno.
    destruct (findall (code_points s)) as [|g l] eqn:E; [reflexivity|].
    assert (X : In 0x23 (map code (list_ascii_of_string s))).
    { apply U2; [apply F3; discriminate|lia]. }
    apply in_map_iff in X. destruct X as [a [Ea Ha]].
    specialize (Hno a Ha). unfold is_hash in Hno. rewrite Ea in Hno.
    discriminate.
Qed.

(** ** Requests that compose with the invariants *)


(** A capture repeated on its own result finds every row in place. *)
Lemma capture_again (today : date) (for_date : option date) (db : DB) :
  primary_keys db -> one_snapshot_per_day db ->
  fst (capture_burndown_snapshots today for_date
         (fst (capture_burndown_snapshots today for_date db)))
  = fst (capture_burndown_snapshots today for_date db).
Proof.
  intros HK Hone. rewrite !capture_target. simpl fst.
  set (d := or_else for_date today).
  set (T1 := fold_left (capture_sprint db d) (active_sprints db)
                       (burndown_snapshots db)).
  destruct (capture_once db d HK Hone) as (Hnd & _ & Hact).
  fold T1 in Hnd, Hact.
  assert (Hfix :
    forall sps, (forall sp, In sp sps -> In sp (active_sprints db)) ->
      fold_left (capture_sprint (with_burndown_snapshots T1 db) d) sps T1
      = T1).
  { induction sps as [|sp sps IH]; intros Hsub; [reflexivity|]. simpl.
    assert (Hsp : In sp (active_sprints db)) by (apply Hsub; left; auto).
    destruct (Hact sp Hsp) as [Hc Hv].
    assert (E : capture_sprint (with_burndown_snapshots T1 db) d T1 sp = T1).
    { unfold capture_sprint. simpl burndown_snapshots.
      destruct (filter (snapshot_at (SprintModel.id sp) d) T1)
        as [|r t] eqn:F; [discriminate|]. simpl first.
      assert (X : In r (filter (snapshot_at (SprintModel.id sp) d) T1))
        by (rewrite F; left; reflexivity).
      apply filter_In in X. destruct X as [X1 X2].
      change (calculate_remaining_points (with_burndown_snapshots T1 db)
                (SprintModel.id sp))
        with (calculate_remaining_points db (SprintModel.id sp)).
      rewrite <- (Hv r X1 X2). apply overwrite_same; auto. }
    rewrite E. apply IH. intros x Hx. apply Hsub. right. exact Hx. }
  change (active_sprints (with_burndown_snapshots T1 db))
    with (active_sprints db).
  rewrite (Hfix (active_sprints db)) by auto. reflexivity.
Qed.

(** X25.  On a store with unique keys and at most one snapshot per sprint
    and day, asking twice for the same number of remaining days is asking
    once: the second request answers as the first did and leaves the clock
    and the store as the first left them. *)
Theorem simulate_set_remaining_days_idempotent (real_today target : Z)
    (w w1 : World) (r1 : RemainingResponse) :
  primary_keys (store w) -> one_snapshot_per_day (store w) ->
  simulate_set_remaining_days real_today target w = Ok (w1, r1) ->
  simulate_set_remaining_days real_today target w1 = Ok (w1, r1).
Proof.
  intros HK Hone H. unfold simulate_set_remaining_days in *.
  destruct (target <? 0); [discriminate|].
  destruct (current_sprint (store w)) as [sprint|] eqn:E; [|discriminate].
  cbn [store SIMULATION_OFFSET_DAYS get_today] in *.
  unfold get_today in *. cbn [SIMULATION_OFFSET_DAYS] in *.
  set (off := SprintModel.end_date sprint - real_today - target) in *.
  destruct (date_in_range (real_today + off)) eqn:R; [|discriminate].
  injection H as Hw Hr.
  assert (C1 : current_sprint (store w1) = Some sprint).
  { rewrite <- E. apply current_sprint_sprints. rewrite <- Hw. reflexivity. }
  rewrite C1. fold off. rewrite R.
  assert (S1 : store w1
               = fst (capture_burndown_snapshots (real_today + off)
                        (Some (real_today + off)) (store w)))
    by (rewrite <- Hw; reflexivity).
  match goal with
  | |- Ok (mkWorld ?X _, _) = _ => assert (G : X = store w1)
  end.
  { rewrite S1. apply capture_again; assumption. }
  rewrite G, <- Hr. f_equal. f_equal. rewrite <- Hw. reflexivity.
Qed.

(** ** The further properties on the sample stores *)

Lemma NoDup_tasks_db_one : NoDup (map TaskModel.id (tasks db_one)).
Proof. simpl. repeat constructor. simpl. tauto. Qed.

Lemma primary_keys_db_early : primary_keys db_early.
Proof.
  unfold primary_keys, db_early. simpl.
  repeat split; repeat constructor; simpl; tauto.
Qed.


Lemma eligible_task_one :
  eligible db_one sprint_one TaskStatus.TODO task_one.
Proof.
  split; [left; reflexivity|]. split; [reflexivity|].
  exists story_one. split; reflexivity.
Qed.

Lemma create_sprint_checked_witness :
  20 <= 25
  /\ exists db' sprint,
       create_sprint
         (mkSprintCreate "Sprint 3" None 20 25 SprintStatus.ACTIVE) db_one
       = Ok (db', sprint)
       /\ get_sprint db' (SprintModel.id sprint) = Some sprint.
Proof.
  assert (H : 20 <= 25) by lia. split; [exact H|].
  destruct (proj2 (create_sprint_checked
                     (mkSprintCreate "Sprint 3" None 20 25 SprintStatus.ACTIVE)
                     db_one) H)
    as (db' & sprint & H1 & _ & _ & _ & _ & H2 & _).
  exists db', sprint. auto.
Defined.

Lemma update_sprint_checked_witness :
  get_sprint db_one 1 = Some sprint_one
  /\ update_sprint 1 (mkSprintUpdate None None None (Some (Some 9)) None)
       db_one
     = HTTPException 400 "End date must be after start date"
  /\ update_sprint 1 (mkSprintUpdate None None (Some None) None None) db_one
     = Unhandled "TypeError" db_one
  /\ exists db' sprint',
       update_sprint 1
         (mkSprintUpdate None (Some None) None (Some (Some 14)) None)
         (with_sprints
            [SprintModel.mk 1 "Sprint 1" (Some "Ship login"%string) 10 12
               SprintStatus.ACTIVE]
            db_one)
       = Ok (db', sprint')
       /\ SprintModel.goal sprint' = None
       /\ SprintModel.end_date sprint' = 14.
Proof.
  split; [reflexivity|]. split; [|split].
  - apply (proj1 (proj2 (proj2 (update_sprint_checked 1
                    (mkSprintUpdate None None None (Some (Some 9)) None)
                    db_one)
                 sprint_one eq_refl) 10 9 eq_refl eq_refl)).
    lia.
  - apply (proj1 (proj2 (update_sprint_checked 1
                    (mkSprintUpdate None None (Some None) None None) db_one)
                 sprint_one eq_refl)).
    left. reflexivity.
  - destruct (proj2 (proj2 (proj2 (proj2 (update_sprint_checked 1
                 (mkSprintUpdate None (Some None) None (Some (Some 14)) None)
                 (with_sprints
                    [SprintModel.mk 1 "Sprint 1" (Some "Ship login"%string)
                       10 12 SprintStatus.ACTIVE]
                    db_one))
               _ eq_refl) 10 14 eq_refl eq_refl)))
      as (db' & sprint' & H1 & _ & _ & H4 & _ & H6 & _).
    + lia.
    + discriminate.
    + exists db', sprint'. auto.
Defined.

Lemma simulate_progress_forward_witness :
  NoDup (map TaskModel.id (tasks db_one))
  /\ exists moved extra, tasks (simulate_progress db_one) = moved ++ extra.
Proof.
  split; [exact NoDup_tasks_db_one|].
  destruct (simulate_progress_forward db_one NoDup_tasks_db_one)
    as (moved & extra & H & _).
  exists moved, extra. exact H.
Defined.

Lemma simulate_progress_one_unit_witness :
  NoDup (map TaskModel.id (tasks db_one))
  /\ progress (simulate_progress db_one) = progress db_one + 1.
Proof.
  split; [exact NoDup_tasks_db_one|].
  exact (simulate_progress_one_unit db_one NoDup_tasks_db_one).
Defined.

Lemma simulate_progress_rolls_up_witness :
  current_sprint db_one = Some sprint_one
  /\ (exists x st, st <> TaskStatus.DONE /\ eligible db_one sprint_one st x)
  /\ exists k st story,
       moved db_one k st (simulate_progress db_one)
       /\ stage st = stage (TaskModel.status k) + 1
       /\ get_story db_one (TaskModel.story_id k) = Some story
       /\ rolled_up (simulate_progress db_one) story.
Proof.
  assert (H : exists x st, st <> TaskStatus.DONE
                           /\ eligible db_one sprint_one st x).
  { exists task_one, TaskStatus.TODO.
    split; [discriminate|exact eligible_task_one]. }
  split; [reflexivity|]. split; [exact H|].
  destruct (simulate_progress_rolls_up db_one sprint_one eq_refl H)
    as (k & st & story & _ & _ & H3 & H4 & H5 & _ & _ & _ & H9).
  exists k, st, story. auto.
Defined.

Lemma capture_keeps_invariants_witness :
  primary_keys db_one
  /\ one_snapshot_per_day db_one
  /\ one_snapshot_per_day (fst (capture_burndown_snapshots 10 None db_one)).
Proof.
  assert (U : one_snapshot_per_day db_one)
    by (apply one_snapshot_per_day_empty; reflexivity).
  split; [exact primary_keys_db_one|]. split; [exact U|].
  exact (proj2 (capture_keeps_invariants 10 None db_one
                  primary_keys_db_one U)).
Defined.

Lemma capture_leaves_other_rows_witness :
  primary_keys db_early
  /\ In (BurndownSnapshotModel.mk 1 1 8 3) (burndown_snapshots db_early)
  /\ In (BurndownSnapshotModel.mk 1 1 8 3)
        (burndown_snapshots (fst (capture_burndown_snapshots 10 None db_early))).
Proof.
  assert (H : In (BurndownSnapshotModel.mk 1 1 8 3)
                 (burndown_snapshots db_early)) by (left; reflexivity).
  split; [exact primary_keys_db_early|]. split; [exact H|].
  apply (capture_leaves_other_rows 10 None db_early _ primary_keys_db_early H).
  left. simpl. lia.
Defined.

Lemma capture_adds_only_for_active_witness :
  (forall sp, In sp (sprints db_one) ->
              SprintModel.status sp = SprintStatus.ACTIVE ->
              SprintModel.id sp <> 7)
  /\ snapshot_count (fst (capture_burndown_snapshots 10 None db_one)) 7 10
     = snapshot_count db_one 7 10.
Proof.
  assert (H : forall sp, In sp (sprints db_one) ->
                SprintModel.status sp = SprintStatus.ACTIVE ->
                SprintModel.id sp <> 7).
  { intros sp [<-|[]] _. simpl. lia. }
  split; [exact H|].
  exact (capture_adds_only_for_active 10 None db_one 7 10 (or_intror H)).
Defined.

Lemma simulate_advance_days_clock_witness :
  0 < 3
  /\ (forall i, 1 <= i <= 3 ->
        date_in_range (get_today 9 (mkWorld db_one 0) + i) = true)
  /\ exists w' resp,
       simulate_advance_days 9 3 (mkWorld db_one 0) = Ok (w', resp)
       /\ SIMULATION_OFFSET_DAYS w' = 0 + 3.
Proof.
  assert (H : 0 < 3) by lia. split; [exact H|].
  assert (R : forall i, 1 <= i <= 3 ->
                date_in_range (get_today 9 (mkWorld db_one 0) + i) = true).
  { intros i Hi. apply date_in_range_spec.
    unfold get_today, date_max. cbn [SIMULATION_OFFSET_DAYS]. lia. }
  split; [exact R|].
  destruct (proj1 (proj2 (simulate_advance_days_clock 9 3 (mkWorld db_one 0)))
              H R)
    as (w' & resp & H1 & H2 & _).
  exists w', resp. auto.
Defined.

Lemma simulate_advance_days_snapshots_witness :
  primary_keys db_one
  /\ exists w' resp,
       simulate_advance_days 9 2 (mkWorld db_one 0) = Ok (w', resp)
       /\ primary_keys (store w').
Proof.
  split; [exact primary_keys_db_one|].
  eexists. eexists. split; [reflexivity|].
  exact (proj1 (simulate_advance_days_snapshots 9 2 (mkWorld db_one 0) _ _
                  primary_keys_db_one eq_refl)).
Defined.

Lemma build_burndown_payload_ideal_bounds_witness :
  (1 <= 2)%nat
  /\ exists p q,
       nth_error (build_burndown_payload db_ten sprint_four) 1 = Some p
       /\ nth_error (build_burndown_payload db_ten sprint_four) 2 = Some q
       /\ (ideal q <= ideal p)%Q
       /\ (ideal p <= inject_Z 10)%Q.
Proof.
  assert (H : (1 <= 2)%nat) by lia. split; [exact H|].
  eexists. eexists. split; [reflexivity|]. split; [reflexivity|].
  destruct (build_burndown_payload_ideal_bounds db_ten sprint_four 1 2 _ _
              H eq_refl eq_refl) as (B1 & _ & _ & B4).
  split; [exact B1|]. apply B4. vm_compute. discriminate.
Defined.


Lemma calculate_remaining_points_bounds_witness :
  (forall s, In s (sprint_stories db_one sprint_one) ->
             0 <= UserStoryModel.story_points s)
  /\ 0 <= calculate_remaining_points db_one 1
     <= sprint_total_points db_one sprint_one.
Proof.
  assert (H : forall s, In s (sprint_stories db_one sprint_one) ->
                        0 <= UserStoryModel.story_points s).
  { intros s [<-|[]]. simpl. lia. }
  split; [exact H|].
  exact (proj1 (calculate_remaining_points_bounds db_one sprint_one H)).
Defined.



Lemma create_task_round_trip_witness :
  get_story db_one 1 = Some story_one
  /\ exists db' task,
       create_task
         (mkTaskCreate "Login form" 1 3 TaskStatus.IN_PROGRESS false None)
         db_one
       = Ok (db', task)
       /\ get_task db' (TaskModel.id task) = Some task
       /\ rolled_up db' story_one.
Proof.
  split; [reflexivity|].
  destruct (proj2 (create_task_round_trip
                     (mkTaskCreate "Login form" 1 3 TaskStatus.IN_PROGRESS
                                   false None) db_one) story_one eq_refl)
    as (db' & task & H1 & _ & _ & H4 & _ & H6 & _).
  exists db', task. auto.
Defined.

Lemma delete_task_cascade_witness :
  get_task db_one 1 = Some task_one
  /\ exists db', delete_task 1 db_one = Ok db' /\ get_task db' 1 = None.
Proof.
  split; [reflexivity|].
  destruct (proj2 (delete_task_cascade 1 db_one) task_one eq_refl)
    as (db' & H1 & H2 & _).
  exists db'. auto.
Defined.

Lemma update_task_fields_witness :
  get_task db_one 1 = Some task_one
  /\ update_task 1 (mkTaskUpdate (Some None) None None None None) db_one
     = Unhandled "IntegrityError" db_one
  /\ exists db' task',
       update_task 1
         (mkTaskUpdate None (Some TaskStatus.DONE) None None (Some None))
         (with_tasks
            [TaskModel.mk 1 1 "Login endpoint" TaskStatus.TODO 5 false
               (Some "ada"%string)]
            db_one)
       = Ok (db', task')
       /\ TaskModel.status task' = TaskStatus.DONE
       /\ TaskModel.assignee task' = None
       /\ TaskModel.title task' = "Login endpoint"%string.
Proof.
  split; [reflexivity|]. split.
  - apply (proj1 (proj2 (update_task_fields 1
                    (mkTaskUpdate (Some None) None None None None) db_one)
                 task_one eq_refl)).
    left. reflexivity.
  - destruct (proj2 (proj2 (update_task_fields 1
                 (mkTaskUpdate None (Some TaskStatus.DONE) None None
                    (Some None))
                 (with_tasks
                    [TaskModel.mk 1 1 "Login endpoint" TaskStatus.TODO 5
                       false (Some "ada"%string)]
                    db_one))
               _ eq_refl))
      as (db' & task' & H1 & _ & _ & H4 & H5 & _ & _ & H8 & _).
    + discriminate.
    + discriminate.
    + exists db', task'. split; [exact H1|]. split; [exact H5|].
      split; [exact H8|]. simpl in H4. congruence.
Defined.

Lemma update_delete_roll_up_witness :
  get_task db_one 1 = Some task_one
  /\ get_story db_one (TaskModel.story_id task_one) = Some story_one
  /\ forall db', delete_task 1 db_one = Ok db' -> rolled_up db' story_one.
Proof.
  split; [reflexivity|]. split; [reflexivity|].
  exact (proj2 (update_delete_roll_up 1 db_one task_one story_one
                  eq_refl eq_refl)).
Defined.


Lemma simulate_set_remaining_days_idempotent_witness :
  primary_keys db_one
  /\ one_snapshot_per_day db_one
  /\ exists w1 r1,
       simulate_set_remaining_days 9 2 (mkWorld db_one 0) = Ok (w1, r1)
       /\ simulate_set_remaining_days 9 2 w1 = Ok (w1, r1).
Proof.
  assert (U : one_snapshot_per_day db_one)
    by (apply one_snapshot_per_day_empty; reflexivity).
  split; [exact primary_keys_db_one|]. split; [exact U|].
  eexists. eexists. split; [reflexivity|].
  exact (simulate_set_remaining_days_idempotent 9 2 (mkWorld db_one 0) _ _
           primary_keys_db_one U eq_refl).
Defined.
